(** * hum-ai-catalogr: the document cataloguer (src/document_cataloger.py)

    A shallow embedding of [DocumentCataloguer] and of the properties its
    specification states about it.

    Conventions of the embedding.
    - A Python [str] is the [string] of its UTF-8 bytes.  Lengths and
      slices by a number count code points ([PyStr.len], [PyStr.cut]), and
      [PyStr.strip] strips the white space of [str.strip], past ASCII too.
      The case mappings and the character classes of the regular
      expressions are the ASCII ones, exact on ASCII text: a byte above 127
      is of no class and of no case.
    - Console output is left out: [print] is taken not to fail.
    - A [pathlib.Path] is its [parts] tuple (POSIX flavour).
    - A Python [dict] is an association list in insertion order, keys unique.
    - Exceptions are values of [exn] carried by the [result] monad.
    - The collaborators the program calls but does not define (SHA-256, the
      PDF/DOCX text extractors, the Ollama endpoint, [json.loads],
      [pd.read_csv], the clock) are the fields of an [Env] record; theorems
      quantify over it.
    - The file system and the persisted table are the [World]; functions that
      change it return the new one. *)

From Stdlib Require Import String Ascii List Bool Arith ZArith Lia DecimalString.
Import ListNotations.
Open Scope string_scope.
Open Scope list_scope.

Set Implicit Arguments.

(* ================================================================= *)
(** ** Python strings *)

Module PyStr.

Definition code (c : ascii) : nat := nat_of_ascii c.

Definition between (lo hi : nat) (c : ascii) : bool :=
  (lo <=? code c)%nat && (code c <=? hi)%nat.

Definition is_digit (c : ascii) : bool := between 48 57 c.
Definition is_upper (c : ascii) : bool := between 65 90 c.
Definition is_lower (c : ascii) : bool := between 97 122 c.
Definition is_alpha (c : ascii) : bool := is_upper c || is_lower c.
Definition is_alnum (c : ascii) : bool := is_alpha c || is_digit c.

(** [\w] of the [re] module, on ASCII text. *)
Definition is_word (c : ascii) : bool := is_alnum c || (code c =? 95)%nat.

(** [str.isspace] on a character below 128. *)
Definition is_space (c : ascii) : bool :=
  between 9 13 c || between 28 32 c.

Definition lower_char (c : ascii) : ascii :=
  if is_upper c then ascii_of_nat (code c + 32) else c.

Definition upper_char (c : ascii) : ascii :=
  if is_lower c then ascii_of_nat (code c - 32) else c.

Fixpoint map (f : ascii -> ascii) (s : string) : string :=
  match s with
  | EmptyString => EmptyString
  | String c s' => String (f c) (map f s')
  end.

Fixpoint filter (p : ascii -> bool) (s : string) : string :=
  match s with
  | EmptyString => EmptyString
  | String c s' => if p c then String c (filter p s') else filter p s'
  end.

Fixpoint forallb (p : ascii -> bool) (s : string) : bool :=
  match s with
  | EmptyString => true
  | String c s' => p c && forallb p s'
  end.

(** [s.lower()], [s.upper()] *)
Definition lower : string -> string := map lower_char.
Definition upper : string -> string := map upper_char.

(** [s.startswith(p)] *)
Fixpoint startswith (p s : string) : bool :=
  match p, s with
  | EmptyString, _ => true
  | String a p', String b s' => Ascii.eqb a b && startswith p' s'
  | String _ _, EmptyString => false
  end.

(** [sub in s] *)
Fixpoint contains (sub s : string) : bool :=
  startswith sub s ||
  match s with
  | EmptyString => false
  | String _ s' => contains sub s'
  end.

(** [s[:n]] and [s[n:]] for [n >= 0] *)
Fixpoint take (n : nat) (s : string) : string :=
  match n, s with
  | S n', String c s' => String c (take n' s')
  | _, _ => EmptyString
  end.

Fixpoint drop (n : nat) (s : string) : string :=
  match n, s with
  | S n', String _ s' => drop n' s'
  | _, _ => s
  end.

(** [s[i:j]] for [0 <= i], [0 <= j] *)
Definition slice (i j : nat) (s : string) : string := take (j - i) (drop i s).

(** [take], [drop] and [slice] count bytes: they serve where the index is
    one that [find] or [rfind] returned, and on ASCII text.  What follows
    counts code points. *)

(** Every byte is below 128. *)
Definition is_ascii : string -> bool := forallb (fun c => (code c <? 128)%nat).

(** A byte that continues the UTF-8 sequence of a code point. *)
Definition is_cont (c : ascii) : bool := between 128 191 c.

(** [len(s)] *)
Fixpoint len (s : string) : nat :=
  match s with
  | EmptyString => 0
  | String c s' => if is_cont c then len s' else S (len s')
  end.

Fixpoint cut_from (n : nat) (s : string) : string :=
  match s with
  | EmptyString => EmptyString
  | String c s' =>
      if is_cont c then String c (cut_from n s')
      else match n with
           | O => EmptyString
           | S n' => String c (cut_from n' s')
           end
  end.

(** [s[:n]] for [n >= 0]: the first [n] code points. *)
Definition cut (n : nat) (s : string) : string :=
  match n with
  | O => EmptyString
  | S _ => cut_from n s
  end.

(** [s.replace(a, b)] for one-character [a] and [b] *)
Definition replace_char (a b : ascii) : string -> string :=
  map (fun c => if Ascii.eqb c a then b else c).

(** [s.find(c)] and [s.rfind(c)] for a one-character [c]; [None] is -1. *)
Fixpoint find (c : ascii) (s : string) : option nat :=
  match s with
  | EmptyString => None
  | String a s' =>
      if Ascii.eqb a c then Some 0
      else match find c s' with Some i => Some (S i) | None => None end
  end.

Fixpoint rfind (c : ascii) (s : string) : option nat :=
  match s with
  | EmptyString => None
  | String a s' =>
      match rfind c s' with
      | Some i => Some (S i)
      | None => if Ascii.eqb a c then Some 0 else None
      end
  end.

(** The white space of [str.isspace] past ASCII, by its UTF-8 bytes:
    U+0085 and U+00A0; U+1680, U+2000 to U+200A, U+2028, U+2029, U+202F,
    U+205F and U+3000. *)
Definition is_space2 (a b : ascii) : bool :=
  (code a =? 194)%nat && ((code b =? 133)%nat || (code b =? 160)%nat).

Definition is_space3 (a b c : ascii) : bool :=
  ((code a =? 225)%nat && (code b =? 154)%nat && (code c =? 128)%nat)
  || ((code a =? 226)%nat && (code b =? 128)%nat
      && (between 128 138 c || (code c =? 168)%nat || (code c =? 169)%nat
          || (code c =? 175)%nat))
  || ((code a =? 226)%nat && (code b =? 129)%nat && (code c =? 159)%nat)
  || ((code a =? 227)%nat && (code b =? 128)%nat && (code c =? 128)%nat).

(** [s.strip()] *)
Fixpoint lstrip (s : string) : string :=
  match s with
  | String a s1 =>
      if is_space a then lstrip s1
      else
        match s1 with
        | String b s2 =>
            if is_space2 a b then lstrip s2
            else
              match s2 with
              | String c s3 => if is_space3 a b c then lstrip s3 else s
              | EmptyString => s
              end
        | EmptyString => s
        end
  | EmptyString => EmptyString
  end.

(** What is left of [s] once the longest tail of white space is gone: the
    text before the first place from which all is white space. *)
Fixpoint rstrip (s : string) : string :=
  match s with
  | EmptyString => EmptyString
  | String c s' => if (lstrip s =? "") then EmptyString else String c (rstrip s')
  end.

Definition strip (s : string) : string := rstrip (lstrip s).

(** A byte of a white-space character. *)
Definition space_byte (c : ascii) : bool :=
  is_space c || between 128 138 c
  || existsb (Nat.eqb (code c)) [194; 133; 160; 225; 154; 226; 129; 159; 227; 168; 169; 175].

(** [s.title()]: a cased character that follows an uncased one is
    upper-cased, one that follows a cased one is lower-cased. *)
Fixpoint title_from (prev_cased : bool) (s : string) : string :=
  match s with
  | EmptyString => EmptyString
  | String c s' =>
      if is_lower c then
        String (if prev_cased then c else upper_char c) (title_from true s')
      else if is_upper c then
        String (if prev_cased then lower_char c else c) (title_from true s')
      else String c (title_from false s')
  end.

Definition title : string -> string := title_from false.

(** [sep.join(l)] *)
Fixpoint join (sep : string) (l : list string) : string :=
  match l with
  | [] => EmptyString
  | [x] => x
  | x :: l' => x ++ sep ++ join sep l'
  end.

(** [s.split(sep)] for a one-character [sep] *)
Fixpoint split_from (sep : ascii) (cur : string) (s : string) : list string :=
  match s with
  | EmptyString => [cur]
  | String c s' =>
      if Ascii.eqb c sep then cur :: split_from sep EmptyString s'
      else split_from sep (cur ++ String c EmptyString) s'
  end.

Definition split (sep : ascii) (s : string) : list string :=
  split_from sep EmptyString s.

(** The first character is a word character. *)
Definition starts_with_word (s : string) : bool :=
  match s with
  | String c _ => is_word c
  | EmptyString => false
  end.

Definition four (a b c d : ascii) : string :=
  String a (String b (String c (String d EmptyString))).

Definition digits4 (a b c d : ascii) : bool :=
  is_digit a && is_digit b && is_digit c && is_digit d.

End PyStr.

(* ================================================================= *)
(** ** The regular expressions of the program

    Each pattern the program uses is a matcher of its own; the scan is the
    leftmost, non-overlapping one of [re].  The classes [\d] and [\w] and
    the boundary [\b] are those of ASCII text. *)

Module Re.
Import PyStr.

(** [re.sub(r'[^A-Za-z0-9]', '', s)] *)
Definition sub_non_alnum (s : string) : string := filter is_alnum s.

(** [re.findall(r'\d{4}', s)] *)
Fixpoint findall_d4 (s : string) : list string :=
  match s with
  | EmptyString => []
  | String a s1 =>
      match s1 with
      | String b (String c (String d rest)) =>
          if digits4 a b c d then four a b c d :: findall_d4 rest
          else findall_d4 s1
      | _ => []
      end
  end.

(** [(19|20)\d{2}\b] anchored at the head of [s] *)
Definition year_here (s : string) : option string :=
  match s with
  | String a (String b (String c (String d rest))) =>
      if digits4 a b c d
         && (((a =? "1")%char && (b =? "9")%char)
             || ((a =? "2")%char && (b =? "0")%char))
         && negb (starts_with_word rest)
      then Some (four a b c d) else None
  | _ => None
  end.

(** [re.search(r'\b(19|20)\d{2}\b', s)], as [group(0)] of the match;
    [prev_word] tells whether the character before [s] is a word one. *)
Fixpoint search_year_from (prev_word : bool) (s : string) : option string :=
  match s with
  | EmptyString => None
  | String a s1 =>
      match (if prev_word then None else year_here s) with
      | Some y => Some y
      | None => search_year_from (is_word a) s1
      end
  end.

Definition search_year : string -> option string := search_year_from false.

(** [re.sub(r'\b\d{4}\b', '', s)] *)
Fixpoint sub_d4_word_from (prev_word : bool) (s : string) : string :=
  match s with
  | EmptyString => EmptyString
  | String a s1 =>
      match s1 with
      | String b (String c (String d rest)) =>
          if negb prev_word && digits4 a b c d && negb (starts_with_word rest)
          then sub_d4_word_from true rest
          else String a (sub_d4_word_from (is_word a) s1)
      | _ => s
      end
  end.

Definition sub_d4_word : string -> string := sub_d4_word_from false.

End Re.

(* ================================================================= *)
(** ** Exceptions and the error monad *)

Inductive exn : Type :=
| KeyError (key : string)
| ValueError (msg : string)
| AttributeError (attr : string)
| TypeError (msg : string).

Inductive result (A : Type) : Type :=
| Ok (a : A)
| Raise (e : exn).

Arguments Ok {A} a.
Arguments Raise {A} e.

Definition bind {A B : Type} (c : result A) (k : A -> result B) : result B :=
  match c with
  | Ok a => k a
  | Raise e => Raise e
  end.

Notation "x <- c ;; k" := (bind c (fun x => k))
  (at level 61, c at next level, right associativity).

Definition raises {A : Type} (c : result A) : Prop :=
  exists e, c = Raise e.

(* ================================================================= *)
(** ** Python values and dictionaries *)

(** The objects that reach the program from [json.loads] and from the rows
    of the persisted table.  Numbers are integers; of the floats there is
    NaN, which [pd.read_csv] gives for an empty cell, and [obj] tells one
    NaN object from another.  Any other float is not represented. *)
#[warnings="-register-all"]
Inductive pyval : Type :=
| VNone
| VBool (b : bool)
| VInt (z : Z)
| VNaN (obj : nat)
| VStr (s : string)
| VList (l : list pyval)
| VDict (d : list (string * pyval)).

(** [bool(v)] *)
Definition truthy (v : pyval) : bool :=
  match v with
  | VNone => false
  | VBool b => b
  | VInt z => negb (z =? 0)%Z
  | VNaN _ => true
  | VStr s => negb (s =? "")
  | VList l => match l with [] => false | _ => true end
  | VDict d => match d with [] => false | _ => true end
  end.

(** [v == s] for a [str] [s]: only an equal [str] is equal to it. *)
Definition eq_str (v : pyval) (s : string) : bool :=
  match v with
  | VStr t => (t =? s)
  | _ => false
  end.

(** Keys of a dict and members of a set are hashable values; a list or a
    dict is not, hashing it raises [TypeError]. *)
Definition hashable (v : pyval) : bool :=
  match v with
  | VList _ | VDict _ => false
  | _ => true
  end.

(** [a is b or a == b] on hashable values, the test of a dict lookup and of
    [in]: [True == 1] and [False == 0]; a NaN equals nothing, itself
    included, and is found as the object it is. *)
Definition key_eqb (a b : pyval) : bool :=
  match a, b with
  | VNone, VNone => true
  | VNaN i, VNaN j => (i =? j)%nat
  | VBool x, VBool y => Bool.eqb x y
  | VInt x, VInt y => (x =? y)%Z
  | VBool x, VInt y => (Z.b2z x =? y)%Z
  | VInt x, VBool y => (x =? Z.b2z y)%Z
  | VStr x, VStr y => (x =? y)
  | _, _ => false
  end.

Class KeyEq (K : Type) : Type := keq : K -> K -> bool.
#[global] Instance string_keyeq : KeyEq string := String.eqb.
#[global] Instance pyval_keyeq : KeyEq pyval := key_eqb.

(** A dict in insertion order: assigning to a key that is present replaces
    its value where it stands, a new key goes to the end. *)
Module Dict.
Section Dict.
Context {K V : Type} `{KeyEq K}.

Definition t : Type := list (K * V).

Fixpoint get (d : t) (k : K) : option V :=
  match d with
  | [] => None
  | (k', v) :: d' => if keq k' k then Some v else get d' k
  end.

(** [k in d] *)
Definition contains (d : t) (k : K) : bool :=
  match get d k with Some _ => true | None => false end.

(** [d[k] = v] *)
Fixpoint set (d : t) (k : K) (v : V) : t :=
  match d with
  | [] => [(k, v)]
  | (k', v') :: d' =>
      if keq k' k then (k', v) :: d' else (k', v') :: set d' k v
  end.

(** [d.get(k, default)] *)
Definition get_default (d : t) (k : K) (default : V) : V :=
  match get d k with Some v => v | None => default end.

Definition keys (d : t) : list K := List.map fst d.
Definition values (d : t) : list V := List.map snd d.
End Dict.
Arguments t K V : clear implicits.
End Dict.

(** [x in l] for a list or a set [l] *)
Definition mem {K : Type} `{KeyEq K} (x : K) (l : list K) : bool :=
  existsb (keq x) l.

(** [set(l)], in the order of first occurrence.  (The iteration order of a
    Python set is not specified; the functions below that iterate one say
    so.) *)
Fixpoint to_set {K : Type} `{KeyEq K} (l : list K) : list K :=
  match l with
  | [] => []
  | x :: l' => x :: List.filter (fun y => negb (keq x y)) (to_set l')
  end.

(** [a - b] on sets *)
Definition set_diff {K : Type} `{KeyEq K} (a b : list K) : list K :=
  List.filter (fun x => negb (mem x b)) a.

(** A catalog entry, a row of the table and the metadata of a document are
    dicts from column names to values. *)
Definition entry : Type := Dict.t string pyval.

(** [d[k]] *)
Definition getitem (d : entry) (k : string) : result pyval :=
  match Dict.get d k with
  | Some v => Ok v
  | None => Raise (KeyError k)
  end.

(* ================================================================= *)
(** ** pathlib *)

(** A path is its [parts]: [Path('/kb/a/b.pdf')] is ["/"; "kb"; "a"; "b.pdf"]
    and [Path('.')] is [].  The root of an absolute path is its first part:
    one slash, or two when the text opens with exactly two. *)
Module Path.
Import PyStr.

Definition t : Type := list string.

Definition is_root (part : string) : bool := (part =? "/") || (part =? "//").

Definition is_absolute (p : t) : bool :=
  match p with
  | root :: _ => is_root root
  | [] => false
  end.

(** [Path(s)]: empty components and [.] components are dropped. *)
Definition of_string (s : string) : t :=
  let comps :=
    List.filter (fun c => negb (c =? "") && negb (c =? ".")) (split "/" s) in
  if startswith "//" s && negb (startswith "///" s) then "//" :: comps
  else if startswith "/" s then "/" :: comps
  else comps.

(** [str(p)] *)
Definition str (p : t) : string :=
  match p with
  | [] => "."
  | root :: rest => if is_root root then root ++ join "/" rest else join "/" p
  end.

(** [p / q] *)
Definition joinpath (p q : t) : t :=
  if is_absolute q then q else p ++ q.

(** [p / s] for a [str] [s] *)
Definition join_str (p : t) (s : string) : t := joinpath p (of_string s).

Fixpoint strip_prefix (other p : t) : option t :=
  match other, p with
  | [], _ => Some p
  | a :: other', b :: p' => if (a =? b) then strip_prefix other' p' else None
  | _ :: _, [] => None
  end.

(** [p.relative_to(other)]: [ValueError] when [other] does not lead to [p]. *)
Definition relative_to (p other : t) : result t :=
  if Bool.eqb (is_absolute p) (is_absolute other) then
    match strip_prefix other p with
    | Some rel => Ok rel
    | None => Raise (ValueError "not in the subpath")
    end
  else Raise (ValueError "not in the subpath").

(** [p.name] *)
Definition name (p : t) : string :=
  match rev p with
  | [] => ""
  | last :: before => if is_root last && match before with [] => true | _ => false end
                      then "" else last
  end.

(** [p.parent] *)
Definition parent (p : t) : t :=
  match rev p with
  | [] => []
  | last :: before => if is_root last && match before with [] => true | _ => false end
                      then p else rev before
  end.

(** The index of the dot that opens the suffix of a name: the last one,
    when it is neither the first nor the last character. *)
Definition suffix_dot (nm : string) : option nat :=
  match rfind "." nm with
  | Some i => if (0 <? i)%nat && (i <? String.length nm - 1)%nat then Some i else None
  | None => None
  end.

(** [p.suffix] *)
Definition suffix (p : t) : string :=
  match suffix_dot (name p) with
  | Some i => drop i (name p)
  | None => ""
  end.

(** [p.stem] *)
Definition stem (p : t) : string :=
  match suffix_dot (name p) with
  | Some i => take i (name p)
  | None => name p
  end.

Definition eqb (p q : t) : bool :=
  if list_eq_dec String.string_dec p q then true else false.

End Path.

(* ================================================================= *)
(** ** The collaborators and the world *)

(** An answer of the Ollama endpoint: the status code and, for a body that
    is a JSON object, its [response] member when it has one.  The member is
    a [str]; an answer with status 200 whose body is no object, or whose
    member is no [str], has no value here. *)
Record http_response : Type := {
  status_code : nat;
  response_member : option string
}.

(** The cells of a CSV file, the header first. *)
Definition csv_text : Type := list (list string).

(** What the program calls and does not define. *)
Record Env : Type := {
  (** [hashlib.sha256] over the bytes of a file, as [hexdigest()] *)
  sha256_hexdigest : string -> string;
  (** [PyPDF2.PdfReader(file).pages], each as its [extract_text()];
      [None] when the reader raises *)
  pdf_pages : string -> option (list string);
  (** [DocxDocument(path).paragraphs], each as its [text] *)
  docx_paragraphs : string -> option (list string);
  (** [requests.post(url, json={model, prompt, ...})] at the given attempt;
      [None] is a [RequestException] *)
  requests_post : string -> string -> string -> nat -> option http_response;
  (** [json.loads] of a text that opens with a brace: the parsed object, or
      [None] for [JSONDecodeError] *)
  json_loads : string -> option entry;
  (** [pd.read_csv(path)] as the rows [iterrows()] yields, each
      [to_dict()]; [None] when it raises *)
  read_csv : csv_text -> option (list entry);
  (** [datetime.now().strftime('%m/%d/%y')] and the same of
      [datetime.now() + timedelta(days=365)] *)
  strftime_now : string;
  strftime_next_year : string
}.

(** The regular files under their paths with their bytes, in the order a
    directory scan lists them, and the CSV files. *)
Record World : Type := {
  files : list (Path.t * string);
  tables : list (Path.t * csv_text)
}.

Module Fs.
Import PyStr.

Fixpoint lookup {A : Type} (l : list (Path.t * A)) (p : Path.t) : option A :=
  match l with
  | [] => None
  | (q, a) :: l' => if Path.eqb q p then Some a else lookup l' p
  end.

Definition read (w : World) (p : Path.t) : option string := lookup (files w) p.

(** [p.exists()] *)
Definition exists_ (w : World) (p : Path.t) : bool :=
  match lookup (files w) p, lookup (tables w) p with
  | None, None => false
  | _, _ => true
  end.

(** [s.endswith(suf)] *)
Definition endswith (suf s : string) : bool :=
  (String.length suf <=? String.length s)%nat
  && (drop (String.length s - String.length suf) s =? suf).

(** [root.glob('**/*' + ext)]: the files below [root] whose name ends
    with [ext], in scan order. *)
Definition glob (w : World) (root : Path.t) (ext : string) : list Path.t :=
  List.filter
    (fun p =>
       match Path.strip_prefix root p with
       | Some (_ :: _) =>
           Bool.eqb (Path.is_absolute p) (Path.is_absolute root)
           && endswith ext (Path.name p)
       | _ => false
       end)
    (List.map fst (files w)).

(** [shutil.move(src, dst)] of a file to a path that does not exist, in a
    directory that does *)
Definition move (w : World) (src dst : Path.t) : World :=
  {| files := List.map (fun f => if Path.eqb (fst f) src then (dst, snd f) else f) (files w);
     tables := tables w |}.

(** Writing a CSV file replaces the one at that path. *)
Fixpoint put {A : Type} (l : list (Path.t * A)) (p : Path.t) (a : A) : list (Path.t * A) :=
  match l with
  | [] => [(p, a)]
  | (q, b) :: l' => if Path.eqb q p then (q, a) :: l' else (q, b) :: put l' p a
  end.

Definition write_table (w : World) (p : Path.t) (c : csv_text) : World :=
  {| files := files w; tables := put (tables w) p c |}.

End Fs.

(* ================================================================= *)
(** ** DocumentCataloguer *)

Record DocumentCataloguer : Type := {
  kb_path : Path.t;
  catalog_path : Path.t;
  ollama_url : string;
  model : string;
  sector_mapping : Dict.t string string;
  doc_type_mapping : Dict.t string string;
  existing_catalog : Dict.t pyval entry
}.

Definition the_sector_mapping : Dict.t string string :=
  [ ("01_Cross_Cutting_Standards", "Cross-Cutting");
    ("02_Sector_Standards_Policies", "Mixed");
    ("03_Cross_Cutting_Assessment_Guidelines_Tools", "Cross-Cutting");
    ("04_Sector_Assessment_Guidelines_Tools", "Mixed");
    ("05_Gold_Standard_Examples", "Mixed");
    ("Health", "Health");
    ("MHPSS", "MHPSS");
    ("Nutrition", "Nutrition");
    ("WASH", "WASH");
    ("GBV", "GBV");
    ("Child_Protection", "Child Protection");
    ("FSL", "FSL") ].

Definition the_doc_type_mapping : Dict.t string string :=
  [ ("Standards", "standard");
    ("Policies", "policy");
    ("Assessment", "assessment_tool");
    ("Guidelines", "guideline");
    ("Tools", "tool");
    ("Examples", "example") ].

(** The loop of [load_existing_catalog]: [catalog_dict[row['file_path']] =
    row.to_dict()] row after row.  A row without the column, or with a key
    that cannot be hashed, raises inside the [try]: the rows before it stay
    in the dict. *)
Fixpoint load_rows (rows : list entry) (catalog_dict : Dict.t pyval entry)
  : Dict.t pyval entry :=
  match rows with
  | [] => catalog_dict
  | row :: rows' =>
      match Dict.get row "file_path" with
      | Some key =>
          if hashable key then load_rows rows' (Dict.set catalog_dict key row)
          else catalog_dict
      | None => catalog_dict
      end
  end.

Definition load_existing_catalog (env : Env) (w : World) (catalog_path : Path.t)
  : Dict.t pyval entry :=
  if Fs.exists_ w catalog_path then
    match Fs.lookup (tables w) catalog_path with
    | Some text =>
        match read_csv env text with
        | Some rows => load_rows rows []
        | None => []
        end
    | None => []
    end
  else [].

(** [DocumentCataloguer(knowledge_base_path, catalog_file, ollama_url, model)] *)
Definition init (env : Env) (w : World) (knowledge_base_path catalog_file : string)
  (ollama_url model : string) : DocumentCataloguer :=
  let kb := Path.of_string knowledge_base_path in
  let cat := Path.join_str kb catalog_file in
  {| kb_path := kb;
     catalog_path := cat;
     ollama_url := ollama_url;
     model := model;
     sector_mapping := the_sector_mapping;
     doc_type_mapping := the_doc_type_mapping;
     existing_catalog := load_existing_catalog env w cat |}.

Definition default_catalog_file : string := "00_Governance/kb_catalog.csv".
Definition default_ollama_url : string := "http://localhost:11434".
Definition default_model : string := "llama3.2:3b".

Section Methods.
Variable env : Env.
Variable self : DocumentCataloguer.
Import PyStr.

(** [get_file_checksum]: the empty string when the file cannot be read. *)
Definition get_file_checksum (w : World) (file_path : Path.t) : string :=
  match Fs.read w file_path with
  | Some bytes => sha256_hexdigest env bytes
  | None => ""
  end.

(** [extract_text_from_pdf]: the text of the first five pages, cut at
    5000 characters; the empty string on any error. *)
Definition extract_text_from_pdf (w : World) (file_path : Path.t) : string :=
  match Fs.read w file_path with
  | Some bytes =>
      match pdf_pages env bytes with
      | Some pages => cut 5000 (String.concat "" (firstn 5 pages))
      | None => ""
      end
  | None => ""
  end.

(** [extract_text_from_docx]: the first twenty paragraphs, a newline after
    each, cut at 5000 characters. *)
Definition extract_text_from_docx (w : World) (file_path : Path.t) : string :=
  match Fs.read w file_path with
  | Some bytes =>
      match docx_paragraphs env bytes with
      | Some paragraphs =>
          cut 5000 (String.concat "" (List.map (fun p => (p ++ String "010" "")%string) (firstn 20 paragraphs)))
      | None => ""
      end
  | None => ""
  end.

(** [query_ollama]: the attempts from [attempt] on, [remaining] of them. *)
Fixpoint query_ollama_from (prompt : string) (attempt remaining : nat) : option string :=
  match remaining with
  | O => None
  | S remaining' =>
      match requests_post env (ollama_url self ++ "/api/generate")%string (model self) prompt attempt with
      | Some response =>
          if (status_code response =? 200)%nat
          then Some (strip (match response_member response with Some r => r | None => "" end))
          else query_ollama_from prompt (S attempt) remaining'
      | None => query_ollama_from prompt (S attempt) remaining'
      end
  end.

Definition query_ollama (prompt : string) (max_retries : nat) : option string :=
  query_ollama_from prompt 0 max_retries.

End Methods.

(* ================================================================= *)
(** ** Values as text *)

Definition dq : string := String (ascii_of_nat 34) "".
Definition nl : string := String (ascii_of_nat 10) "".
Definition quoted (s : string) : string := (dq ++ s ++ dq)%string.

(** [str(v)].  The text of a scalar is exact; that of a list or a dict is
    its [repr], rendered here for members whose own [repr] needs no
    escaping. *)
Fixpoint py_str (v : pyval) : string :=
  let repr (x : pyval) : string :=
    match x with
    | VStr s => ("'" ++ s ++ "'")%string
    | _ => py_str x
    end in
  match v with
  | VNone => "None"
  | VBool true => "True"
  | VBool false => "False"
  | VInt z => DecimalString.NilZero.string_of_int (Z.to_int z)
  | VNaN _ => "nan"
  | VStr s => s
  | VList l => ("[" ++ PyStr.join ", " (List.map repr l) ++ "]")%string
  | VDict d =>
      ("{" ++ PyStr.join ", "
                (List.map (fun kv => ("'" ++ fst kv ++ "': " ++ repr (snd kv))%string) d)
           ++ "}")%string
  end.

(** [len(v)] *)
Definition py_len (v : pyval) : result nat :=
  match v with
  | VStr s => Ok (PyStr.len s)
  | VList l => Ok (List.length l)
  | VDict d => Ok (List.length d)
  | _ => Raise (TypeError "object has no len()")
  end.

(** [v.m()] for a method [m] of [str]: any other object has no such
    attribute. *)
Definition str_method (m : string) (v : pyval) : result string :=
  match v with
  | VStr s => Ok s
  | _ => Raise (AttributeError m)
  end.

(* ================================================================= *)
(** ** Metadata resolution *)

Definition required_fields : list string :=
  ["title"; "short_title"; "publisher"; "year"; "language";
   "country_scope"; "summary"; "indicators_covered"; "evidence_level"].

Definition defaults : Dict.t string string :=
  [ ("evidence_level", "normative");
    ("country_scope", "Global");
    ("summary", "Humanitarian standard or framework document");
    ("indicators_covered", "Quality and accountability standards") ].

Definition publishers : Dict.t string string :=
  [ ("sphere", "Sphere Project");
    ("who", "WHO");
    ("unicef", "UNICEF");
    ("unhcr", "UNHCR");
    ("iasc", "IASC");
    ("chs", "CHS Alliance");
    ("imc", "IMC") ].

(** The prompt of [analyze_document_with_llm] around the excerpt. *)
Definition prompt_head : string :=
  PyStr.join nl
    [ "You are a librarian cataloging humanitarian documents. Analyze this document excerpt and extract metadata.";
      "";
      "Document excerpt (first 2000 characters):";
      "" ].

Definition prompt_tail : string :=
  let field (k v : string) (last : string) : string :=
    ("    " ++ quoted k ++ ": " ++ quoted v ++ last)%string in
  PyStr.join nl
    [ "";
      "";
      "Extract the following information and respond ONLY with valid JSON in this exact format. ALL fields are required:";
      "{";
      field "title" "Complete document title from the text" ",";
      field "short_title" "Abbreviated version under 50 characters" ", ";
      field "publisher" "Organization that published this (WHO, UNICEF, Sphere, etc.)" ",";
      field "year" "Publication year in YYYY format" ",";
      field "language" "Language code (EN/FR/ES/AR)" ",";
      field "country_scope" "Global, Regional, or specific country name" ",";
      field "summary" "One sentence describing the document's purpose" ",";
      field "indicators_covered" "Key standards, metrics or indicators mentioned" ",";
      field "evidence_level" "normative" "";
      "}";
      "";
      "IMPORTANT: You must provide ALL 9 fields. If information is not clear, use these defaults:";
      ("- year: Use any year mentioned or " ++ quoted "2023")%string;
      ("- country_scope: Use " ++ quoted "Global" ++ " if not specified")%string;
      ("- evidence_level: Use " ++ quoted "normative" ++ " for standards/frameworks")%string;
      "- indicators_covered: Mention key metrics, standards, or guidelines found";
      "";
      "Look for:";
      "- Title in headers/covers";
      "- Publisher logos/names (WHO, UNICEF, Sphere Project, UNHCR, etc.)";
      ("- Copyright dates or " ++ quoted "© YYYY")%string;
      "- Geographic focus mentioned in text";
      "- Technical standards, indicators, or metrics described";
      "";
      "Return only the JSON object, no other text." ].

Definition prompt (text_content : string) : string :=
  (prompt_head ++ PyStr.cut 2000 text_content ++ prompt_tail)%string.

(** [any(lang in filename.lower() for lang in hints)] *)
Definition any_in (hints : list string) (filename : string) : bool :=
  existsb (fun lang => PyStr.contains lang (PyStr.lower filename)) hints.

(** The loop over [publishers.items()]: the first key found in the
    lower-cased file name or path. *)
Fixpoint detect_publisher (items : Dict.t string string) (filename path_str : string)
  : string :=
  match items with
  | [] => "Unknown"
  | (key, name) :: items' =>
      if PyStr.contains key (PyStr.lower filename) || PyStr.contains key path_str then name
      else detect_publisher items' filename path_str
  end.

(** The title of the fallback: separators to spaces, four-digit words
    removed, stripped, title-cased. *)
Definition clean_title (filename : string) : string :=
  let title := PyStr.replace_char "-" " " (PyStr.replace_char "_" " " filename) in
  let title := Re.sub_d4_word title in
  PyStr.title (PyStr.strip title).

Definition get_fallback_metadata (self : DocumentCataloguer) (file_path : Path.t) : entry :=
  let filename := Path.stem file_path in
  let path_str := PyStr.lower (Path.str file_path) in
  let year :=
    match Re.search_year filename with
    | Some y => y
    | None => "Unknown"
    end in
  let language :=
    if any_in ["fr"; "french"; "français"] filename then "FR"
    else if any_in ["es"; "spanish"; "español"] filename then "ES"
    else if any_in ["ar"; "arabic"] filename then "AR"
    else "EN" in
  let publisher := detect_publisher publishers filename path_str in
  let title := clean_title filename in
  [ ("title", VStr title);
    ("short_title",
      VStr (if (PyStr.len title <=? 50)%nat then PyStr.cut 50 title
            else (PyStr.cut 47 title ++ "...")%string));
    ("publisher", VStr publisher);
    ("year", VStr year);
    ("language", VStr language);
    ("country_scope", VStr "Global");
    ("summary", VStr "Document requires manual review for detailed cataloging");
    ("indicators_covered", VStr "To be determined through manual review");
    ("evidence_level", VStr "unknown") ].

(** The test of the validation loop: the field is missing, or falsy, or
    blank.  [strip] is looked up on whatever the value is. *)
Definition missing_or_empty (metadata : entry) (field : string) : result bool :=
  match Dict.get metadata field with
  | None => Ok true
  | Some v =>
      if negb (truthy v) then Ok true
      else s <- str_method "strip" v ;; Ok (PyStr.strip s =? "")
  end.

Fixpoint fill_required (fields : list string) (metadata : entry) : result entry :=
  match fields with
  | [] => Ok metadata
  | field :: fields' =>
      b <- missing_or_empty metadata field ;;
      fill_required fields'
        (if b then Dict.set metadata field (VStr (Dict.get_default defaults field "Unknown"))
         else metadata)
  end.

(** [metadata["year"] = str(metadata["year"])] and the cut of a
    [short_title] of more than 50 characters. *)
Definition clean_and_validate (metadata : entry) : result entry :=
  year <- getitem metadata "year" ;;
  let metadata := Dict.set metadata "year" (VStr (py_str year)) in
  short_title <- getitem metadata "short_title" ;;
  n <- py_len short_title ;;
  if (50 <? n)%nat then
    match short_title with
    | VStr s => Ok (Dict.set metadata "short_title" (VStr (PyStr.cut 47 s ++ "...")%string))
    | _ => Raise (TypeError "slice of a container plus a str")
    end
  else Ok metadata.

Definition analyze_document_with_llm (env : Env) (self : DocumentCataloguer)
  (text_content : string) (file_path : Path.t) : result entry :=
  match query_ollama env self (prompt text_content) 3 with
  | None => Ok (get_fallback_metadata self file_path)
  | Some response =>
      if (response =? "") then Ok (get_fallback_metadata self file_path)
      else
        let response := PyStr.strip response in
        let json_end := match PyStr.rfind "}" response with Some i => S i | None => 0 end in
        match PyStr.find "{" response with
        | Some json_start =>
            if (json_start <? json_end)%nat then
              match json_loads env (PyStr.slice json_start json_end response) with
              | Some metadata =>
                  metadata <- fill_required required_fields metadata ;;
                  clean_and_validate metadata
              | None => Ok (get_fallback_metadata self file_path)
              end
            else Ok (get_fallback_metadata self file_path)
        | None => Ok (get_fallback_metadata self file_path)
        end
  end.

(* ================================================================= *)
(** ** Classification and identifiers *)

(** The second loop of [determine_sector]: the chain of keyword tests on
    one lower-cased path segment. *)
Definition sector_of_keywords (part_lower : string) : option string :=
  let has k := PyStr.contains k part_lower in
  if has "health" && negb (has "mhpss") then Some "Health"
  else if has "mhpss" || has "mental" then Some "MHPSS"
  else if has "nutrition" then Some "Nutrition"
  else if has "wash" then Some "WASH"
  else if has "gbv" || has "gender" then Some "GBV"
  else if has "protection" then Some "Child Protection"
  else if has "fsl" || has "food" then Some "FSL"
  else None.

(** The first [y] that [f] gives along the list. *)
Fixpoint first_some {A B : Type} (f : A -> option B) (l : list A) : option B :=
  match l with
  | [] => None
  | x :: l' => match f x with Some y => Some y | None => first_some f l' end
  end.

Definition determine_sector (self : DocumentCataloguer) (file_path : Path.t) : string :=
  match first_some (Dict.get (sector_mapping self)) file_path with
  | Some sector => sector
  | None =>
      match first_some (fun part => sector_of_keywords (PyStr.lower part)) file_path with
      | Some sector => sector
      | None => "Cross-Cutting"
      end
  end.

Definition determine_doc_type (self : DocumentCataloguer) (file_path : Path.t)
  (title : string) : string :=
  let path_str := PyStr.lower (Path.str file_path) in
  let title_lower := PyStr.lower title in
  let has k s := PyStr.contains k s in
  if has "standard" path_str || has "standard" title_lower then "standard"
  else if has "assessment" path_str || has "assessment" title_lower then "assessment_tool"
  else if has "guideline" path_str || has "guide" title_lower then "guideline"
  else if has "tool" path_str || has "tool" title_lower then "tool"
  else if has "policy" path_str || has "policy" title_lower then "policy"
  else if has "example" path_str || has "example" title_lower then "example"
  else "resource".

Definition sector_abbrevs : Dict.t string string :=
  [ ("Health", "HLTH"); ("MHPSS", "MHPSS"); ("Nutrition", "NUT");
    ("WASH", "WASH"); ("GBV", "GBV"); ("Child Protection", "CP");
    ("FSL", "FSL"); ("Cross-Cutting", "CC"); ("Mixed", "MX") ].

Definition type_abbrevs : Dict.t string string :=
  [ ("standard", "STD"); ("assessment_tool", "ASMT"); ("guideline", "GUID");
    ("tool", "TOOL"); ("policy", "POL"); ("example", "EX"); ("resource", "RES") ].

(** [generate_doc_id(sector, doc_type, publisher, title, year, version)];
    [year] is a [str], of which [str(year)] is itself. *)
Definition generate_doc_id (self : DocumentCataloguer)
  (sector doc_type publisher title year version : string) : string :=
  let sector_abbrev := Dict.get_default sector_abbrevs sector "GEN" in
  let type_abbrev := Dict.get_default type_abbrevs doc_type "DOC" in
  let pub_clean := PyStr.take 8 (Re.sub_non_alnum (PyStr.upper publisher)) in
  let pub_clean := if (pub_clean =? "") then "UNK" else pub_clean in
  let year_clean := Re.findall_d4 year in
  let year_str := match year_clean with y :: _ => y | [] => "UNKN" end in
  (sector_abbrev ++ "_" ++ type_abbrev ++ "_" ++ pub_clean ++ "_" ++ year_str ++ "_" ++ version)%string.

Definition generate_new_filename (self : DocumentCataloguer) (doc_id : string)
  (original_path : Path.t) : string :=
  (doc_id ++ PyStr.lower (Path.suffix original_path))%string.

(* ================================================================= *)
(** ** Processing one document *)

(** The text of a document by its type; [None] for a type that is neither
    PDF nor DOCX. *)
Definition extract_text (env : Env) (w : World) (file_path : Path.t) : option string :=
  let suffix := PyStr.lower (Path.suffix file_path) in
  if (suffix =? ".pdf") then Some (extract_text_from_pdf env w file_path)
  else if (suffix =? ".docx") then Some (extract_text_from_docx env w file_path)
  else None.

(** The prior entry of a path when its checksum is the current one. *)
Definition unchanged_entry (self : DocumentCataloguer) (relative_path current_checksum : string)
  : option entry :=
  if Dict.contains (existing_catalog self) (VStr relative_path) then
    match Dict.get (existing_catalog self) (VStr relative_path) with
    | Some existing_entry =>
        match Dict.get existing_entry "checksum_sha256" with
        | Some c => if eq_str c current_checksum then Some existing_entry else None
        | None => None
        end
    | None => None
    end
  else None.

(** The dict literal that [process_document] returns for a resolved
    document. *)
Definition catalog_entry (env : Env) (file_path : Path.t)
  (doc_id sector doc_type relative_path current_checksum : string)
  (title short_title publisher year language country_scope evidence_level
   summary indicators_covered : pyval) : entry :=
  [ ("doc_id", VStr doc_id);
    ("title", title);
    ("short_title", short_title);
    ("sector", VStr sector);
    ("doc_type", VStr doc_type);
    ("doc_source",
      VStr (if PyStr.contains "External" (Path.str file_path)
            then "external" else "internal"));
    ("publisher", publisher);
    ("year", year);
    ("version", VStr "v1");
    ("language", language);
    ("country_scope", country_scope);
    ("license", VStr "");
    ("license_url", VStr "");
    ("redistributable", VStr "");
    ("url", VStr "");
    ("file_name", VStr (Path.name file_path));
    ("file_path", VStr relative_path);
    ("checksum_sha256", VStr current_checksum);
    ("evidence_level", evidence_level);
    ("last_reviewed", VStr (strftime_now env));
    ("next_review_due", VStr (strftime_next_year env));
    ("supersedes_doc_id", VStr "");
    ("notes", summary);
    ("indicators_covered", indicators_covered);
    ("page_anchors", VStr "");
    ("embedding_status", VStr "pending");
    ("embedding_model", VStr "");
    ("chunk_count", VStr "");
    ("vector_index_id", VStr "") ].

(** The resolution of a document whose text was read: metadata, sector,
    type, identifier, entry. *)
Definition resolve_document (env : Env) (self : DocumentCataloguer)
  (file_path : Path.t) (relative_path current_checksum text_content : string)
  : result entry :=
  llm_metadata <- analyze_document_with_llm env self text_content file_path ;;
  let sector := determine_sector self file_path in
  title <- getitem llm_metadata "title" ;;
  title_s <- str_method "lower" title ;;
  let doc_type := determine_doc_type self file_path title_s in
  publisher <- getitem llm_metadata "publisher" ;;
  year <- getitem llm_metadata "year" ;;
  publisher_s <- str_method "upper" publisher ;;
  let doc_id := generate_doc_id self sector doc_type publisher_s title_s (py_str year) "v1" in
  short_title <- getitem llm_metadata "short_title" ;;
  language <- getitem llm_metadata "language" ;;
  country_scope <- getitem llm_metadata "country_scope" ;;
  evidence_level <- getitem llm_metadata "evidence_level" ;;
  summary <- getitem llm_metadata "summary" ;;
  indicators_covered <- getitem llm_metadata "indicators_covered" ;;
  Ok (catalog_entry env file_path doc_id sector doc_type relative_path current_checksum
        title short_title publisher year language country_scope evidence_level
        summary indicators_covered).

(** [process_document(file_path, force_reprocess)]: the prior entry when the
    file is unchanged, [None] when no text can be read, else a new entry. *)
Definition process_document (env : Env) (self : DocumentCataloguer) (w : World)
  (file_path : Path.t) (force_reprocess : bool) : result (option entry) :=
  rel <- Path.relative_to file_path (kb_path self) ;;
  let relative_path := Path.str rel in
  let current_checksum := get_file_checksum env w file_path in
  match (if force_reprocess then None
         else unchanged_entry self relative_path current_checksum) with
  | Some existing_entry => Ok (Some existing_entry)
  | None =>
      match extract_text env w file_path with
      | None => Ok None
      | Some text_content =>
          if (text_content =? "") then Ok None
          else
            entry <- resolve_document env self file_path relative_path
                                      current_checksum text_content ;;
            Ok (Some entry)
      end
  end.

(** [rename_file(original_path, new_filename)]: the path the file has
    afterwards, and the world. *)
Definition rename_file (self : DocumentCataloguer) (w : World)
  (original_path : Path.t) (new_filename : string) : Path.t * World :=
  let new_path := Path.join_str (Path.parent original_path) new_filename in
  if negb (Path.eqb new_path original_path) && negb (Fs.exists_ w new_path) then
    match Fs.read w original_path with
    | Some _ => (new_path, Fs.move w original_path new_path)
    | None => (original_path, w)
    end
  else (original_path, w).

(* ================================================================= *)
(** ** Synchronising the catalog *)

Definition file_patterns : list string := [".pdf"; ".docx"].

(** [[f for f in root.glob(pattern) if not f.name.startswith('.')]] *)
Definition visible_files (w : World) (root : Path.t) (ext : string) : list Path.t :=
  List.filter (fun f => negb (PyStr.startswith "." (Path.name f))) (Fs.glob w root ext).

(** [[g(x) for x in l]] where [g] may raise *)
Fixpoint map_result {A B : Type} (g : A -> result B) (l : list A) : result (list B) :=
  match l with
  | [] => Ok []
  | x :: l' => y <- g x ;; ys <- map_result g l' ;; Ok (y :: ys)
  end.

(** The relative paths, as [str], of the documents on disk. *)
Definition current_files (self : DocumentCataloguer) (w : World) : result (list string) :=
  pdf <- map_result (fun f => rel <- Path.relative_to f (kb_path self) ;; Ok (Path.str rel))
                    (visible_files w (kb_path self) ".pdf") ;;
  docx <- map_result (fun f => rel <- Path.relative_to f (kb_path self) ;; Ok (Path.str rel))
                     (visible_files w (kb_path self) ".docx") ;;
  Ok (to_set (pdf ++ docx)).

(** [scan_for_file_changes()]: the new paths and the deleted keys.  Both are
    built from sets: their order is the one of this model's sets, the
    program promises none. *)
Definition scan_for_file_changes (self : DocumentCataloguer) (w : World)
  : result (list Path.t * list pyval) :=
  current <- current_files self w ;;
  let cataloged_files := to_set (Dict.keys (existing_catalog self)) in
  let new_files := List.filter (fun f => negb (mem (VStr f) cataloged_files)) current in
  let deleted_files := set_diff cataloged_files (List.map VStr current) in
  Ok (List.map (Path.join_str (kb_path self)) new_files, deleted_files).

(** [clean_deleted_entries(deleted_files)] *)
Definition clean_deleted_entries (self : DocumentCataloguer) (deleted_files : list pyval)
  : list entry :=
  Dict.values
    (List.filter (fun item => negb (mem (fst item) deleted_files)) (existing_catalog self)).

(** The body of the loop of [catalog_all_documents] for one file: what it
    appends and the world it leaves.  An exception is caught by the loop and
    the file is passed over.  The entry renamed here is the dict that
    [process_document] built; a prior entry, which would be shared with the
    entries copied forward, comes back only from an unforced call on a
    cataloged path. *)
Definition catalog_one (env : Env) (self : DocumentCataloguer)
  (rename_files incremental : bool)
  (state : World * list entry) (file_path : Path.t) : World * list entry :=
  let (w, catalog_entries) := state in
  match process_document env self w file_path (negb incremental) with
  | Ok (Some entry) =>
      match entry with
      | [] => state
      | _ :: _ =>
          if rename_files then
            match getitem entry "doc_id" with
            | Ok doc_id =>
                let new_filename := generate_new_filename self (py_str doc_id) file_path in
                let (new_path, w') := rename_file self w file_path new_filename in
                if negb (Path.eqb new_path file_path) then
                  let entry := Dict.set entry "file_name" (VStr new_filename) in
                  match Path.relative_to new_path (kb_path self) with
                  | Ok rel =>
                      (w', catalog_entries
                           ++ [Dict.set entry "file_path" (VStr (Path.str rel))])
                  | Raise _ => (w', catalog_entries)
                  end
                else (w', catalog_entries ++ [entry])
            | Raise _ => state
            end
          else (w, catalog_entries ++ [entry])
      end
  | Ok None => state
  | Raise _ => state
  end.

(** [catalog_all_documents(rename_files, incremental)]: the entries and the
    world after the renames. *)
Definition catalog_all_documents (env : Env) (self : DocumentCataloguer) (w : World)
  (rename_files incremental : bool) : result (list entry * World) :=
  if incremental then
    scan <- scan_for_file_changes self w ;;
    let (new_files, deleted_files) := scan in
    let catalog_entries := clean_deleted_entries self deleted_files in
    match new_files, deleted_files with
    | [], [] => Ok (catalog_entries, w)
    | _, _ =>
        let (w', entries) :=
          fold_left (catalog_one env self rename_files incremental) new_files
                    (w, catalog_entries) in
        Ok (entries, w')
    end
  else
    let all_files :=
      visible_files w (kb_path self) ".pdf" ++ visible_files w (kb_path self) ".docx" in
    let (w', entries) :=
      fold_left (catalog_one env self rename_files incremental) all_files (w, []) in
    Ok (entries, w').

(** The column order of the saved table. *)
Definition fieldnames : list string :=
  [ "doc_id"; "title"; "short_title"; "sector"; "doc_type"; "doc_source";
    "publisher"; "year"; "version"; "language"; "country_scope";
    "license"; "license_url"; "redistributable"; "url"; "file_name";
    "file_path"; "checksum_sha256"; "evidence_level"; "last_reviewed";
    "next_review_due"; "supersedes_doc_id"; "notes"; "indicators_covered";
    "page_anchors"; "embedding_status"; "embedding_model"; "chunk_count";
    "vector_index_id" ].

(** A row of [csv.DictWriter]: a key outside [fieldnames] raises
    [ValueError], a missing one is written empty, [None] is written empty,
    anything else as its [str]. *)
Definition dict_to_list (row : entry) : result (list string) :=
  if List.forallb (fun k => mem k fieldnames) (Dict.keys row) then
    Ok (List.map
          (fun k => match Dict.get row k with
                    | Some VNone => ""
                    | Some v => py_str v
                    | None => ""
                    end)
          fieldnames)
  else Raise (ValueError "dict contains fields not in fieldnames").

(** [writer.writerows(catalog_entries)]: the rows written before one
    raises.  The cells are taken to be text that the UTF-8 writer can
    encode. *)
Fixpoint writerows (rows : list entry) : list (list string) :=
  match rows with
  | [] => []
  | row :: rows' =>
      match dict_to_list row with
      | Ok cells => cells :: writerows rows'
      | Raise _ => []
      end
  end.

(** [save_catalog(catalog_entries)]: an error while writing is caught and
    reported, what was written stays.  The directory of the catalog is
    taken to be there or to be creatable. *)
Definition save_catalog (self : DocumentCataloguer) (w : World)
  (catalog_entries : list entry) : World :=
  Fs.write_table w (catalog_path self) (fieldnames :: writerows catalog_entries).

(** [main()] past the start-up probe of Ollama, run with command-line
    options ([--rename], [--test], [--full]): the world it leaves. *)
Definition main (env : Env) (w : World) (kb : string)
  (rename_files test_mode incremental_mode : bool) : result World :=
  let cataloguer := init env w kb default_catalog_file default_ollama_url default_model in
  run <-
    (if test_mode then
       start <-
         (if incremental_mode then
            scan <- scan_for_file_changes cataloguer w ;;
            Ok (firstn 3 (fst scan), clean_deleted_entries cataloguer (snd scan))
          else
            let pdf := firstn 3 (visible_files w (kb_path cataloguer) ".pdf") in
            let docx :=
              if (3 <=? List.length pdf)%nat then []
              else firstn (3 - List.length pdf) (visible_files w (kb_path cataloguer) ".docx") in
            Ok (pdf ++ docx, [])) ;;
       let (w', entries) :=
         fold_left (catalog_one env cataloguer false true) (fst start) (w, snd start) in
       Ok (entries, w')
     else catalog_all_documents env cataloguer w rename_files incremental_mode) ;;
  let (catalog_entries, w') := run in
  match catalog_entries with
  | [] => Ok w'
  | _ :: _ => Ok (save_catalog cataloguer w' catalog_entries)
  end.

(* ================================================================= *)
(** ** A JSON reader for the examples

    The theorems quantify over the [json_loads] of the environment.  The
    examples need one that runs: this reader takes the JSON texts whose
    numbers are integers and whose strings have the two-character escapes;
    it rejects the others, and a fraction, an exponent or a [\u] escape
    among them. *)

Module Json.

Definition is_ws (c : ascii) : bool :=
  let n := nat_of_ascii c in
  (n =? 32)%nat || (n =? 9)%nat || (n =? 10)%nat || (n =? 13)%nat.

Fixpoint skip_ws (s : string) : string :=
  match s with
  | String c s' => if is_ws c then skip_ws s' else s
  | EmptyString => EmptyString
  end.

Definition unescape (c : ascii) : option ascii :=
  let n := nat_of_ascii c in
  if (n =? 34)%nat || (n =? 92)%nat || (n =? 47)%nat then Some c
  else if (c =? "b")%char then Some (ascii_of_nat 8)
  else if (c =? "f")%char then Some (ascii_of_nat 12)
  else if (c =? "n")%char then Some (ascii_of_nat 10)
  else if (c =? "r")%char then Some (ascii_of_nat 13)
  else if (c =? "t")%char then Some (ascii_of_nat 9)
  else None.

(** The characters of a string up to its closing quote, and what follows. *)
Fixpoint string_body (s : string) : option (string * string) :=
  match s with
  | EmptyString => None
  | String c s' =>
      let n := nat_of_ascii c in
      if (n =? 34)%nat then Some (EmptyString, s')
      else if (n =? 92)%nat then
        match s' with
        | String e s'' =>
            match unescape e, string_body s'' with
            | Some u, Some (body, rest) => Some (String u body, rest)
            | _, _ => None
            end
        | EmptyString => None
        end
      else if (n <? 32)%nat then None
      else
        match string_body s' with
        | Some (body, rest) => Some (String c body, rest)
        | None => None
        end
  end.

Fixpoint digits (s : string) (acc : Z) : Z * string :=
  match s with
  | String c s' =>
      if PyStr.is_digit c
      then digits s' (10 * acc + Z.of_nat (nat_of_ascii c - 48))%Z
      else (acc, s)
  | EmptyString => (acc, s)
  end.

(** An integer: no leading zero, no fraction, no exponent. *)
Definition number (negative : bool) (s : string) : option (pyval * string) :=
  match s with
  | String c s' =>
      if PyStr.is_digit c then
        let (n, rest) := digits s 0%Z in
        let leading_zero := (c =? "0")%char && PyStr.is_digit (match s' with String d _ => d | _ => " "%char end) in
        let more :=
          match rest with
          | String d _ => (d =? ".")%char || (d =? "e")%char || (d =? "E")%char
          | EmptyString => false
          end in
        if leading_zero || more then None
        else Some (VInt (if negative then - n else n)%Z, rest)
      else None
  | EmptyString => None
  end.

Fixpoint value (fuel : nat) (s : string) : option (pyval * string) :=
  match fuel with
  | O => None
  | S fuel' =>
      match skip_ws s with
      | String c rest =>
          let n := nat_of_ascii c in
          if (c =? "{")%char then
            match skip_ws rest with
            | String "}" rest' => Some (VDict [], rest')
            | _ => members fuel' rest []
            end
          else if (c =? "[")%char then
            match skip_ws rest with
            | String "]" rest' => Some (VList [], rest')
            | _ => elements fuel' rest []
            end
          else if (n =? 34)%nat then
            match string_body rest with
            | Some (body, rest') => Some (VStr body, rest')
            | None => None
            end
          else if (c =? "-")%char then number true rest
          else if PyStr.startswith "true" (String c rest) then Some (VBool true, PyStr.drop 4 (String c rest))
          else if PyStr.startswith "false" (String c rest) then Some (VBool false, PyStr.drop 5 (String c rest))
          else if PyStr.startswith "null" (String c rest) then Some (VNone, PyStr.drop 4 (String c rest))
          else number false (String c rest)
      | EmptyString => None
      end
  end

with elements (fuel : nat) (s : string) (acc : list pyval) : option (pyval * string) :=
  match fuel with
  | O => None
  | S fuel' =>
      match value fuel' s with
      | Some (v, rest) =>
          match skip_ws rest with
          | String "," rest' => elements fuel' rest' (acc ++ [v])
          | String "]" rest' => Some (VList (acc ++ [v]), rest')
          | _ => None
          end
      | None => None
      end
  end

with members (fuel : nat) (s : string) (acc : entry) : option (pyval * string) :=
  match fuel with
  | O => None
  | S fuel' =>
      match skip_ws s with
      | String q rest =>
          if (nat_of_ascii q =? 34)%nat then
            match string_body rest with
            | Some (key, rest') =>
                match skip_ws rest' with
                | String ":" rest'' =>
                    match value fuel' rest'' with
                    | Some (v, rest3) =>
                        match skip_ws rest3 with
                        | String "," rest4 => members fuel' rest4 (Dict.set acc key v)
                        | String "}" rest4 => Some (VDict (Dict.set acc key v), rest4)
                        | _ => None
                        end
                    | None => None
                    end
                | _ => None
                end
            | None => None
            end
          else None
      | EmptyString => None
      end
  end.

(** [json.loads(s)] for a text that opens with a brace *)
Definition loads (s : string) : option entry :=
  match value (2 * String.length s + 2) s with
  | Some (VDict d, rest) =>
      match skip_ws rest with
      | EmptyString => Some d
      | _ => None
      end
  | _ => None
  end.

End Json.

(* ================================================================= *)
(** ** An environment and worlds for the examples *)

(** A reader of CSV cells that types nothing: every cell a [str] under the
    header of its column, as [pd.read_csv(dtype=str, keep_default_na=False)]
    gives them.  (The call of the program types the cells: [read_csv_typed]
    below.) *)
Definition read_csv_as_str (text : csv_text) : option (list entry) :=
  match text with
  | [] => None
  | header :: rows =>
      Some (List.map (fun cells => List.map (fun kc => (fst kc, VStr (snd kc)))
                                            (List.combine header cells)) rows)
  end.

(** The environment of the examples: the model answers every prompt with
    [llm] ([None]: no connection), a file holds its pages or paragraphs one
    per line, and
    the digest of the examples is the bytes themselves behind a tag, which
    tells any two files apart. *)

Definition example_env (llm : option string) : Env :=
  {| sha256_hexdigest := fun bytes => ("sha256:" ++ bytes)%string;
     pdf_pages := fun bytes => Some (PyStr.split "010" bytes);
     docx_paragraphs := fun bytes => Some (PyStr.split "010" bytes);
     requests_post := fun _ _ _ _ =>
       match llm with
       | Some text => Some {| status_code := 200; response_member := Some text |}
       | None => None
       end;
     json_loads := Json.loads;
     read_csv := read_csv_as_str;
     strftime_now := "11/04/26";
     strftime_next_year := "11/04/27" |}.

Definition empty_world : World := {| files := []; tables := [] |}.

(* ================================================================= *)
(** ** Predicates of the statements *)

(** A populated field: a [str] that is not blank. *)
Definition populated (v : option pyval) : bool :=
  match v with
  | Some (VStr s) => negb (PyStr.strip s =? "")
  | _ => false
  end.

(** All nine descriptive fields of a metadata dict are populated. *)
Definition all_populated (metadata : entry) : bool :=
  List.forallb (fun field => populated (Dict.get metadata field)) required_fields.

(** The key under which [load_existing_catalog] files a row. *)
Definition row_key (row : entry) : option pyval := Dict.get row "file_path".

(** A path component without a slash, and a path all of whose components
    past a root are such. *)
Definition slash_free (s : string) : bool :=
  PyStr.forallb (fun c => negb (Ascii.eqb c "/")) s.

Definition wf_path (p : Path.t) : bool :=
  match p with
  | [] => true
  | root :: rest => (Path.is_root root || slash_free root) && List.forallb slash_free rest
  end.

(** The documents a full scan lists. *)
Definition documents (self : DocumentCataloguer) (w : World) : list Path.t :=
  visible_files w (kb_path self) ".pdf" ++ visible_files w (kb_path self) ".docx".

(* ================================================================= *)
(** ** Fixtures: a knowledge base under [/kb] *)

Definition cataloguer (env : Env) (w : World) : DocumentCataloguer :=
  init env w "/kb" default_catalog_file default_ollama_url default_model.

(** An entry as a run has written it for the document at [relative_path]
    when its bytes were [bytes]. *)
Definition sample_entry (doc_id relative_path bytes : string) : entry :=
  catalog_entry (example_env None) (Path.join_str ["/"; "kb"] relative_path)
    doc_id "WASH" "standard" relative_path ("sha256:" ++ bytes)
    (VStr "Sphere Handbook") (VStr "Sphere Handbook") (VStr "Sphere Project")
    (VStr "2018") (VStr "EN") (VStr "Global") (VStr "normative")
    (VStr "Minimum standards in humanitarian response") (VStr "WASH indicators").

(** The world with the given documents (relative path, bytes) and, when
    there is one, the saved catalog of the given entries. *)
Definition world_of (docs : list (string * string)) (saved : option (list entry)) : World :=
  {| files := List.map (fun d => (Path.join_str ["/"; "kb"] (fst d), snd d)) docs;
     tables :=
       match saved with
       | Some rows => [(["/"; "kb"; "00_Governance"; "kb_catalog.csv"],
                        fieldnames :: writerows rows)]
       | None => []
       end |}.

Definition entry_a : entry := sample_entry "WASH_STD_SPHEREPR_2018_v1" "WASH/a.pdf" "a bytes".
Definition entry_b : entry := sample_entry "WASH_STD_SPHEREPR_2018_v1" "WASH/b.docx" "b bytes".

(** Two documents, both cataloged, none changed. *)
Definition synced_world : World :=
  world_of [("WASH/a.pdf", "a bytes"); ("WASH/b.docx", "b bytes")] (Some [entry_a; entry_b]).

(** The same after [a.pdf] was rewritten in place. *)
Definition stale_world : World :=
  world_of [("WASH/a.pdf", "a new text"); ("WASH/b.docx", "b bytes")] (Some [entry_a; entry_b]).

(** A catalog edited by hand into two rows for one path. *)
Definition entry_a2 : entry := sample_entry "WASH_STD_SPHEREPR_2018_v2" "WASH/a.pdf" "a bytes".

Definition duplicate_world : World :=
  world_of [("WASH/a.pdf", "a bytes")] (Some [entry_a; entry_a2]).

(** [a.pdf] has no text any more (its only page is empty); it is cataloged. *)
Definition unreadable_world : World :=
  world_of [("WASH/a.pdf", ""); ("WASH/b.docx", "b bytes")] (Some [entry_a; entry_b]).

(** A document named by a year alone, no catalog yet. *)
Definition year_named_world : World :=
  world_of [("WASH/2011.pdf", "Minimum standards in WASH")] None.

(** Nothing to catalog: a note, a hidden PDF, no catalog. *)
Definition bare_world : World :=
  world_of [("README.md", "notes"); ("WASH/.draft.pdf", "draft")] None.

(** An answer of the model with the year as a JSON number. *)
Definition numeric_year_response : string :=
  ("Here is the metadata: {"
   ++ quoted "title" ++ ": " ++ quoted "The Sphere Handbook" ++ ", "
   ++ quoted "short_title" ++ ": " ++ quoted "Sphere Handbook" ++ ", "
   ++ quoted "publisher" ++ ": " ++ quoted "Sphere Project" ++ ", "
   ++ quoted "year" ++ ": 2018, "
   ++ quoted "language" ++ ": " ++ quoted "EN" ++ ", "
   ++ quoted "country_scope" ++ ": " ++ quoted "Global" ++ ", "
   ++ quoted "summary" ++ ": " ++ quoted "Minimum standards in humanitarian response" ++ ", "
   ++ quoted "indicators_covered" ++ ": " ++ quoted "WASH indicators" ++ ", "
   ++ quoted "evidence_level" ++ ": " ++ quoted "normative" ++ "}")%string.

(** The same with the year as a JSON string. *)
Definition string_year_response : string :=
  ("{" ++ quoted "title" ++ ": " ++ quoted "The Sphere Handbook" ++ ", "
   ++ quoted "year" ++ ": " ++ quoted "2018" ++ ", "
   ++ quoted "publisher" ++ ": " ++ quoted "  " ++ "}")%string.

(* ================================================================= *)
(** ** Further predicates and fixtures *)

(** The object [analyze_document_with_llm] parses out of an answer: the
    text from the first opening brace to the last closing one, when there
    is such a text and it is JSON. *)
Definition response_object (env : Env) (response : string) : option entry :=
  let response := PyStr.strip response in
  let json_end := match PyStr.rfind "}" response with Some i => S i | None => 0 end in
  match PyStr.find "{" response with
  | Some json_start =>
      if (json_start <? json_end)%nat
      then json_loads env (PyStr.slice json_start json_end response)
      else None
  | None => None
  end.

(** The attempt of [query_ollama] numbered [attempt] gets an answer with
    status 200. *)
Definition attempt_succeeds (env : Env) (self : DocumentCataloguer) (prompt : string)
  (attempt : nat) : bool :=
  match requests_post env (ollama_url self ++ "/api/generate")%string (model self)
          prompt attempt with
  | Some response => (status_code response =? 200)%nat
  | None => false
  end.

(** U+00A0 and U+2028 in UTF-8. *)
Definition nbsp : string := String (ascii_of_nat 194) (String (ascii_of_nat 160) "").
Definition line_separator : string :=
  String (ascii_of_nat 226) (String (ascii_of_nat 128) (String (ascii_of_nat 168) "")).

(** A short title of 46 characters that take 53 bytes. *)
Definition accented_title : string := "Santé et sécurité: réponse à l'épidémie, guide".

(** An answer of the model with that short title. *)
Definition accented_response : string :=
  ("{" ++ quoted "title" ++ ": " ++ quoted "Santé et sécurité" ++ ", "
   ++ quoted "short_title" ++ ": " ++ quoted accented_title ++ ", "
   ++ quoted "publisher" ++ ": " ++ quoted "OMS" ++ ", "
   ++ quoted "year" ++ ": " ++ quoted "2019" ++ ", "
   ++ quoted "language" ++ ": " ++ quoted "FR" ++ ", "
   ++ quoted "country_scope" ++ ": " ++ quoted "Global" ++ ", "
   ++ quoted "summary" ++ ": " ++ quoted "Guide de réponse" ++ ", "
   ++ quoted "indicators_covered" ++ ": " ++ quoted "Indicateurs de santé" ++ ", "
   ++ quoted "evidence_level" ++ ": " ++ quoted "normative" ++ "}")%string.

(** An answer of the model with the nine fields, all strings. *)
Definition complete_response : string :=
  ("{" ++ quoted "title" ++ ": " ++ quoted "The Sphere Handbook" ++ ", "
   ++ quoted "short_title" ++ ": " ++ quoted "Sphere Handbook" ++ ", "
   ++ quoted "publisher" ++ ": " ++ quoted "Sphere Project" ++ ", "
   ++ quoted "year" ++ ": " ++ quoted "2018" ++ ", "
   ++ quoted "language" ++ ": " ++ quoted "EN" ++ ", "
   ++ quoted "country_scope" ++ ": " ++ quoted "Global" ++ ", "
   ++ quoted "summary" ++ ": " ++ quoted "Minimum standards in humanitarian response" ++ ", "
   ++ quoted "indicators_covered" ++ ": " ++ quoted "WASH indicators" ++ ", "
   ++ quoted "evidence_level" ++ ": " ++ quoted "normative" ++ ", "
   ++ quoted "pages" ++ ": 406}")%string.



(** A text of more than 2000 characters that ends in [tail]. *)
Definition long_text (tail : string) : string :=
  (String.concat "" (List.repeat "Minimum standards in humanitarian response. " 50) ++ tail)%string.

(** The row is filed under the path [f]. *)
Definition path_is (f : string) (row : entry) : bool :=
  match row_key row with
  | Some k => key_eqb k (VStr f)
  | None => false
  end.

(** The [file_path] of the row is a [str]. *)
Definition has_str_path (row : entry) : bool :=
  match row_key row with
  | Some (VStr _) => true
  | _ => false
  end.

(** [b.docx] was removed from the disk; the catalog still has its row. *)
Definition removed_world : World :=
  world_of [("WASH/a.pdf", "a bytes")] (Some [entry_a; entry_b]).

(** A third document arrived beside the two cataloged ones. *)
Definition grown_world : World :=
  world_of [("WASH/a.pdf", "a bytes"); ("WASH/b.docx", "b bytes");
            ("Health/who_guide.pdf", "Guide text")] (Some [entry_a; entry_b]).


(* ================================================================= *)
(** ** The test script of the resolver (src/test_llm.py) *)

(** What [test_llm_analysis] ends on. *)
Inductive llm_test_report : Type :=
| NoPdfFound
| NoTextExtracted
| FallbackSuspected
| AnalysisSuccessful.

(** [test_llm_analysis()]: the first PDF below the current directory is
    read and resolved, and the summary is compared with the text the script
    takes for the mark of the fallback. *)
Definition test_llm_analysis (env : Env) (w : World) : result llm_test_report :=
  let cataloguer := init env w "." default_catalog_file default_ollama_url default_model in
  match firstn 1 (Fs.glob w (Path.of_string ".") ".pdf") with
  | [] => Ok NoPdfFound
  | test_file :: _ =>
      let text_content := extract_text_from_pdf env w test_file in
      if (text_content =? "") then Ok NoTextExtracted
      else
        metadata <- analyze_document_with_llm env cataloguer text_content test_file ;;
        if match Dict.get metadata "summary" with
           | Some summary =>
               eq_str summary "Document requires manual review for proper cataloging"
           | None => false
           end
        then Ok FallbackSuspected
        else Ok AnalysisSuccessful
  end.

(** A working directory with one PDF. *)
Definition cwd_world : World :=
  {| files := [(["docs"; "sphere.pdf"], "The Sphere Handbook")]; tables := [] |}.

(** A knowledge base kept below a directory named as a sector. *)
Definition nested_cataloguer : DocumentCataloguer :=
  init (example_env None) empty_world "/srv/Health/kb" default_catalog_file
    default_ollama_url default_model.


(** An answer of the model whose summary is the text the test script
    compares with. *)
Definition marker_response : string :=
  ("{" ++ quoted "title" ++ ": " ++ quoted "The Sphere Handbook" ++ ", "
   ++ quoted "short_title" ++ ": " ++ quoted "Sphere Handbook" ++ ", "
   ++ quoted "publisher" ++ ": " ++ quoted "Sphere Project" ++ ", "
   ++ quoted "year" ++ ": " ++ quoted "2018" ++ ", "
   ++ quoted "language" ++ ": " ++ quoted "EN" ++ ", "
   ++ quoted "country_scope" ++ ": " ++ quoted "Global" ++ ", "
   ++ quoted "summary" ++ ": "
   ++ quoted "Document requires manual review for proper cataloging" ++ ", "
   ++ quoted "indicators_covered" ++ ": " ++ quoted "WASH indicators" ++ ", "
   ++ quoted "evidence_level" ++ ": " ++ quoted "normative" ++ "}")%string.


(* ================================================================= *)
(** ** The report that ends [main] *)

(** [main()] up to the entries it has collected, before anything is saved. *)
Definition main_entries (env : Env) (w : World) (kb : string)
  (rename_files test_mode incremental_mode : bool) : result (list entry * World) :=
  let cataloguer := init env w kb default_catalog_file default_ollama_url default_model in
  if test_mode then
    start <-
      (if incremental_mode then
         scan <- scan_for_file_changes cataloguer w ;;
         Ok (firstn 3 (fst scan), clean_deleted_entries cataloguer (snd scan))
       else
         let pdf := firstn 3 (visible_files w (kb_path cataloguer) ".pdf") in
         let docx :=
           if (3 <=? List.length pdf)%nat then []
           else firstn (3 - List.length pdf) (visible_files w (kb_path cataloguer) ".docx") in
         Ok (pdf ++ docx, [])) ;;
    let (w', entries) :=
      fold_left (catalog_one env cataloguer false true) (fst start) (w, snd start) in
    Ok (entries, w')
  else catalog_all_documents env cataloguer w rename_files incremental_mode.

(** The sample lines printed after the save: [entry['doc_id']] and
    [entry['short_title']] of each entry, as the values that are formatted. *)
Fixpoint show_sample (entries : list entry) : result (list (pyval * pyval)) :=
  match entries with
  | [] => Ok []
  | entry :: entries' =>
      doc_id <- getitem entry "doc_id" ;;
      short_title <- getitem entry "short_title" ;;
      lines <- show_sample entries' ;;
      Ok ((doc_id, short_title) :: lines)
  end.

(** [main()] with the report of the first three entries that follows the
    save. *)
Definition main_with_report (env : Env) (w : World) (kb : string)
  (rename_files test_mode incremental_mode : bool) : result World :=
  let cataloguer := init env w kb default_catalog_file default_ollama_url default_model in
  run <- main_entries env w kb rename_files test_mode incremental_mode ;;
  let (catalog_entries, w') := run in
  match catalog_entries with
  | [] => Ok w'
  | _ :: _ =>
      let saved := save_catalog cataloguer w' catalog_entries in
      _ <- show_sample (firstn 3 catalog_entries) ;;
      Ok saved
  end.

(** A knowledge base whose saved table has the path column alone. *)
Definition path_only_world : World :=
  {| files := [(["/"; "kb"; "WASH"; "a.pdf"], "a bytes")];
     tables := [(["/"; "kb"; "00_Governance"; "kb_catalog.csv"],
                 [["file_path"]; ["WASH/a.pdf"]])] |}.


(* ================================================================= *)
(** ** A reader that types the cells *)

(** The cells [pd.read_csv] takes for missing: its default [na_values]
    (pandas 2). *)
Definition na_values : list string :=
  [ EmptyString; "#N/A"; "#N/A N/A"; "#NA"; "-1.#IND"; "-1.#QNAN"; "-NaN"; "-nan";
    "1.#IND"; "1.#QNAN"; "<NA>"; "N/A"; "NA"; "NULL"; "NaN"; "None"; "n/a";
    "nan"; "null" ].

Definition is_na (cell : string) : bool := existsb (String.eqb cell) na_values.

(** A character of a numeric literal, or white space around one. *)
Definition numeric_char (c : ascii) : bool :=
  PyStr.is_digit c || PyStr.is_space c
  || existsb (Ascii.eqb c) ["+"; "-"; "."; "e"; "E"]%char.

(** A cell that is neither a number nor a truth value to [pd.read_csv]: it
    has a character that no numeric literal has, and is none of the words
    for infinity, not-a-number, true and false. *)
Definition plain_text (cell : string) : bool :=
  negb (PyStr.forallb numeric_char cell)
  && negb (existsb (String.eqb (PyStr.lower (PyStr.strip cell)))
             ["inf"; "-inf"; "+inf"; "infinity"; "-infinity"; "+infinity";
              "nan"; "-nan"; "+nan"; "true"; "false"]).

(** What [pd.read_csv] makes of a column: all of it missing, text (a cell
    of it is plain text, so none is converted), or something else. *)
Inductive column_type : Type :=
| AllMissing
| Text
| Converted.

Definition column_type_of (cells : list string) : column_type :=
  if List.forallb is_na cells then AllMissing
  else if existsb (fun cell => negb (is_na cell) && plain_text cell) cells then Text
  else Converted.

Definition column (j : nat) (rows : list (list string)) : list string :=
  List.map (fun cells => nth j cells EmptyString) rows.

(** The value of a cell: NaN when it is missing (the one object [np.nan]
    in a text column, an object of its own in a column that is all
    missing), else the [str] it is. *)
Definition typed_cell (t : column_type) (obj : nat) (cell : string) : pyval :=
  if is_na cell then VNaN (match t with Text => 0 | _ => S obj end) else VStr cell.

Fixpoint numbered {A : Type} (i : nat) (l : list A) : list (nat * A) :=
  match l with
  | [] => []
  | x :: l' => (i, x) :: numbered (S i) l'
  end.

Fixpoint no_repeat (l : list string) : bool :=
  match l with
  | [] => true
  | x :: l' => negb (existsb (String.eqb x) l') && no_repeat l'
  end.

(** [pd.read_csv] on a table whose columns are text or all missing, as the
    rows [iterrows()] yields.  A table with a converted column (numbers,
    truth values), with a nameless or repeated column name, with a row that
    has not as many cells as the header, or with one column and an empty
    row is outside this reader: it answers [None] there, as it does where
    [pd.read_csv] raises. *)
Definition read_csv_typed (text : csv_text) : option (list entry) :=
  match text with
  | [] => None
  | header :: rows =>
      let width := List.length header in
      let types := List.map (fun j => column_type_of (column j rows)) (seq 0 width) in
      if negb (existsb (String.eqb EmptyString) header) && no_repeat header
         && List.forallb
              (fun cells =>
                 (List.length cells =? width)%nat
                 && negb ((width =? 1)%nat && List.forallb (String.eqb EmptyString) cells))
              rows
         && List.forallb (fun t => match t with Converted => false | _ => true end) types
      then
        Some (List.map
                (fun row =>
                   List.map
                     (fun col =>
                        (fst (snd col),
                         typed_cell (snd (snd col)) (fst row * width + fst col)
                           (nth (fst col) (snd row) EmptyString)))
                     (numbered 0 (List.combine header types)))
                (numbered 0 rows))
      else None
  end.

(** The environment of the examples with this reader. *)
Definition pandas_env (llm : option string) : Env :=
  {| sha256_hexdigest := sha256_hexdigest (example_env llm);
     pdf_pages := pdf_pages (example_env llm);
     docx_paragraphs := docx_paragraphs (example_env llm);
     requests_post := requests_post (example_env llm);
     json_loads := json_loads (example_env llm);
     read_csv := read_csv_typed;
     strftime_now := strftime_now (example_env llm);
     strftime_next_year := strftime_next_year (example_env llm) |}.

(** One document and no catalog yet. *)
Definition fresh_world : World := world_of [("WASH/a.pdf", "a bytes")] None.

Fixpoint index_of (x : string) (l : list string) : option nat :=
  match l with
  | [] => None
  | y :: l' => if (y =? x) then Some 0
               else match index_of x l' with Some i => Some (S i) | None => None end
  end.

(** The cell of a table under a column, in the row numbered [i] past the
    header. *)
Definition table_cell (t : csv_text) (i : nat) (column_name : string) : option string :=
  match t with
  | [] => None
  | header :: rows =>
      match nth_error rows i, index_of column_name header with
      | Some cells, Some j => nth_error cells j
      | _, _ => None
      end
  end.

(** The columns under which two tables differ in the row numbered [i]. *)
Definition changed_columns (t1 t2 : csv_text) (i : nat) : list string :=
  List.filter
    (fun column_name =>
       match table_cell t1 i column_name, table_cell t2 i column_name with
       | Some a, Some b => negb (a =? b)
       | None, None => false
       | _, _ => true
       end)
    fieldnames.

(* ================================================================= *)
(** * Properties *)

(** ** The string layer on examples *)

Example lower_upper : PyStr.lower "Sphere_2011.PDF" = "sphere_2011.pdf"
                      /\ PyStr.upper "Sphere Project!!" = "SPHERE PROJECT!!".
Proof. split; reflexivity. Qed.

Example title_words : PyStr.title "sphere handbook  wASH x2y" = "Sphere Handbook  Wash X2Y".
Proof. reflexivity. Qed.

Example strip_both : PyStr.strip "  a b  " = "a b" /\ PyStr.strip "   " = "".
Proof. split; reflexivity. Qed.

(** White space past ASCII is stripped, a no-break space as a line
    separator; lengths and cuts count characters, not bytes. *)
Example strip_past_ascii :
  PyStr.strip (nbsp ++ line_separator ++ " Santé " ++ nbsp) = "Santé"
  /\ PyStr.strip (nbsp ++ nbsp) = ""
  /\ PyStr.len "Santé" = 5 /\ String.length "Santé" = 6
  /\ PyStr.cut 5 "Santé et sécurité" = "Santé"
  /\ PyStr.cut 0 "Santé" = "".
Proof. repeat split; reflexivity. Qed.

Example search_year_underscore :
  Re.search_year "report_2011_final" = None
  /\ Re.search_year "report-2011-final" = Some "2011"
  /\ Re.search_year "x 12011 1811 2099." = Some "2099".
Proof. repeat split; reflexivity. Qed.

Example sub_d4_word_ex :
  Re.sub_d4_word "a 2011 b 12345 2012" = "a  b 12345 "
  /\ Re.findall_d4 "circa 2011-20123" = ["2011"; "2012"].
Proof. split; reflexivity. Qed.

Example path_roundtrip :
  Path.of_string "/kb//01_Cross/./Sphere-2018.pdf" = ["/"; "kb"; "01_Cross"; "Sphere-2018.pdf"]
  /\ Path.str ["/"; "kb"; "01_Cross"; "Sphere-2018.pdf"] = "/kb/01_Cross/Sphere-2018.pdf"
  /\ Path.str (Path.join_str [] "WASH/a.docx") = "WASH/a.docx"
  /\ Path.relative_to ["/"; "kb"; "a"; "b.pdf"] ["/"; "kb"] = Ok ["a"; "b.pdf"].
Proof. repeat split; reflexivity. Qed.

Example path_suffixes :
  Path.suffix ["a"; "Sphere.2018.PDF"] = ".PDF"
  /\ Path.stem ["a"; "Sphere.2018.PDF"] = "Sphere.2018"
  /\ Path.stem ["a"; ".hidden"] = ".hidden"
  /\ Path.suffix ["a"; "trailing."] = ""
  /\ Path.name ["/"] = "".
Proof. repeat split; reflexivity. Qed.

Example json_loads_object :
  Json.loads ("{" ++ quoted "year" ++ ": 2023, " ++ quoted "tags" ++ ": [true, null, -7]}")
  = Some [("year", VInt 2023); ("tags", VList [VBool true; VNone; VInt (-7)])]
  /\ Json.loads "{not json}" = None
  /\ Json.loads ("{" ++ quoted "a" ++ ": 1} trailing") = None.
Proof. repeat split; reflexivity. Qed.

(* ================================================================= *)
(** ** Substrings *)

Section Substrings.
Import PyStr.

Lemma startswith_app (p t : string) : startswith p (p ++ t) = true.
Proof.
  induction p as [|a p IH]; simpl; [reflexivity|].
  now rewrite Ascii.eqb_refl.
Qed.

Lemma startswith_inv (p s : string) :
  startswith p s = true -> exists t, s = (p ++ t)%string.
Proof.
  revert s; induction p as [|a p IH]; intros s H; simpl in *.
  - now exists s.
  - destruct s as [|b s]; [discriminate|].
    apply andb_true_iff in H as [Hab Hps].
    apply Ascii.eqb_eq in Hab; subst b.
    destruct (IH _ Hps) as [t ->]. now exists t.
Qed.

Lemma contains_app (pre sub post : string) :
  contains sub (pre ++ sub ++ post) = true.
Proof.
  induction pre as [|a pre IH]; simpl.
  - destruct (sub ++ post)%string eqn:E.
    + assert (H := startswith_app sub post). rewrite E in H. simpl.
      now rewrite H.
    + assert (H := startswith_app sub post). rewrite E in H.
      simpl. now rewrite H.
  - rewrite IH. apply orb_true_r.
Qed.

Lemma contains_inv (sub s : string) :
  contains sub s = true ->
  exists pre post, s = (pre ++ sub ++ post)%string.
Proof.
  induction s as [|a s IH]; simpl; intros H.
  - rewrite orb_false_r in H. destruct (startswith_inv _ _ H) as [t Ht].
    exists EmptyString, t. exact Ht.
  - apply orb_true_iff in H as [H|H].
    + destruct (startswith_inv _ _ H) as [t Ht].
      exists EmptyString, t. exact Ht.
    + destruct (IH H) as (pre & post & ->).
      now exists (String a pre), post.
Qed.

Lemma string_app_assoc (a b c : string) :
  ((a ++ b) ++ c = a ++ (b ++ c))%string.
Proof. induction a as [|x a IH]; simpl; [reflexivity | now rewrite IH]. Qed.

(** A substring of a substring is a substring. *)
Lemma contains_trans (a b s : string) :
  contains a b = true -> contains b s = true -> contains a s = true.
Proof.
  intros Hab Hbs.
  destruct (contains_inv _ _ Hab) as (p1 & q1 & ->).
  destruct (contains_inv _ _ Hbs) as (p2 & q2 & ->).
  replace (p2 ++ (p1 ++ a ++ q1) ++ q2)%string
    with ((p2 ++ p1) ++ a ++ (q1 ++ q2))%string.
  - apply contains_app.
  - now rewrite !string_app_assoc.
Qed.

(** A hint list whose every member holds [key] tests for [key] alone. *)
Lemma any_in_head (key : string) (more : list string) (filename : string) :
  List.forallb (contains key) more = true ->
  any_in (key :: more) filename = contains key (lower filename).
Proof.
  intros Hmore. unfold any_in. simpl.
  destruct (contains key (lower filename)) eqn:E; [reflexivity|]. simpl.
  induction more as [|m more IH]; simpl in *; [reflexivity|].
  apply andb_true_iff in Hmore as [Hm Hrest].
  destruct (contains m (lower filename)) eqn:Em.
  - rewrite (contains_trans _ _ _ Hm Em) in E. discriminate.
  - simpl. now apply IH.
Qed.

End Substrings.

(* ================================================================= *)
(** ** The identifier generator *)

(** The cleaned publisher has at most eight characters, all of them
    letters or digits, and is never empty. *)
Lemma take_length_le (n : nat) (s : string) : (String.length (PyStr.take n s) <= n)%nat.
Proof.
  revert s; induction n as [|n IH]; intros [|c s]; simpl; try lia.
  specialize (IH s). lia.
Qed.

Lemma take_forallb (p : ascii -> bool) (n : nat) (s : string) :
  PyStr.forallb p s = true -> PyStr.forallb p (PyStr.take n s) = true.
Proof.
  revert s; induction n as [|n IH]; intros [|c s]; simpl; auto.
  intros H. apply andb_true_iff in H as [Hc Hs]. rewrite Hc. simpl. auto.
Qed.

Lemma filter_forallb (p : ascii -> bool) (s : string) :
  PyStr.forallb p (PyStr.filter p s) = true.
Proof.
  induction s as [|c s IH]; simpl; [reflexivity|].
  destruct (p c) eqn:E; simpl; [now rewrite E|assumption].
Qed.

(** C6. On sector WASH, type standard, publisher [Sphere Project!!] and year
    [circa 2011] the generator returns [WASH_STD_SPHEREPR_2011_v1], whatever
    the title and the cataloguer: the upper-cased publisher without its
    non-alphanumerics is cut at eight characters, and the year is the first
    run of four digits. *)
Theorem generate_doc_id_sphere_2011 (self : DocumentCataloguer) (title : string) :
  generate_doc_id self "WASH" "standard" "Sphere Project!!" title "circa 2011" "v1"
  = "WASH_STD_SPHEREPR_2011_v1"
  /\ PyStr.take 8 (Re.sub_non_alnum (PyStr.upper "Sphere Project!!")) = "SPHEREPR"
  /\ Re.sub_non_alnum (PyStr.upper "Sphere Project!!") = "SPHEREPROJECT"
  /\ Re.findall_d4 "circa 2011" = ["2011"].
Proof. repeat split; reflexivity. Qed.

(** The publisher part of an identifier is one to eight letters or digits
    for every publisher. *)
Lemma publisher_part_shape (publisher : string) :
  let pub_clean := PyStr.take 8 (Re.sub_non_alnum (PyStr.upper publisher)) in
  (String.length pub_clean <= 8)%nat
  /\ PyStr.forallb PyStr.is_alnum pub_clean = true.
Proof.
  split; [apply take_length_le|].
  apply take_forallb, filter_forallb.
Qed.

(* ================================================================= *)
(** ** The fallback resolver *)

(** C8. The fallback metadata is a function of the file name and of the
    path text alone: two calls on the same name and path give the same
    dict, whatever the state of the cataloguer (catalog loaded, model,
    endpoint) at either call. *)
Theorem get_fallback_metadata_deterministic
  (self1 self2 : DocumentCataloguer) (path1 path2 : Path.t) :
  Path.name path1 = Path.name path2 ->
  Path.str path1 = Path.str path2 ->
  get_fallback_metadata self1 path1 = get_fallback_metadata self2 path2.
Proof.
  intros Hname Hstr.
  unfold get_fallback_metadata, Path.stem.
  now rewrite Hname, Hstr.
Qed.

(** The Spanish hints: [español] holds [es], [spanish] does not. *)
Lemma any_in_spanish (filename : string) :
  any_in ["es"; "spanish"; "español"] filename
  = PyStr.contains "es" (PyStr.lower filename)
    || PyStr.contains "spanish" (PyStr.lower filename).
Proof.
  unfold any_in. simpl.
  destruct (PyStr.contains "es" (PyStr.lower filename)) eqn:Ees; [reflexivity|].
  destruct (PyStr.contains "spanish" (PyStr.lower filename)); [reflexivity|].
  destruct (PyStr.contains "español" (PyStr.lower filename)) eqn:E; [|reflexivity].
  rewrite (@contains_trans "es" "español" _ eq_refl E) in Ees. discriminate.
Qed.

(** C9. The language of the fallback is decided by substring tests on the
    lower-cased stem, tried in the order French, Spanish, Arabic: the first
    hit wins, [EN] is what is left.  A stem that holds [fr] anywhere is
    French, whatever else it holds. *)
Theorem fallback_language_by_substring (self : DocumentCataloguer) (file_path : Path.t) :
  Dict.get (get_fallback_metadata self file_path) "language"
  = Some (VStr
      (if PyStr.contains "fr" (PyStr.lower (Path.stem file_path)) then "FR"
       else if PyStr.contains "es" (PyStr.lower (Path.stem file_path))
               || PyStr.contains "spanish" (PyStr.lower (Path.stem file_path)) then "ES"
       else if PyStr.contains "ar" (PyStr.lower (Path.stem file_path)) then "AR"
       else "EN")).
Proof.
  transitivity
    (Some (VStr
       (if any_in ["fr"; "french"; "français"] (Path.stem file_path) then "FR"
        else if any_in ["es"; "spanish"; "español"] (Path.stem file_path) then "ES"
        else if any_in ["ar"; "arabic"] (Path.stem file_path) then "AR"
        else "EN"))).
  - reflexivity.
  - rewrite (any_in_head "fr"), any_in_spanish, (any_in_head "ar") by reflexivity.
    reflexivity.
Qed.

(** An English word is enough: [framework] holds [fr], [guidelines] holds
    [es] and [standard] holds [ar]. *)
Example fallback_language_framework (self : DocumentCataloguer) :
  Dict.get (get_fallback_metadata self ["/"; "kb"; "Health"; "Logical_Framework.pdf"]) "language"
  = Some (VStr "FR")
  /\ Dict.get (get_fallback_metadata self ["/"; "kb"; "Health"; "Guidelines.pdf"]) "language"
     = Some (VStr "ES")
  /\ Dict.get (get_fallback_metadata self ["/"; "kb"; "Health"; "Standard.pdf"]) "language"
     = Some (VStr "AR")
  /\ Dict.get (get_fallback_metadata self ["/"; "kb"; "Health"; "Sphere.pdf"]) "language"
     = Some (VStr "EN")
  /\ Dict.get (get_fallback_metadata self ["/"; "kb"; "Health"; "Spanish.pdf"]) "language"
     = Some (VStr "ES")
  /\ Dict.get (get_fallback_metadata self ["/"; "kb"; "Health"; "Framework_es_ar.pdf"]) "language"
     = Some (VStr "FR").
Proof. repeat split; reflexivity. Qed.

(* ================================================================= *)
(** ** Dicts keyed by strings *)

Section StringDict.
Context {V : Type}.
Implicit Types (d : Dict.t string V) (k : string) (v : V).

Lemma get_set_same d k v : Dict.get (Dict.set d k v) k = Some v.
Proof.
  induction d as [|[k' v'] d IH]; simpl; unfold keq, string_keyeq.
  - now rewrite String.eqb_refl.
  - destruct (String.eqb k' k) eqn:E; simpl; unfold keq, string_keyeq; rewrite E.
    + reflexivity.
    + exact IH.
Qed.

Lemma get_set_other d k k' v : k <> k' -> Dict.get (Dict.set d k' v) k = Dict.get d k.
Proof.
  intros Hne.
  induction d as [|[k0 v0] d IH]; simpl; unfold keq, string_keyeq.
  - destruct (String.eqb_spec k' k); [congruence|reflexivity].
  - destruct (String.eqb_spec k0 k') as [->|Hk0]; simpl; unfold keq, string_keyeq.
    + destruct (String.eqb_spec k' k); [congruence|reflexivity].
    + destruct (String.eqb_spec k0 k); [reflexivity|exact IH].
Qed.

Lemma set_not_empty d k v : Dict.set d k v <> [].
Proof.
  destruct d as [|[k' v'] d]; simpl; [discriminate|].
  destruct (keq k' k); discriminate.
Qed.

End StringDict.

(* ================================================================= *)
(** ** Blank strings *)

Section Blank.
Import PyStr.

Lemma is_space_byte (a : ascii) : is_space a = true -> space_byte a = true.
Proof. intros H. unfold space_byte. now rewrite H. Qed.

Lemma is_space2_bytes (a b : ascii) :
  is_space2 a b = true -> space_byte a = true /\ space_byte b = true.
Proof.
  unfold is_space2, space_byte, is_space, between. intros H.
  apply andb_true_iff in H as [Ha Hb]. apply Nat.eqb_eq in Ha.
  apply orb_true_iff in Hb as [Hb|Hb]; apply Nat.eqb_eq in Hb;
    rewrite Ha, Hb; split; reflexivity.
Qed.

Lemma is_space3_bytes (a b c : ascii) :
  is_space3 a b c = true ->
  space_byte a = true /\ space_byte b = true /\ space_byte c = true.
Proof.
  unfold is_space3. intros H.
  assert (Hc : space_byte c = true).
  { unfold space_byte.
    repeat (apply orb_true_iff in H as [H|H]);
      repeat (apply andb_true_iff in H as [H ?]);
      repeat match goal with
             | Hor : (_ || _) = true |- _ => apply orb_true_iff in Hor as [Hor|Hor]
             end;
      repeat match goal with
             | Heq : (code c =? _)%nat = true |- _ =>
                 apply Nat.eqb_eq in Heq; unfold is_space, between; rewrite Heq; reflexivity
             | Hb : between 128 138 c = true |- _ => rewrite Hb; now rewrite orb_true_r
             end. }
  assert (Hab : space_byte a = true /\ space_byte b = true).
  { unfold space_byte, is_space, between.
    repeat (apply orb_true_iff in H as [H|H]);
      repeat (apply andb_true_iff in H as [H ?]);
      repeat match goal with
             | Heq : (code a =? _)%nat = true |- _ => apply Nat.eqb_eq in Heq; rewrite Heq; clear Heq
             | Heq : (code b =? _)%nat = true |- _ => apply Nat.eqb_eq in Heq; rewrite Heq; clear Heq
             end; split; reflexivity. }
  tauto.
Qed.

(** What [lstrip] takes off is white space. *)
Lemma lstrip_spaces_bounded (n : nat) :
  forall s, (String.length s <= n)%nat ->
            forallb space_byte (lstrip s) = true -> forallb space_byte s = true.
Proof.
  induction n as [|n IH]; intros s Hlen.
  - destruct s; [reflexivity | simpl in Hlen; lia].
  - destruct s as [|a s1]; [reflexivity|]. cbn [lstrip].
    destruct (is_space a) eqn:Ea.
    { intros H. cbn [forallb]. rewrite (is_space_byte _ Ea).
      apply IH; [simpl in Hlen; lia | exact H]. }
    destruct s1 as [|b s2]; [trivial|].
    destruct (is_space2 a b) eqn:Eb.
    { intros H. destruct (is_space2_bytes _ _ Eb) as [Ha Hb].
      cbn [forallb]. rewrite Ha, Hb.
      apply IH; [simpl in Hlen; lia | exact H]. }
    destruct s2 as [|c s3]; [trivial|].
    destruct (is_space3 a b c) eqn:Ec; [|trivial].
    intros H. destruct (is_space3_bytes _ _ _ Ec) as (Ha & Hb & Hc).
    cbn [forallb]. rewrite Ha, Hb, Hc.
    apply IH; [simpl in Hlen; lia | exact H].
Qed.

Lemma lstrip_spaces (s : string) :
  forallb space_byte (lstrip s) = true -> forallb space_byte s = true.
Proof. apply (lstrip_spaces_bounded (n := String.length s)). lia. Qed.

Lemma rstrip_empty (s : string) : rstrip s = "" -> lstrip s = "".
Proof.
  destruct s as [|c s]; [reflexivity|]. cbn [rstrip].
  destruct (String.eqb_spec (lstrip (String c s)) ""); [trivial | discriminate].
Qed.

(** Only a string of white space strips to nothing. *)
Lemma strip_empty (s : string) : strip s = "" -> forallb space_byte s = true.
Proof.
  unfold strip. intros H. apply rstrip_empty in H.
  apply lstrip_spaces, lstrip_spaces. now rewrite H.
Qed.

Lemma str_forallb_app (p : ascii -> bool) (a b : string) :
  forallb p (a ++ b) = forallb p a && forallb p b.
Proof.
  induction a as [|c a IH]; simpl; [reflexivity|].
  now rewrite IH, andb_assoc.
Qed.

(** A title cut with an ellipsis is not blank. *)
Lemma ellipsis_not_blank (s : string) : strip (s ++ "...") <> "".
Proof.
  intros H. apply strip_empty in H.
  rewrite str_forallb_app, andb_comm in H. discriminate.
Qed.

End Blank.

(* ================================================================= *)
(** ** The primary resolver *)

Lemma default_populated (field : string) :
  populated (Some (VStr (Dict.get_default defaults field "Unknown"))) = true.
Proof.
  unfold Dict.get_default, defaults. simpl. unfold keq, string_keyeq.
  repeat (match goal with |- context [String.eqb ?a field] => destruct (String.eqb a field) end;
          [reflexivity|]).
  reflexivity.
Qed.

(** The validation test raises on nothing but a value without [strip], and
    answers [false] only on a populated field. *)
Lemma missing_or_empty_cases (metadata : entry) (field : string) :
  match missing_or_empty metadata field with
  | Ok false => populated (Dict.get metadata field) = true
  | Ok true => True
  | Raise e => e = AttributeError "strip"
  end.
Proof.
  unfold missing_or_empty.
  destruct (Dict.get metadata field) as [v|]; [|exact I].
  destruct (truthy v) eqn:Ht; simpl; [|exact I].
  destruct v; simpl; try reflexivity.
  destruct (PyStr.strip s =? ""); [exact I | reflexivity].
Qed.

(** The validation loop keeps what was populated and populates the fields
    it visits. *)
Lemma fill_required_populates (fields : list string) :
  forall (metadata : entry),
    match fill_required fields metadata with
    | Ok filled =>
        forall field,
          (In field fields \/ populated (Dict.get metadata field) = true) ->
          populated (Dict.get filled field) = true
    | Raise e => e = AttributeError "strip"
    end.
Proof.
  induction fields as [|f fields IH]; intros metadata; simpl.
  - intros field [[]|H]; exact H.
  - assert (Hcase := missing_or_empty_cases metadata f).
    destruct (missing_or_empty metadata f) as [b|e]; simpl; [|exact Hcase].
    set (next := if b then _ else metadata).
    assert (Hnext : forall field,
               (field = f \/ populated (Dict.get metadata field) = true) ->
               populated (Dict.get next field) = true).
    { intros field Hfield. subst next. destruct b.
      - destruct (String.string_dec field f) as [->|Hne].
        + rewrite get_set_same. apply default_populated.
        + rewrite get_set_other by exact Hne.
          destruct Hfield as [?|?]; [contradiction|assumption].
      - destruct Hfield as [->|?]; assumption. }
    specialize (IH next).
    destruct (fill_required fields next) as [filled|e]; [|exact IH].
    intros field [[<-|Hin]|Hpop].
    + apply IH. right. apply Hnext. now left.
    + apply IH. now left.
    + apply IH. right. apply Hnext. now right.
Qed.

Lemma fill_required_all_populated (metadata : entry) :
  match fill_required required_fields metadata with
  | Ok filled => all_populated filled = true
  | Raise e => e = AttributeError "strip"
  end.
Proof.
  assert (H := fill_required_populates required_fields metadata).
  destruct (fill_required required_fields metadata) as [filled|e]; [|exact H].
  unfold all_populated. apply forallb_forall. intros field Hin. apply H. now left.
Qed.

Lemma all_populated_field (metadata : entry) (field : string) :
  all_populated metadata = true -> In field required_fields ->
  exists s, Dict.get metadata field = Some (VStr s) /\ PyStr.strip s <> "".
Proof.
  intros Hall Hin. unfold all_populated in Hall.
  rewrite forallb_forall in Hall. specialize (Hall field Hin).
  destruct (Dict.get metadata field) as [[| | | |s| |]|]; try discriminate.
  exists s. split; [reflexivity|].
  simpl in Hall. now destruct (String.eqb_spec (PyStr.strip s) "").
Qed.

Lemma all_populated_set (metadata : entry) (field : string) (v : pyval) :
  all_populated metadata = true -> populated (Some v) = true ->
  all_populated (Dict.set metadata field v) = true.
Proof.
  intros Hall Hv. unfold all_populated in *.
  rewrite forallb_forall in *. intros f Hin.
  destruct (String.string_dec f field) as [->|Hne].
  - now rewrite get_set_same.
  - rewrite get_set_other by exact Hne. now apply Hall.
Qed.

Ltac required_field := unfold required_fields; simpl; tauto.

(** On validated metadata the last step raises nothing and keeps every
    field populated. *)
Lemma clean_and_validate_populated (metadata : entry) :
  all_populated metadata = true ->
  exists cleaned, clean_and_validate metadata = Ok cleaned
                  /\ all_populated cleaned = true.
Proof.
  intros Hall.
  destruct (@all_populated_field metadata "year" Hall) as (y & Hy & Hyne);
    [required_field|].
  destruct (@all_populated_field metadata "short_title" Hall) as (st & Hst & Hstne);
    [required_field|].
  unfold clean_and_validate, getitem. rewrite Hy. cbn [bind py_str].
  rewrite get_set_other by discriminate. rewrite Hst. cbn [bind py_len].
  assert (Hyear : all_populated (Dict.set metadata "year" (VStr y)) = true).
  { apply all_populated_set; [exact Hall|].
    simpl. now destruct (String.eqb_spec (PyStr.strip y) ""). }
  destruct (50 <? PyStr.len st)%nat.
  - eexists. split; [reflexivity|].
    apply all_populated_set; [exact Hyear|]. unfold populated.
    destruct (String.eqb_spec (PyStr.strip (PyStr.cut 47 st ++ "...")) "") as [E|]; [|reflexivity].
    now apply ellipsis_not_blank in E.
  - eexists. split; [reflexivity | exact Hyear].
Qed.

(** Whatever the primary resolver returns is the fallback metadata or
    metadata whose nine fields are populated: non-blank strings, each of
    them. *)
Theorem analyze_document_with_llm_cases
  (env : Env) (self : DocumentCataloguer) (text_content : string) (file_path : Path.t)
  (metadata : entry) :
  analyze_document_with_llm env self text_content file_path = Ok metadata ->
  metadata = get_fallback_metadata self file_path \/ all_populated metadata = true.
Proof.
  unfold analyze_document_with_llm.
  destruct (query_ollama env self (prompt text_content) 3) as [response|];
    [|intros H; inversion H; now left].
  destruct (response =? ""); [intros H; inversion H; now left|].
  destruct (PyStr.find "{" (PyStr.strip response)) as [json_start|];
    [|intros H; inversion H; now left].
  destruct (json_start <? _)%nat; [|intros H; inversion H; now left].
  destruct (json_loads env _) as [parsed|]; [|intros H; inversion H; now left].
  assert (H := fill_required_all_populated parsed).
  destruct (fill_required required_fields parsed) as [filled|e]; simpl; [|discriminate].
  destruct (@clean_and_validate_populated filled H) as (cleaned & -> & Hc).
  intros Hok. inversion Hok; subst. now right.
Qed.

Lemma analyze_document_with_llm_cases_witness :
  analyze_document_with_llm (example_env (Some accented_response))
    (cataloguer (example_env None) bare_world) "Guide" ["/"; "kb"; "Health"; "guide.pdf"]
  = Ok (match Json.loads accented_response with Some m => m | None => [] end)
  /\ ((match Json.loads accented_response with Some m => m | None => [] end)
      = get_fallback_metadata (cataloguer (example_env None) bare_world)
          ["/"; "kb"; "Health"; "guide.pdf"]
      \/ all_populated (match Json.loads accented_response with Some m => m | None => [] end)
         = true).
Proof.
  split; [reflexivity|].
  apply (@analyze_document_with_llm_cases (example_env (Some accented_response))
           (cataloguer (example_env None) bare_world) "Guide"
           ["/"; "kb"; "Health"; "guide.pdf"]).
  reflexivity.
Defined.

(** C3. The primary resolver is to raise nothing to its caller.  On an
    answer whose JSON gives the year as a number, it raises: [strip] is
    looked up on the integer before [str(metadata["year"])] is reached, and
    [AttributeError] is not among the exceptions the resolver catches.  The
    same answer with the year as a string is resolved, and an answer without
    braces falls back. *)
Theorem analyze_raises_on_numeric_year :
  let self := cataloguer (example_env None) bare_world in
  let file_path := ["/"; "kb"; "WASH"; "sphere.pdf"] in
  analyze_document_with_llm (example_env (Some numeric_year_response)) self
    "The Sphere Handbook" file_path
  = Raise (AttributeError "strip")
  /\ json_loads (example_env None)
       (PyStr.slice 22 (String.length numeric_year_response) numeric_year_response)
     <> None
  /\ (exists metadata,
        analyze_document_with_llm (example_env (Some string_year_response)) self
          "The Sphere Handbook" file_path = Ok metadata
        /\ all_populated metadata = true)
  /\ analyze_document_with_llm (example_env (Some "no braces here")) self
       "The Sphere Handbook" file_path
     = Ok (get_fallback_metadata self file_path).
Proof.
  repeat split.
  - vm_compute. discriminate.
  - eexists. split; vm_compute; reflexivity.
Qed.

(** The exception leaves [process_document] too: nothing between the
    resolver and the loop of [catalog_all_documents] catches it, and the
    loop drops the document. *)
Example numeric_year_drops_document :
  let env := example_env (Some numeric_year_response) in
  process_document env (cataloguer env year_named_world) year_named_world
    ["/"; "kb"; "WASH"; "2011.pdf"] true
  = Raise (AttributeError "strip")
  /\ catalog_all_documents env (cataloguer env year_named_world) year_named_world false false
     = Ok ([], year_named_world).
Proof. split; reflexivity. Qed.

(* ================================================================= *)
(** ** Entries *)

(** The nine descriptive fields of a catalog entry: the summary is kept
    under [notes]. *)
Lemma resolved_entry_fields (env : Env) (file_path : Path.t)
  (doc_id sector doc_type relative_path current_checksum : string)
  (title short_title publisher year language country_scope evidence_level
   summary indicators_covered : pyval) :
  let e := catalog_entry env file_path doc_id sector doc_type relative_path
             current_checksum title short_title publisher year language
             country_scope evidence_level summary indicators_covered in
  Dict.get e "title" = Some title
  /\ Dict.get e "short_title" = Some short_title
  /\ Dict.get e "file_path" = Some (VStr relative_path)
  /\ Dict.get e "doc_id" = Some (VStr doc_id)
  /\ Dict.get e "checksum_sha256" = Some (VStr current_checksum).
Proof. repeat split; reflexivity. Qed.

(** C4. Every entry is to have its nine descriptive fields populated.  For
    a document named by a year alone the fallback leaves two of them empty:
    the title is what is left of the stem once the year is removed.  The
    primary resolver fills an empty title with [Unknown]; the fallback has
    no such step. *)
Theorem fallback_title_empty_for_year_name :
  let env := example_env None in
  let self := cataloguer env year_named_world in
  let file_path := ["/"; "kb"; "WASH"; "2011.pdf"] in
  exists e,
    process_document env self year_named_world file_path false = Ok (Some e)
    /\ Dict.get e "title" = Some (VStr "")
    /\ Dict.get e "short_title" = Some (VStr "")
    /\ Dict.get (get_fallback_metadata self file_path) "title" = Some (VStr "")
    /\ all_populated (get_fallback_metadata self file_path) = false.
Proof.
  eexists. split; [vm_compute; reflexivity|].
  repeat split; reflexivity.
Qed.

Lemma digit_not_space_byte (a : ascii) :
  PyStr.is_digit a = true -> PyStr.space_byte a = false.
Proof.
  destruct a as [[] [] [] [] [] [] [] []]; vm_compute; congruence.
Qed.

Lemma search_year_populated (s : string) (prev_word : bool) (y : string) :
  Re.search_year_from prev_word s = Some y -> populated (Some (VStr y)) = true.
Proof.
  revert prev_word; induction s as [|a s IH]; intros prev_word;
    cbn [Re.search_year_from]; [discriminate|].
  destruct (if prev_word then None else Re.year_here (String a s)) as [y'|] eqn:E.
  - intros H. destruct prev_word; [discriminate|].
    assert (Hy : y' = y) by congruence. subst y'. clear H.
    unfold Re.year_here in E.
    destruct s as [|b [|c [|d rest]]]; try discriminate.
    destruct (PyStr.digits4 a b c d) eqn:Hd; [|discriminate].
    destruct (_ && negb _); [|discriminate].
    inversion E; subst y. unfold populated, PyStr.four.
    unfold PyStr.digits4 in Hd.
    apply andb_true_iff in Hd as [Hd _]. apply andb_true_iff in Hd as [Hd _].
    apply andb_true_iff in Hd as [Ha _].
    assert (Hspace : PyStr.space_byte a = false) by now apply digit_not_space_byte.
    destruct (String.eqb_spec (PyStr.strip (String a (String b (String c (String d ""))))) "")
      as [Hblank|]; [|reflexivity].
    apply strip_empty in Hblank. cbn [PyStr.forallb] in Hblank.
    rewrite Hspace in Hblank. discriminate.
  - apply IH.
Qed.

(** What the fallback does populate: the publisher, year, language, country
    scope, summary, indicators and evidence level are non-blank strings for
    every path.  (The two titles are not: they are empty when nothing of
    the stem is left.) *)
Theorem fallback_populates_all_but_titles (self : DocumentCataloguer) (file_path : Path.t) :
  List.forallb
    (fun field => populated (Dict.get (get_fallback_metadata self file_path) field))
    ["publisher"; "year"; "language"; "country_scope"; "summary";
     "indicators_covered"; "evidence_level"] = true.
Proof.
  unfold get_fallback_metadata.
  set (filename := Path.stem file_path).
  set (path_str := PyStr.lower (Path.str file_path)).
  cbn [List.forallb Dict.get]. unfold keq, string_keyeq.
  assert (Hpub : populated (Some (VStr (detect_publisher publishers filename path_str))) = true).
  { unfold publishers. cbn [detect_publisher].
    repeat match goal with
           | |- context [if ?c then _ else _] => destruct c; [reflexivity|]
           end.
    reflexivity. }
  assert (Hyear : populated (Some (VStr (match Re.search_year filename with
                                         | Some y => y
                                         | None => "Unknown"
                                         end))) = true).
  { destruct (Re.search_year filename) as [y|] eqn:E; [|reflexivity].
    exact (@search_year_populated filename false y E). }
  assert (Hlang : populated (Some (VStr
            (if any_in ["fr"; "french"; "français"] filename then "FR"
             else if any_in ["es"; "spanish"; "español"] filename then "ES"
             else if any_in ["ar"; "arabic"] filename then "AR"
             else "EN"))) = true).
  { repeat match goal with
           | |- context [if ?c then _ else _] => destruct c; [reflexivity|]
           end.
    reflexivity. }
  repeat match goal with
         | |- context [String.eqb ?a ?b] =>
             let r := eval vm_compute in (String.eqb a b) in
             change (String.eqb a b) with r; cbv iota
         end.
  rewrite Hpub, Hyear, Hlang. reflexivity.
Qed.

(** The fallback title is empty for every stem made of separators and
    four-digit words only. *)
Example fallback_title_empty_more :
  clean_title "2011" = "" /\ clean_title "___" = "" /\ clean_title "2011-2012" = ""
  /\ clean_title "sphere_2011" = "Sphere".
Proof. repeat split; reflexivity. Qed.

(* ================================================================= *)
(** ** Skipping an unchanged document *)

(** C7. A document whose relative path is in the prior catalog with the
    checksum its bytes have now is skipped when reprocessing is not forced:
    [process_document] returns the prior entry itself, whatever the
    extractors, the model and the clock would have given. *)
Theorem process_document_skips_unchanged
  (env : Env) (self : DocumentCataloguer) (w : World)
  (file_path rel : Path.t) (prior : entry) :
  Path.relative_to file_path (kb_path self) = Ok rel ->
  Dict.get (existing_catalog self) (VStr (Path.str rel)) = Some prior ->
  Dict.get prior "checksum_sha256" = Some (VStr (get_file_checksum env w file_path)) ->
  process_document env self w file_path false = Ok (Some prior).
Proof.
  intros Hrel Hprior Hsum.
  unfold process_document. rewrite Hrel. cbn [bind].
  unfold unchanged_entry, Dict.contains.
  rewrite Hprior, Hsum. cbn [eq_str].
  now rewrite String.eqb_refl.
Qed.

(* ================================================================= *)
(** ** Incremental synchronisation *)

(** C1. A second incremental run with nothing changed on disk is to leave
    the catalog as the first run wrote it, byte for byte.  It does not.
    The first run writes the nine columns it has nothing for as empty
    cells; [pd.read_csv] reads an empty cell as NaN; the second run finds
    nothing new and nothing deleted, copies the rows forward as they were
    read and saves them, and [csv] writes a NaN as [nan].  The table of the
    second run differs from that of the first in these nine cells, and only
    the third run writes what it read. *)
Theorem incremental_sync_rewrites_own_output :
  let env := pandas_env None in
  let catalog := ["/"; "kb"; "00_Governance"; "kb_catalog.csv"] in
  exists (w1 w2 : World) (table1 table2 : csv_text),
    main env fresh_world "/kb" false false true = Ok w1
    /\ Fs.lookup (tables w1) catalog = Some table1
    /\ scan_for_file_changes (cataloguer env w1) w1 = Ok ([], [])
    /\ main env w1 "/kb" false false true = Ok w2
    /\ files w2 = files w1
    /\ Fs.lookup (tables w2) catalog = Some table2
    /\ List.length table1 = 2 /\ List.length table2 = 2
    /\ table_cell table1 0 "file_path" = Some "WASH/a.pdf"
    /\ table_cell table2 0 "file_path" = Some "WASH/a.pdf"
    /\ table_cell table1 0 "license" = Some ""
    /\ table_cell table2 0 "license" = Some "nan"
    /\ changed_columns table1 table2 0
       = ["license"; "license_url"; "redistributable"; "url"; "supersedes_doc_id";
          "page_anchors"; "embedding_model"; "chunk_count"; "vector_index_id"]
    /\ table2 <> table1
    /\ main env w2 "/kb" false false true = Ok w2.
Proof.
  eexists _, _, _, _.
  split; [vm_compute; reflexivity|].
  split; [vm_compute; reflexivity|].
  split; [vm_compute; reflexivity|].
  split; [vm_compute; reflexivity|].
  split; [reflexivity|].
  split; [vm_compute; reflexivity|].
  repeat split; try (vm_compute; reflexivity).
  vm_compute. discriminate.
Qed.

(** The loop of the synchroniser only appends. *)
Lemma catalog_one_appends (env : Env) (self : DocumentCataloguer)
  (rename_files incremental : bool) (w : World) (acc : list entry) (file_path : Path.t) :
  exists added w',
    catalog_one env self rename_files incremental (w, acc) file_path = (w', acc ++ added).
Proof.
  unfold catalog_one.
  destruct (process_document env self w file_path (negb incremental)) as [[e|]|];
    try (exists [], w; now rewrite app_nil_r).
  destruct e as [|item e]; [exists [], w; now rewrite app_nil_r|].
  destruct rename_files; [|now eexists _, _].
  destruct (getitem (item :: e) "doc_id") as [doc_id|];
    [|exists [], w; now rewrite app_nil_r].
  destruct (rename_file self w file_path _) as [new_path w'].
  destruct (negb (Path.eqb new_path file_path)); [|now eexists _, _].
  destruct (Path.relative_to new_path (kb_path self));
    [now eexists _, _ | exists [], w'; now rewrite app_nil_r].
Qed.

Lemma fold_catalog_one_appends (env : Env) (self : DocumentCataloguer)
  (rename_files incremental : bool) (todo : list Path.t) :
  forall (w : World) (acc : list entry),
  exists added w',
    fold_left (catalog_one env self rename_files incremental) todo (w, acc)
    = (w', acc ++ added).
Proof.
  induction todo as [|f todo IH]; intros w acc; cbn [fold_left].
  - exists [], w. now rewrite app_nil_r.
  - destruct (catalog_one_appends env self rename_files incremental w acc f)
      as (added1 & w1 & ->).
    destruct (IH w1 (acc ++ added1)) as (added2 & w2 & ->).
    exists (added1 ++ added2), w2. now rewrite app_assoc.
Qed.

(** An incremental run copies forward the prior entry of every path that
    is still on disk, and reads nothing of the file to do so: the output
    opens with the prior entries that were not deleted. *)
Theorem incremental_sync_extends_prior
  (env : Env) (self : DocumentCataloguer) (w : World) (rename_files : bool)
  (new_files : list Path.t) (deleted_files : list pyval) :
  scan_for_file_changes self w = Ok (new_files, deleted_files) ->
  exists added w',
    catalog_all_documents env self w rename_files true
    = Ok (clean_deleted_entries self deleted_files ++ added, w').
Proof.
  intros Hscan. unfold catalog_all_documents. rewrite Hscan. cbn [bind].
  destruct (fold_catalog_one_appends env self rename_files true new_files w
              (clean_deleted_entries self deleted_files)) as (added & w' & Hfold).
  destruct new_files as [|f new_files].
  - destruct deleted_files; [exists [], w; now rewrite app_nil_r|].
    simpl in *. exists [], w. now rewrite app_nil_r.
  - rewrite Hfold. now exists added, w'.
Qed.

(** C2. A document rewritten in place is to have its entry regenerated by
    the next incremental run.  It is not: the path is in the catalog and on
    disk, so the scan reports nothing, the run returns at once and the
    entry keeps the checksum of the old bytes.  The comparison of checksums
    sits in [process_document], which would regenerate the entry, but an
    incremental run hands it new paths only.  The entry of the other
    document is the one loaded. *)
Theorem incremental_sync_keeps_stale_entry :
  let env := example_env None in
  let self := cataloguer env stale_world in
  let a := ["/"; "kb"; "WASH"; "a.pdf"] in
  Dict.get entry_a "checksum_sha256" = Some (VStr "sha256:a bytes")
  /\ get_file_checksum env stale_world a = "sha256:a new text"
  /\ scan_for_file_changes self stale_world = Ok ([], [])
  /\ catalog_all_documents env self stale_world false true
     = Ok ([entry_a; entry_b], stale_world)
  /\ exists regenerated,
       process_document env self stale_world a false = Ok (Some regenerated)
       /\ Dict.get regenerated "checksum_sha256" = Some (VStr "sha256:a new text").
Proof.
  repeat split.
  eexists. split; [vm_compute; reflexivity | reflexivity].
Qed.

(** C5. With no eligible document under the root and no catalog file, an
    incremental run raises nothing and returns no entry; [main] then has
    nothing to save and leaves the world as it found it, in test mode too. *)
Theorem empty_kb_incremental_sync
  (env : Env) (w : World) (kb : string) (rename_files test_mode : bool) :
  documents (init env w kb default_catalog_file default_ollama_url default_model) w = [] ->
  Fs.exists_ w (catalog_path (init env w kb default_catalog_file default_ollama_url
                                default_model)) = false ->
  existing_catalog (init env w kb default_catalog_file default_ollama_url default_model) = []
  /\ catalog_all_documents env
       (init env w kb default_catalog_file default_ollama_url default_model)
       w rename_files true = Ok ([], w)
  /\ main env w kb rename_files test_mode true = Ok w.
Proof.
  intros Hdocs Hnone.
  set (self := init env w kb default_catalog_file default_ollama_url default_model) in *.
  apply app_eq_nil in Hdocs as [Hpdf Hdocx].
  assert (Hcat : existing_catalog self = []).
  { subst self. simpl in *. unfold load_existing_catalog. now rewrite Hnone. }
  assert (Hscan : scan_for_file_changes self w = Ok ([], [])).
  { unfold scan_for_file_changes, current_files.
    rewrite Hpdf, Hdocx, Hcat. reflexivity. }
  assert (Hrun : forall r, catalog_all_documents env self w r true = Ok ([], w)).
  { intros r. unfold catalog_all_documents. rewrite Hscan. cbn [bind].
    unfold clean_deleted_entries. rewrite Hcat. reflexivity. }
  repeat split; [exact Hcat | apply Hrun |].
  unfold main. fold self.
  destruct test_mode.
  - rewrite Hscan. cbn [bind fst snd firstn].
    unfold clean_deleted_entries. rewrite Hcat. reflexivity.
  - rewrite Hrun. reflexivity.
Qed.

(* ================================================================= *)
(** ** Paths and their text *)

Section PathText.
Import PyStr.

Lemma path_eqb_eq (p q : Path.t) : Path.eqb p q = true <-> p = q.
Proof.
  unfold Path.eqb. destruct (list_eq_dec string_dec p q); split; congruence.
Qed.

Lemma path_eqb_neq (p q : Path.t) : Path.eqb p q = false <-> p <> q.
Proof.
  unfold Path.eqb. destruct (list_eq_dec string_dec p q); split; congruence.
Qed.

Lemma strip_prefix_app (other p rel : Path.t) :
  Path.strip_prefix other p = Some rel -> p = other ++ rel.
Proof.
  revert p; induction other as [|a other IH]; intros p H; simpl in *.
  - now inversion H.
  - destruct p as [|b p]; [discriminate|].
    destruct (String.eqb_spec a b) as [->|]; [|discriminate].
    now rewrite (IH _ H).
Qed.

Lemma relative_to_app (p other rel : Path.t) :
  Path.relative_to p other = Ok rel ->
  p = other ++ rel /\ Path.is_absolute p = Path.is_absolute other.
Proof.
  unfold Path.relative_to.
  destruct (Bool.eqb (Path.is_absolute p) (Path.is_absolute other)) eqn:E;
    [|discriminate].
  destruct (Path.strip_prefix other p) as [r|] eqn:Es; [|discriminate].
  intros H; inversion H; subst r.
  split; [now apply strip_prefix_app | now apply Bool.eqb_prop].
Qed.

Lemma string_app_nil_r (s : string) : (s ++ "")%string = s.
Proof. induction s as [|c s IH]; simpl; [reflexivity | now rewrite IH]. Qed.

Lemma split_from_free (cur x s : string) :
  slash_free x = true ->
  split_from "/" cur (x ++ s) = split_from "/" (cur ++ x) s.
Proof.
  revert cur; induction x as [|c x IH]; intros cur Hx; simpl in *.
  - now rewrite string_app_nil_r.
  - apply andb_true_iff in Hx as [Hc Hx].
    apply negb_true_iff in Hc. rewrite Hc.
    rewrite IH by exact Hx. now rewrite string_app_assoc.
Qed.

(** Splitting the joined components of a path gives them back. *)
Lemma split_join (l : list string) :
  l <> [] -> List.forallb slash_free l = true -> split "/" (join "/" l) = l.
Proof.
  unfold split.
  induction l as [|x l IH]; intros Hne Hfree; [congruence|].
  simpl in Hfree. apply andb_true_iff in Hfree as [Hx Hl].
  destruct l as [|y l].
  - simpl. rewrite <- (string_app_nil_r x) at 1.
    now rewrite split_from_free.
  - change (join "/" (x :: y :: l)) with (x ++ "/" ++ join "/" (y :: l))%string.
    rewrite split_from_free by exact Hx.
    cbn [append split_from]. rewrite Ascii.eqb_refl.
    f_equal. apply IH; [discriminate | exact Hl].
Qed.

Lemma slash_free_not_root (x : string) : slash_free x = true -> Path.is_root x = false.
Proof.
  intros H. unfold Path.is_root.
  destruct (String.eqb_spec x "/") as [->|]; [discriminate|].
  destruct (String.eqb_spec x "//") as [->|]; [discriminate | reflexivity].
Qed.

Lemma str_of_relative (l : list string) :
  l <> [] -> List.forallb slash_free l = true -> Path.str l = join "/" l.
Proof.
  destruct l as [|x l]; [congruence|]. intros _ H.
  simpl in H. apply andb_true_iff in H as [Hx _].
  unfold Path.str. now rewrite (slash_free_not_root _ Hx).
Qed.

(** Two relative paths with the same text are the same path. *)
Lemma str_injective (l1 l2 : list string) :
  l1 <> [] -> l2 <> [] ->
  List.forallb slash_free l1 = true -> List.forallb slash_free l2 = true ->
  Path.str l1 = Path.str l2 -> l1 = l2.
Proof.
  intros Hn1 Hn2 Hf1 Hf2 Hstr.
  rewrite !str_of_relative in Hstr by assumption.
  rewrite <- (split_join Hn1 Hf1), <- (split_join Hn2 Hf2).
  now rewrite Hstr.
Qed.

(** The components below the root of a well-formed path have no slash. *)
Lemma relative_slash_free (p other rel : Path.t) :
  wf_path p = true -> Path.relative_to p other = Ok rel ->
  List.forallb slash_free rel = true.
Proof.
  intros Hwf Hrel.
  destruct (relative_to_app _ _ Hrel) as [-> Habs].
  destruct other as [|a other].
  - simpl in *. destruct rel as [|r rel]; [reflexivity|].
    simpl in *. rewrite Habs in Hwf. exact Hwf.
  - simpl in Hwf. apply andb_true_iff in Hwf as [_ Hrest].
    rewrite List.forallb_app in Hrest. now apply andb_true_iff in Hrest as [_ ?].
Qed.

End PathText.

Section WellFormed.
Import PyStr.

Lemma split_from_slash_free (s cur : string) :
  slash_free cur = true -> List.forallb slash_free (split_from "/" cur s) = true.
Proof.
  revert cur; induction s as [|c s IH]; intros cur Hcur; simpl.
  - now rewrite Hcur.
  - destruct (Ascii.eqb c "/") eqn:E; simpl.
    + rewrite Hcur. now apply IH.
    + apply IH. unfold slash_free. rewrite str_forallb_app. simpl.
      unfold slash_free in Hcur. now rewrite Hcur, E.
Qed.

Lemma forallb_filter {A : Type} (p q : A -> bool) (l : list A) :
  List.forallb p l = true -> List.forallb p (List.filter q l) = true.
Proof.
  induction l as [|x l IH]; simpl; [reflexivity|].
  intros H. apply andb_true_iff in H as [Hx Hl].
  destruct (q x); simpl; [rewrite Hx|]; auto.
Qed.

Lemma slash_free_wf (l : Path.t) : List.forallb slash_free l = true -> wf_path l = true.
Proof.
  destruct l as [|x l]; simpl; [reflexivity|].
  intros H. apply andb_true_iff in H as [-> ->]. now rewrite orb_true_r.
Qed.

Lemma of_string_wf (s : string) : wf_path (Path.of_string s) = true.
Proof.
  unfold Path.of_string.
  assert (H : List.forallb slash_free
                (List.filter (fun c => negb (c =? "") && negb (c =? "."))
                             (split "/" s)) = true).
  { apply forallb_filter. now apply split_from_slash_free. }
  destruct (startswith "//" s && negb (startswith "///" s)); [simpl; exact H|].
  destruct (startswith "/" s).
  - simpl. exact H.
  - now apply slash_free_wf.
Qed.

Lemma wf_path_app_l (p q : Path.t) : wf_path (p ++ q) = true -> wf_path p = true.
Proof.
  destruct p as [|a p]; simpl; [reflexivity|].
  intros H. apply andb_true_iff in H as [Ha Hrest].
  rewrite List.forallb_app in Hrest. apply andb_true_iff in Hrest as [Hp _].
  now rewrite Ha, Hp.
Qed.

Lemma parent_wf (p : Path.t) : wf_path p = true -> wf_path (Path.parent p) = true.
Proof.
  intros Hwf. unfold Path.parent.
  destruct (rev p) as [|last before] eqn:E; [reflexivity|].
  destruct (Path.is_root last && _); [exact Hwf|].
  apply (wf_path_app_l (rev before) [last]).
  assert (Hp : p = rev before ++ [last])
    by (rewrite <- (rev_involutive p), E; reflexivity).
  now rewrite <- Hp.
Qed.

Lemma joinpath_wf (p q : Path.t) :
  wf_path p = true -> wf_path q = true -> wf_path (Path.joinpath p q) = true.
Proof.
  intros Hp Hq. unfold Path.joinpath.
  destruct (Path.is_absolute q) eqn:Habs; [exact Hq|].
  assert (Hfree : List.forallb slash_free q = true).
  { destruct q as [|r q]; [reflexivity|]. simpl in *. now rewrite Habs in Hq. }
  destruct p as [|a p]; [now apply slash_free_wf|].
  simpl in *. apply andb_true_iff in Hp as [Ha Hrest].
  now rewrite Ha, List.forallb_app, Hrest, Hfree.
Qed.

(** The path a rename gives a well-formed file is well-formed. *)
Lemma renamed_path_wf (p : Path.t) (new_filename : string) :
  wf_path p = true -> wf_path (Path.join_str (Path.parent p) new_filename) = true.
Proof.
  intros Hp. apply joinpath_wf; [now apply parent_wf | apply of_string_wf].
Qed.

End WellFormed.

(* ================================================================= *)
(** ** Files *)

Lemma lookup_in {A : Type} (l : list (Path.t * A)) (p : Path.t) :
  In p (List.map fst l) -> Fs.lookup l p <> None.
Proof.
  induction l as [|[q a] l IH]; simpl; [tauto|].
  intros [->|Hin].
  - now rewrite (proj2 (path_eqb_eq p p) eq_refl).
  - destruct (Path.eqb q p); [discriminate | now apply IH].
Qed.

(** Renaming a file leaves every other path with the bytes it had. *)
Lemma read_after_move (w : World) (src dst p : Path.t) :
  p <> src -> p <> dst -> Fs.read (Fs.move w src dst) p = Fs.read w p.
Proof.
  intros Hsrc Hdst. unfold Fs.read, Fs.move. simpl.
  induction (files w) as [|[q a] l IH]; simpl; [reflexivity|].
  destruct (Path.eqb q src) eqn:Eq; simpl.
  - apply path_eqb_eq in Eq. subst q.
    rewrite (proj2 (path_eqb_neq dst p)) by congruence.
    rewrite (proj2 (path_eqb_neq src p)) by congruence.
    exact IH.
  - destruct (Path.eqb q p); [reflexivity | exact IH].
Qed.

(** The text of a document depends on the world through its bytes only. *)
Lemma extract_text_read (env : Env) (w1 w2 : World) (file_path : Path.t) :
  Fs.read w1 file_path = Fs.read w2 file_path ->
  extract_text env w1 file_path = extract_text env w2 file_path.
Proof.
  intros H. unfold extract_text, extract_text_from_pdf, extract_text_from_docx.
  now rewrite H.
Qed.

Lemma bind_ok {A B : Type} (c : result A) (k : A -> result B) (b : B) :
  bind c k = Ok b -> exists a, c = Ok a /\ k a = Ok b.
Proof. destruct c as [a|e]; simpl; [now exists a | discriminate]. Qed.

(** A document without text yields no entry, forced or changed. *)
Lemma process_document_no_text (env : Env) (self : DocumentCataloguer) (w : World)
  (file_path rel : Path.t) :
  Path.relative_to file_path (kb_path self) = Ok rel ->
  extract_text env w file_path = Some "" ->
  process_document env self w file_path true = Ok None.
Proof.
  intros Hrel Htext. unfold process_document.
  rewrite Hrel. cbn [bind]. now rewrite Htext.
Qed.

(** A forced run of [process_document] that yields an entry yields the
    literal of a resolved document, under the relative path of the file. *)
Lemma process_document_forced (env : Env) (self : DocumentCataloguer) (w : World)
  (file_path : Path.t) (e : entry) :
  process_document env self w file_path true = Ok (Some e) ->
  exists rel doc_id,
    Path.relative_to file_path (kb_path self) = Ok rel
    /\ extract_text env w file_path <> Some ""
    /\ Dict.get e "file_path" = Some (VStr (Path.str rel))
    /\ Dict.get e "doc_id" = Some (VStr doc_id)
    /\ e <> [].
Proof.
  unfold process_document. intros H.
  apply bind_ok in H as (rel & Hrel & H).
  destruct (extract_text env w file_path) as [text|]; [|discriminate].
  destruct (String.eqb_spec text "") as [|Hne]; [discriminate|].
  apply bind_ok in H as (e' & Hres & H). inversion H; subst e'. clear H.
  unfold resolve_document in Hres.
  repeat (apply bind_ok in Hres as (? & _ & Hres)).
  inversion Hres; subst e.
  eexists rel, _. repeat split; try reflexivity; try exact Hrel; try discriminate.
  congruence.
Qed.

(* ================================================================= *)
(** ** Full scans *)

(** What the listing of a full scan tells of a document: it is a file of
    the world, strictly below the root, and its name opens with no dot. *)
Lemma documents_spec (self : DocumentCataloguer) (w : World) (f : Path.t) :
  In f (documents self w) ->
  In f (List.map fst (files w))
  /\ (exists r rel, Path.relative_to f (kb_path self) = Ok (r :: rel))
  /\ PyStr.startswith "." (Path.name f) = false.
Proof.
  intros Hin. unfold documents, visible_files in Hin.
  assert (H : In f (Fs.glob w (kb_path self) ".pdf") \/ In f (Fs.glob w (kb_path self) ".docx")
              /\ True \/ False -> In f (List.map fst (files w))
              /\ (exists r rel, Path.relative_to f (kb_path self) = Ok (r :: rel))).
  { unfold Fs.glob. intros [H|[[H _]|[]]];
      apply filter_In in H as [Hfiles Hcond]; (split; [exact Hfiles|]);
      unfold Path.relative_to;
      destruct (Path.strip_prefix (kb_path self) f) as [[|r rel]|]; try discriminate;
      apply andb_true_iff in Hcond as [Habs _]; rewrite Habs; now exists r, rel. }
  apply in_app_or in Hin as [Hin|Hin]; apply filter_In in Hin as [Hglob Hvis];
    apply negb_true_iff in Hvis; (split; [|split; [|exact Hvis]]); apply H; tauto.
Qed.

Section UnreadableDocument.
Variable env : Env.
Variable self : DocumentCataloguer.
Variable w0 : World.
Variable rename_files : bool.
Variables doc rel : Path.t.

Hypothesis files_wf : List.forallb wf_path (List.map fst (files w0)) = true.
Hypothesis doc_listed : In doc (documents self w0).
Hypothesis doc_rel : Path.relative_to doc (kb_path self) = Ok rel.
Hypothesis doc_no_text : extract_text env w0 doc = Some "".

Let absent (entries : list entry) : Prop :=
  forall e, In e entries -> Dict.get e "file_path" <> Some (VStr (Path.str rel)).

Lemma listed_wf (f : Path.t) : In f (documents self w0) -> wf_path f = true.
Proof.
  intros Hin. apply documents_spec in Hin as [Hfiles _].
  rewrite forallb_forall in files_wf. now apply files_wf.
Qed.

Lemma doc_rel_shape : rel <> [] /\ List.forallb slash_free rel = true.
Proof.
  split.
  - destruct (@documents_spec self w0 doc doc_listed) as (_ & (r & rel' & Hr) & _).
    rewrite doc_rel in Hr. inversion Hr. discriminate.
  - eapply relative_slash_free; [apply listed_wf; exact doc_listed | exact doc_rel].
Qed.

(** The text of the relative path of the document is not a lone dot. *)
Lemma doc_rel_not_dot : Path.str rel <> ".".
Proof.
  destruct doc_rel_shape as [Hne Hfree]. intros Hdot.
  assert (Hrel : rel = ["."]).
  { apply str_injective; try assumption; try reflexivity; discriminate. }
  destruct (@documents_spec self w0 doc doc_listed) as (_ & _ & Hvis).
  destruct (@relative_to_app doc (kb_path self) rel doc_rel) as [Hdoc _].
  rewrite Hdoc, Hrel in Hvis. unfold Path.name in Hvis.
  rewrite rev_app_distr in Hvis. simpl in Hvis. discriminate.
Qed.

(** No other path below the root has the relative text of the document. *)
Lemma other_path_other_text (p rel' : Path.t) :
  wf_path p = true -> p <> doc ->
  Path.relative_to p (kb_path self) = Ok rel' ->
  Path.str rel' <> Path.str rel.
Proof.
  intros Hwf Hne Hrel' Hstr.
  destruct doc_rel_shape as [Hrel_ne Hfree].
  destruct rel' as [|r rel'].
  - apply doc_rel_not_dot. now rewrite <- Hstr.
  - apply Hne.
    destruct (@relative_to_app p (kb_path self) (r :: rel') Hrel') as [-> _].
    destruct (@relative_to_app doc (kb_path self) rel doc_rel) as [-> _].
    f_equal. apply str_injective; try assumption; try discriminate.
    eapply relative_slash_free; [exact Hwf | exact Hrel'].
Qed.

(** One turn of the loop leaves the bytes of the document alone and
    appends no entry under its path. *)
Lemma catalog_one_keeps_absent (f : Path.t) (w : World) (acc : list entry) :
  In f (documents self w0) ->
  Fs.read w doc = Fs.read w0 doc ->
  absent acc ->
  Fs.read (fst (catalog_one env self rename_files false (w, acc) f)) doc = Fs.read w0 doc
  /\ absent (snd (catalog_one env self rename_files false (w, acc) f)).
Proof.
  intros Hf Hread Habsent.
  assert (Hwf : wf_path f = true) by now apply listed_wf.
  unfold catalog_one. cbn [negb].
  destruct (process_document env self w f true) as [[e|]|] eqn:Hp;
    try (split; assumption).
  destruct (@process_document_forced env self w f e Hp)
    as (relf & doc_id & Hrelf & Htext & Hpath & Hid & Hne).
  assert (Hfdoc : f <> doc).
  { intros ->. apply Htext.
    now rewrite (@extract_text_read env w w0 doc Hread). }
  assert (Hnew : absent (acc ++ [e])).
  { intros e' Hin. apply in_app_or in Hin as [Hin|[<-|[]]]; [now apply Habsent|].
    rewrite Hpath. intros Heq. inversion Heq as [Hstr].
    exact (@other_path_other_text f relf Hwf Hfdoc Hrelf Hstr). }
  destruct e as [|item e]; [congruence|].
  destruct rename_files; [|split; assumption].
  unfold getitem. rewrite Hid.
  set (new_filename := generate_new_filename self (py_str (VStr doc_id)) f).
  unfold rename_file.
  set (new_path := Path.join_str (Path.parent f) new_filename).
  destruct (negb (Path.eqb new_path f) && negb (Fs.exists_ w new_path)) eqn:Hcond.
  - apply andb_true_iff in Hcond as [Hdiff Hfree].
    destruct (Fs.read w f) as [bytes|] eqn:Hbytes.
    + rewrite Hdiff.
      assert (Hdocnew : doc <> new_path).
      { intros Heq. apply negb_true_iff in Hfree. unfold Fs.exists_ in Hfree.
        rewrite <- Heq in Hfree.
        assert (Hsome : Fs.lookup (files w) doc <> None).
        { unfold Fs.read in Hread. rewrite Hread. apply lookup_in.
          now destruct (@documents_spec self w0 doc doc_listed). }
        destruct (Fs.lookup (files w) doc); [discriminate | congruence]. }
      assert (Hmove : Fs.read (Fs.move w f new_path) doc = Fs.read w0 doc).
      { rewrite read_after_move by congruence. exact Hread. }
      destruct (Path.relative_to new_path (kb_path self)) as [rel'|] eqn:Hrel';
        [|split; assumption].
      split; [exact Hmove|]. cbn [fst snd].
      intros e' Hin. apply in_app_or in Hin as [Hin|[<-|[]]]; [now apply Habsent|].
      rewrite get_set_same. intros Heq. inversion Heq as [Hstr].
      refine (@other_path_other_text new_path rel' _ _ Hrel' Hstr); [|congruence].
      now apply renamed_path_wf.
    + rewrite (proj2 (path_eqb_eq f f) eq_refl). split; assumption.
  - rewrite (proj2 (path_eqb_eq f f) eq_refl). split; assumption.
Qed.

Lemma fold_catalog_one_keeps_absent (todo : list Path.t) :
  forall (w : World) (acc : list entry),
    (forall f, In f todo -> In f (documents self w0)) ->
    Fs.read w doc = Fs.read w0 doc ->
    absent acc ->
    absent (snd (fold_left (catalog_one env self rename_files false) todo (w, acc))).
Proof.
  induction todo as [|f todo IH]; intros w acc Htodo Hread Habsent; cbn [fold_left].
  - exact Habsent.
  - destruct (@catalog_one_keeps_absent f w acc) as [Hread' Habsent'];
      [apply Htodo; now left | exact Hread | exact Habsent |].
    destruct (catalog_one env self rename_files false (w, acc) f) as [w1 acc1].
    apply IH; [intros g Hg; apply Htodo; now right | exact Hread' | exact Habsent'].
Qed.

(** C10. In a full scan a listed document whose text comes back empty
    gets no entry: [process_document] yields [None] for it, the output
    starts empty and receives only the entries of resolved documents,
    none of which is under its path.  What the prior catalog held for it
    plays no part. *)
Theorem full_scan_drops_textless_document :
  process_document env self w0 doc true = Ok None
  /\ exists entries w',
       catalog_all_documents env self w0 rename_files false = Ok (entries, w')
       /\ forall e, In e entries ->
                    Dict.get e "file_path" <> Some (VStr (Path.str rel)).
Proof.
  split; [exact (@process_document_no_text env self w0 doc rel doc_rel doc_no_text)|].
  unfold catalog_all_documents. fold (documents self w0).
  assert (H := @fold_catalog_one_keeps_absent (documents self w0) w0 []
                 (fun f Hf => Hf) eq_refl (fun e Hin => match Hin with end)).
  destruct (fold_left _ _ _) as [w' entries].
  exists entries, w'. split; [reflexivity | exact H].
Qed.

End UnreadableDocument.

(* ================================================================= *)
(** ** The theorems at work on the fixtures *)

Lemma get_fallback_metadata_deterministic_witness :
  Path.name ["/"; "kb"; "WASH"; "Sphere_Handbook-2018.pdf"] = "Sphere_Handbook-2018.pdf"
  /\ Path.str ["/"; "kb"; "WASH"; "Sphere_Handbook-2018.pdf"] = "/kb/WASH/Sphere_Handbook-2018.pdf"
  /\ get_fallback_metadata (cataloguer (example_env None) bare_world)
       ["/"; "kb"; "WASH"; "Sphere_Handbook-2018.pdf"]
     = get_fallback_metadata
         (cataloguer (example_env (Some numeric_year_response)) stale_world)
         ["/"; "kb"; "WASH"; "Sphere_Handbook-2018.pdf"].
Proof.
  split; [reflexivity|]. split; [reflexivity|].
  apply (@get_fallback_metadata_deterministic
           (cataloguer (example_env None) bare_world)
           (cataloguer (example_env (Some numeric_year_response)) stale_world)
           ["/"; "kb"; "WASH"; "Sphere_Handbook-2018.pdf"]
           ["/"; "kb"; "WASH"; "Sphere_Handbook-2018.pdf"]);
    reflexivity.
Defined.

Lemma process_document_skips_unchanged_witness :
  Path.relative_to ["/"; "kb"; "WASH"; "a.pdf"]
    (kb_path (cataloguer (example_env (Some numeric_year_response)) synced_world))
  = Ok ["WASH"; "a.pdf"]
  /\ Dict.get (existing_catalog (cataloguer (example_env (Some numeric_year_response)) synced_world))
       (VStr "WASH/a.pdf") = Some entry_a
  /\ Dict.get entry_a "checksum_sha256"
     = Some (VStr (get_file_checksum (example_env (Some numeric_year_response)) synced_world
                     ["/"; "kb"; "WASH"; "a.pdf"]))
  /\ process_document (example_env (Some numeric_year_response))
       (cataloguer (example_env (Some numeric_year_response)) synced_world) synced_world
       ["/"; "kb"; "WASH"; "a.pdf"] false = Ok (Some entry_a).
Proof.
  split; [reflexivity|]. split; [reflexivity|]. split; [reflexivity|].
  apply (@process_document_skips_unchanged (example_env (Some numeric_year_response))
           (cataloguer (example_env (Some numeric_year_response)) synced_world) synced_world
           ["/"; "kb"; "WASH"; "a.pdf"] ["WASH"; "a.pdf"] entry_a);
    reflexivity.
Defined.

Lemma empty_kb_incremental_sync_witness :
  documents (init (example_env None) bare_world "/kb" default_catalog_file
               default_ollama_url default_model) bare_world = []
  /\ Fs.exists_ bare_world
       (catalog_path (init (example_env None) bare_world "/kb" default_catalog_file
                        default_ollama_url default_model)) = false
  /\ existing_catalog (init (example_env None) bare_world "/kb" default_catalog_file
                         default_ollama_url default_model) = []
  /\ catalog_all_documents (example_env None)
       (init (example_env None) bare_world "/kb" default_catalog_file
          default_ollama_url default_model) bare_world false true = Ok ([], bare_world)
  /\ main (example_env None) bare_world "/kb" false false true = Ok bare_world.
Proof.
  split; [reflexivity|]. split; [reflexivity|].
  apply (@empty_kb_incremental_sync (example_env None) bare_world "/kb" false false);
    reflexivity.
Defined.

Lemma full_scan_drops_textless_document_witness :
  List.forallb wf_path (List.map fst (files unreadable_world)) = true
  /\ In ["/"; "kb"; "WASH"; "a.pdf"]
        (documents (cataloguer (example_env None) unreadable_world) unreadable_world)
  /\ Path.relative_to ["/"; "kb"; "WASH"; "a.pdf"]
       (kb_path (cataloguer (example_env None) unreadable_world)) = Ok ["WASH"; "a.pdf"]
  /\ extract_text (example_env None) unreadable_world ["/"; "kb"; "WASH"; "a.pdf"] = Some ""
  /\ Dict.get (existing_catalog (cataloguer (example_env None) unreadable_world))
       (VStr "WASH/a.pdf") = Some entry_a
  /\ process_document (example_env None) (cataloguer (example_env None) unreadable_world)
       unreadable_world ["/"; "kb"; "WASH"; "a.pdf"] true = Ok None
  /\ exists entries w',
       catalog_all_documents (example_env None)
         (cataloguer (example_env None) unreadable_world) unreadable_world true false
       = Ok (entries, w')
       /\ forall e, In e entries ->
                    Dict.get e "file_path" <> Some (VStr (Path.str ["WASH"; "a.pdf"])).
Proof.
  split; [reflexivity|]. split; [left; reflexivity|]. split; [reflexivity|].
  split; [reflexivity|]. split; [reflexivity|].
  apply (@full_scan_drops_textless_document (example_env None)
           (cataloguer (example_env None) unreadable_world) unreadable_world true
           ["/"; "kb"; "WASH"; "a.pdf"] ["WASH"; "a.pdf"]);
    [reflexivity | left; reflexivity | reflexivity | reflexivity].
Defined.

(** The full scan of that world: the entry of [a.pdf] is gone, and [b.docx]
    is cataloged anew from the fallback. *)
Example full_scan_of_unreadable_world :
  exists e w',
    catalog_all_documents (example_env None)
      (cataloguer (example_env None) unreadable_world) unreadable_world false false
    = Ok ([e], w')
    /\ Dict.get e "file_path" = Some (VStr "WASH/b.docx")
    /\ w' = unreadable_world.
Proof. eexists _, _. split; [vm_compute; reflexivity|]. split; reflexivity. Qed.

(* ================================================================= *)
(** * Further properties of the code *)

(** ** The primary resolver, step by step *)

Lemma analyze_document_with_llm_unfold
  (env : Env) (self : DocumentCataloguer) (text_content : string) (file_path : Path.t) :
  analyze_document_with_llm env self text_content file_path
  = match query_ollama env self (prompt text_content) 3 with
    | None => Ok (get_fallback_metadata self file_path)
    | Some response =>
        if (response =? "") then Ok (get_fallback_metadata self file_path)
        else match response_object env response with
             | Some metadata =>
                 metadata <- fill_required required_fields metadata ;;
                 clean_and_validate metadata
             | None => Ok (get_fallback_metadata self file_path)
             end
    end.
Proof.
  unfold analyze_document_with_llm, response_object.
  destruct (query_ollama env self (prompt text_content) 3) as [response|]; [|reflexivity].
  destruct (response =? ""); [reflexivity|].
  destruct (PyStr.find "{" (PyStr.strip response)) as [json_start|]; [|reflexivity].
  now destruct (json_start <? _)%nat.
Qed.

Lemma str_length_app (a b : string) :
  String.length (a ++ b) = String.length a + String.length b.
Proof. induction a as [|c a IH]; simpl; [reflexivity | now rewrite IH]. Qed.

Lemma len_app (a b : string) : PyStr.len (a ++ b) = PyStr.len a + PyStr.len b.
Proof.
  induction a as [|c a IH]; cbn [append PyStr.len]; [reflexivity|].
  destruct (PyStr.is_cont c); [exact IH | now rewrite IH].
Qed.

Lemma cut_from_len (s : string) : forall n, (PyStr.len (PyStr.cut_from n s) <= n)%nat.
Proof.
  induction s as [|c s IH]; intros n; cbn [PyStr.cut_from PyStr.len]; [lia|].
  destruct (PyStr.is_cont c) eqn:E.
  - cbn [PyStr.len]. rewrite E. apply IH.
  - destruct n as [|n]; cbn [PyStr.len]; [lia|]. rewrite E. specialize (IH n). lia.
Qed.

(** A text cut at [n] code points has at most [n]. *)
Lemma cut_len_le (n : nat) (s : string) : (PyStr.len (PyStr.cut n s) <= n)%nat.
Proof. destruct n as [|n]; [simpl; lia | apply cut_from_len]. Qed.

Lemma cut_length (n : nat) (s : string) :
  (PyStr.len (PyStr.cut n s ++ "...") <= n + 3)%nat.
Proof.
  rewrite len_app. assert (H := cut_len_le n s).
  change (PyStr.len "...") with 3. lia.
Qed.

(** The last step leaves a short title of at most fifty characters. *)
Lemma clean_and_validate_short_title (metadata cleaned : entry) :
  all_populated metadata = true ->
  clean_and_validate metadata = Ok cleaned ->
  exists s, Dict.get cleaned "short_title" = Some (VStr s)
            /\ (PyStr.len s <= 50)%nat.
Proof.
  intros Hall.
  destruct (@all_populated_field metadata "year" Hall) as (y & Hy & _);
    [required_field|].
  destruct (@all_populated_field metadata "short_title" Hall) as (st & Hst & _);
    [required_field|].
  unfold clean_and_validate, getitem. rewrite Hy. cbn [bind py_str].
  rewrite get_set_other by discriminate. rewrite Hst. cbn [bind py_len].
  destruct (50 <? PyStr.len st)%nat eqn:E; intros H; inversion H; subst cleaned.
  - rewrite get_set_same. eexists. split; [reflexivity|].
    exact (cut_length 47 st).
  - rewrite get_set_other by discriminate. exists st. split; [exact Hst|].
    apply Nat.ltb_ge in E. exact E.
Qed.

(** Whatever path resolved them, the metadata carry a short title that is
    a [str] of at most fifty characters, however many bytes they take. *)
Theorem analyze_short_title_bounded
  (env : Env) (self : DocumentCataloguer) (text_content : string) (file_path : Path.t)
  (metadata : entry) :
  analyze_document_with_llm env self text_content file_path = Ok metadata ->
  exists s, Dict.get metadata "short_title" = Some (VStr s)
            /\ (PyStr.len s <= 50)%nat.
Proof.
  assert (Hfb : exists s, Dict.get (get_fallback_metadata self file_path) "short_title"
                          = Some (VStr s) /\ (PyStr.len s <= 50)%nat).
  { eexists. split; [reflexivity|].
    destruct (PyStr.len (clean_title (Path.stem file_path)) <=? 50)%nat.
    - apply cut_len_le.
    - exact (cut_length 47 _). }
  rewrite analyze_document_with_llm_unfold.
  destruct (query_ollama env self (prompt text_content) 3) as [response|];
    [|intros H; inversion H; subst; exact Hfb].
  destruct (response =? ""); [intros H; inversion H; subst; exact Hfb|].
  destruct (response_object env response) as [parsed|];
    [|intros H; inversion H; subst; exact Hfb].
  assert (Hfill := fill_required_all_populated parsed).
  destruct (fill_required required_fields parsed) as [filled|e]; [|discriminate].
  cbn [bind]. now apply clean_and_validate_short_title.
Qed.

Lemma analyze_short_title_bounded_witness :
  analyze_document_with_llm (example_env (Some accented_response))
    (cataloguer (example_env None) bare_world) "Guide"
    ["/"; "kb"; "Health"; "guide.pdf"]
  = Ok (match Json.loads accented_response with Some m => m | None => [] end)
  /\ Dict.get (match Json.loads accented_response with Some m => m | None => [] end)
       "short_title" = Some (VStr accented_title)
  /\ String.length accented_title = 53
  /\ exists s,
       Dict.get (match Json.loads accented_response with Some m => m | None => [] end)
         "short_title" = Some (VStr s)
       /\ (PyStr.len s <= 50)%nat.
Proof.
  split; [reflexivity|]. split; [reflexivity|]. split; [reflexivity|].
  apply (@analyze_short_title_bounded (example_env (Some accented_response))
           (cataloguer (example_env None) bare_world) "Guide"
           ["/"; "kb"; "Health"; "guide.pdf"]).
  reflexivity.
Defined.

Lemma populated_not_missing (metadata : entry) (field : string) :
  populated (Dict.get metadata field) = true ->
  missing_or_empty metadata field = Ok false.
Proof.
  unfold missing_or_empty, populated.
  destruct (Dict.get metadata field) as [[| | | |s| |]|]; try discriminate.
  intros H. apply negb_true_iff in H.
  assert (Hs : truthy (VStr s) = true).
  { simpl. destruct (String.eqb_spec s "") as [->|]; [discriminate | reflexivity]. }
  rewrite Hs. cbn [negb str_method bind]. now rewrite H.
Qed.

(** The validation loop writes to a field only when it is missing, falsy
    or blank: a populated field keeps its value, and so does every member
    of the answer that is not a required field. *)
Theorem fill_required_frame (fields : list string) :
  forall (metadata filled : entry) (key : string),
    fill_required fields metadata = Ok filled ->
    populated (Dict.get metadata key) = true \/ ~ In key fields ->
    Dict.get filled key = Dict.get metadata key.
Proof.
  induction fields as [|f fields IH]; intros metadata filled key Hfill Hkey.
  - simpl in Hfill. now inversion Hfill.
  - cbn [fill_required] in Hfill.
    apply bind_ok in Hfill as (b & Hb & Hfill). cbv beta in Hfill.
    assert (Hrest : populated (Dict.get metadata key) = true \/ ~ In key fields).
    { destruct Hkey as [Hpop|Hnot]; [now left|].
      right. intros Hin. apply Hnot. now right. }
    destruct b.
    + assert (Hne : key <> f).
      { intros ->. destruct Hkey as [Hpop|Hnot]; [|apply Hnot; now left].
        rewrite (populated_not_missing _ _ Hpop) in Hb. discriminate. }
      rewrite <- (get_set_other metadata (VStr (Dict.get_default defaults f "Unknown")) Hne).
      apply (IH _ _ _ Hfill).
      now rewrite (get_set_other metadata (VStr (Dict.get_default defaults f "Unknown")) Hne).
    + now apply (IH _ _ _ Hfill).
Qed.

Lemma fill_required_frame_witness :
  fill_required required_fields [("year", VStr "2018"); ("pages", VInt 406)]
  = Ok [("year", VStr "2018"); ("pages", VInt 406); ("title", VStr "Unknown");
        ("short_title", VStr "Unknown"); ("publisher", VStr "Unknown");
        ("language", VStr "Unknown"); ("country_scope", VStr "Global");
        ("summary", VStr "Humanitarian standard or framework document");
        ("indicators_covered", VStr "Quality and accountability standards");
        ("evidence_level", VStr "normative")]
  /\ (populated (Dict.get [("year", VStr "2018"); ("pages", VInt 406)] "pages") = true
      \/ ~ In "pages" required_fields)
  /\ Dict.get [("year", VStr "2018"); ("pages", VInt 406); ("title", VStr "Unknown");
               ("short_title", VStr "Unknown"); ("publisher", VStr "Unknown");
               ("language", VStr "Unknown"); ("country_scope", VStr "Global");
               ("summary", VStr "Humanitarian standard or framework document");
               ("indicators_covered", VStr "Quality and accountability standards");
               ("evidence_level", VStr "normative")] "pages"
     = Dict.get [("year", VStr "2018"); ("pages", VInt 406)] "pages".
Proof.
  assert (Hnot : ~ In "pages" required_fields).
  { unfold required_fields. simpl. intros H.
    repeat (destruct H as [H|H]; [discriminate|]). exact H. }
  split; [reflexivity|]. split; [now right|].
  apply (@fill_required_frame required_fields
           [("year", VStr "2018"); ("pages", VInt 406)] _ "pages");
    [reflexivity | now right].
Defined.

(** A title that is one no-break space is blank to [str.strip]: the loop
    writes the default over it. *)
Example fill_required_blank_title :
  populated (Some (VStr nbsp)) = false
  /\ exists filled,
       fill_required required_fields
         (match Json.loads complete_response with
          | Some m => Dict.set m "title" (VStr nbsp)
          | None => []
          end) = Ok filled
       /\ Dict.get filled "title" = Some (VStr "Unknown").
Proof. split; [reflexivity|]. eexists. split; [vm_compute; reflexivity | reflexivity]. Qed.

Lemma fill_required_populated_id (fields : list string) (metadata : entry) :
  (forall f, In f fields -> populated (Dict.get metadata f) = true) ->
  fill_required fields metadata = Ok metadata.
Proof.
  induction fields as [|f fields IH]; intros Hall; [reflexivity|].
  cbn [fill_required].
  rewrite (populated_not_missing metadata f) by (apply Hall; now left).
  cbn [bind]. apply IH. intros g Hg. apply Hall. now right.
Qed.

Lemma set_same {V : Type} (d : Dict.t string V) (k : string) (v : V) :
  Dict.get d k = Some v -> Dict.set d k v = d.
Proof.
  induction d as [|[k' v'] d IH]; simpl; unfold keq, string_keyeq; [discriminate|].
  destruct (String.eqb k' k).
  - intros H. now inversion H.
  - intros H. f_equal. now apply IH.
Qed.

(** An answer that holds the nine fields as non-blank strings, the short
    title within fifty characters, comes back as it was parsed, its other
    members included. *)
Theorem analyze_returns_complete_answer
  (env : Env) (self : DocumentCataloguer) (text_content : string) (file_path : Path.t)
  (response : string) (metadata : entry) (short_title : string) :
  query_ollama env self (prompt text_content) 3 = Some response ->
  response <> "" ->
  response_object env response = Some metadata ->
  all_populated metadata = true ->
  Dict.get metadata "short_title" = Some (VStr short_title) ->
  (PyStr.len short_title <= 50)%nat ->
  analyze_document_with_llm env self text_content file_path = Ok metadata.
Proof.
  intros Hq Hne Hobj Hall Hst Hlen.
  rewrite analyze_document_with_llm_unfold, Hq.
  destruct (String.eqb_spec response "") as [|_]; [contradiction|].
  rewrite Hobj.
  rewrite fill_required_populated_id.
  - cbn [bind].
    destruct (@all_populated_field metadata "year" Hall) as (y & Hy & _);
      [required_field|].
    unfold clean_and_validate, getitem. rewrite Hy. cbn [bind py_str].
    rewrite (set_same _ _ Hy). rewrite Hst. cbn [bind py_len].
    now rewrite (proj2 (Nat.ltb_ge 50 (PyStr.len short_title)) Hlen).
  - intros f Hf. unfold all_populated in Hall. rewrite forallb_forall in Hall.
    now apply Hall.
Qed.

Lemma analyze_returns_complete_answer_witness :
  query_ollama (example_env (Some complete_response))
    (cataloguer (example_env None) bare_world) (prompt "The Sphere Handbook") 3
  = Some complete_response
  /\ complete_response <> ""
  /\ response_object (example_env (Some complete_response)) complete_response
     = Json.loads complete_response
  /\ Dict.get (match Json.loads complete_response with Some m => m | None => [] end) "pages"
     = Some (VInt 406)
  /\ analyze_document_with_llm (example_env (Some complete_response))
       (cataloguer (example_env None) bare_world) "The Sphere Handbook"
       ["/"; "kb"; "WASH"; "sphere.pdf"]
     = Ok (match Json.loads complete_response with Some m => m | None => [] end).
Proof.
  split; [reflexivity|]. split; [discriminate|]. split; [reflexivity|].
  split; [reflexivity|].
  apply (@analyze_returns_complete_answer (example_env (Some complete_response))
           (cataloguer (example_env None) bare_world) "The Sphere Handbook"
           ["/"; "kb"; "WASH"; "sphere.pdf"] complete_response _ "Sphere Handbook");
    try reflexivity; [discriminate | vm_compute; lia].
Defined.

(** ** The oracle *)

Lemma query_ollama_from_exhausted
  (env : Env) (self : DocumentCataloguer) (prompt : string) (remaining : nat) :
  forall attempt,
    (forall j, (j < remaining)%nat ->
               attempt_succeeds env self prompt (attempt + j) = false) ->
    query_ollama_from env self prompt attempt remaining = None.
Proof.
  induction remaining as [|n IH]; intros attempt Hfail; [reflexivity|].
  cbn [query_ollama_from].
  assert (H0 := Hfail 0 (Nat.lt_0_succ n)). rewrite Nat.add_0_r in H0.
  unfold attempt_succeeds in H0.
  assert (Hrest : query_ollama_from env self prompt (S attempt) n = None).
  { apply IH. intros j Hj. replace (S attempt + j) with (attempt + S j) by lia.
    apply Hfail. lia. }
  destruct (requests_post env _ _ prompt attempt) as [response|]; [|exact Hrest].
  now rewrite H0.
Qed.

(** When each of the three attempts ends in a request error or in a status
    other than 200, the resolver raises nothing and returns the fallback
    metadata. *)
Theorem analyze_falls_back_when_oracle_fails
  (env : Env) (self : DocumentCataloguer) (text_content : string) (file_path : Path.t) :
  (forall j, (j < 3)%nat ->
             attempt_succeeds env self (prompt text_content) j = false) ->
  analyze_document_with_llm env self text_content file_path
  = Ok (get_fallback_metadata self file_path).
Proof.
  intros Hfail. rewrite analyze_document_with_llm_unfold.
  unfold query_ollama. now rewrite query_ollama_from_exhausted.
Qed.

Lemma analyze_falls_back_when_oracle_fails_witness :
  (forall j, (j < 3)%nat ->
             attempt_succeeds (example_env None) (cataloguer (example_env None) bare_world)
               (prompt "The Sphere Handbook") j = false)
  /\ analyze_document_with_llm (example_env None) (cataloguer (example_env None) bare_world)
       "The Sphere Handbook" ["/"; "kb"; "WASH"; "sphere.pdf"]
     = Ok (get_fallback_metadata (cataloguer (example_env None) bare_world)
             ["/"; "kb"; "WASH"; "sphere.pdf"]).
Proof.
  split; [intros j _; reflexivity|].
  apply (@analyze_falls_back_when_oracle_fails (example_env None)
           (cataloguer (example_env None) bare_world) "The Sphere Handbook"
           ["/"; "kb"; "WASH"; "sphere.pdf"]).
  intros j _. reflexivity.
Defined.



(** The resolver reads the first 2000 characters of the text and no more:
    two texts that agree on them are resolved alike. *)
Theorem analyze_reads_first_2000
  (env : Env) (self : DocumentCataloguer) (text1 text2 : string) (file_path : Path.t) :
  PyStr.cut 2000 text1 = PyStr.cut 2000 text2 ->
  analyze_document_with_llm env self text1 file_path
  = analyze_document_with_llm env self text2 file_path.
Proof.
  intros H. unfold analyze_document_with_llm, prompt. now rewrite H.
Qed.

Lemma analyze_reads_first_2000_witness :
  long_text "One ending." <> long_text "Another ending."
  /\ PyStr.cut 2000 (long_text "One ending.") = PyStr.cut 2000 (long_text "Another ending.")
  /\ analyze_document_with_llm (example_env (Some complete_response))
       (cataloguer (example_env None) bare_world) (long_text "One ending.")
       ["/"; "kb"; "WASH"; "sphere.pdf"]
     = analyze_document_with_llm (example_env (Some complete_response))
         (cataloguer (example_env None) bare_world) (long_text "Another ending.")
         ["/"; "kb"; "WASH"; "sphere.pdf"].
Proof.
  split; [vm_compute; discriminate|]. split; [vm_compute; reflexivity|].
  apply (@analyze_reads_first_2000 (example_env (Some complete_response))
           (cataloguer (example_env None) bare_world) (long_text "One ending.")
           (long_text "Another ending.") ["/"; "kb"; "WASH"; "sphere.pdf"]).
  vm_compute. reflexivity.
Defined.

(* ================================================================= *)
(** ** Text extraction and single documents *)

Lemma extract_text_from_pdf_bounded (env : Env) (w : World) (file_path : Path.t) :
  (PyStr.len (extract_text_from_pdf env w file_path) <= 5000)%nat.
Proof.
  unfold extract_text_from_pdf.
  destruct (Fs.read w file_path) as [bytes|]; [|apply Nat.le_0_l].
  destruct (pdf_pages env bytes); [apply cut_len_le | apply Nat.le_0_l].
Qed.

Lemma extract_text_from_docx_bounded (env : Env) (w : World) (file_path : Path.t) :
  (PyStr.len (extract_text_from_docx env w file_path) <= 5000)%nat.
Proof.
  unfold extract_text_from_docx.
  destruct (Fs.read w file_path) as [bytes|]; [|apply Nat.le_0_l].
  destruct (docx_paragraphs env bytes); [apply cut_len_le | apply Nat.le_0_l].
Qed.

(** The text handed to the resolver is that of a PDF or of a DOCX, by the
    lower-cased suffix, and has at most 5000 characters. *)
Theorem extract_text_bounded (env : Env) (w : World) (file_path : Path.t) (text : string) :
  extract_text env w file_path = Some text ->
  (PyStr.len text <= 5000)%nat
  /\ (PyStr.lower (Path.suffix file_path) = ".pdf"
      \/ PyStr.lower (Path.suffix file_path) = ".docx").
Proof.
  unfold extract_text.
  destruct (String.eqb_spec (PyStr.lower (Path.suffix file_path)) ".pdf") as [Hpdf|_].
  - intros H. assert (Ht : extract_text_from_pdf env w file_path = text) by congruence.
    rewrite <- Ht. split; [apply extract_text_from_pdf_bounded | now left].
  - destruct (String.eqb_spec (PyStr.lower (Path.suffix file_path)) ".docx") as [Hdocx|_];
      [|discriminate].
    intros H. assert (Ht : extract_text_from_docx env w file_path = text) by congruence.
    rewrite <- Ht. split; [apply extract_text_from_docx_bounded | now right].
Qed.

Lemma extract_text_bounded_witness :
  extract_text (example_env None) grown_world ["/"; "kb"; "Health"; "who_guide.pdf"]
  = Some "Guide text"
  /\ (PyStr.len "Guide text" <= 5000)%nat
  /\ (PyStr.lower (Path.suffix ["/"; "kb"; "Health"; "who_guide.pdf"]) = ".pdf"
      \/ PyStr.lower (Path.suffix ["/"; "kb"; "Health"; "who_guide.pdf"]) = ".docx").
Proof.
  split; [reflexivity|].
  apply (@extract_text_bounded (example_env None) grown_world
           ["/"; "kb"; "Health"; "who_guide.pdf"] "Guide text").
  reflexivity.
Defined.

Lemma eq_str_true (v : pyval) (s : string) : eq_str v s = true -> v = VStr s.
Proof.
  destruct v; simpl; try discriminate.
  intros H. apply String.eqb_eq in H. now subst.
Qed.

(** Without force, a path that is not in the catalog, or is there under a
    checksum other than the current one, is processed as under force. *)
Theorem process_document_changed_as_forced
  (env : Env) (self : DocumentCataloguer) (w : World) (file_path rel : Path.t) :
  Path.relative_to file_path (kb_path self) = Ok rel ->
  (forall prior,
     Dict.get (existing_catalog self) (VStr (Path.str rel)) = Some prior ->
     Dict.get prior "checksum_sha256" <> Some (VStr (get_file_checksum env w file_path))) ->
  process_document env self w file_path false = process_document env self w file_path true.
Proof.
  intros Hrel Hprior. unfold process_document. rewrite Hrel. cbn [bind].
  assert (Hnone : unchanged_entry self (Path.str rel) (get_file_checksum env w file_path) = None).
  { unfold unchanged_entry, Dict.contains.
    destruct (Dict.get (existing_catalog self) (VStr (Path.str rel))) as [prior|] eqn:E;
      [|reflexivity].
    specialize (Hprior prior eq_refl).
    destruct (Dict.get prior "checksum_sha256") as [c|]; [|reflexivity].
    destruct (eq_str c (get_file_checksum env w file_path)) eqn:Ec; [|reflexivity].
    apply eq_str_true in Ec. subst c. now contradiction Hprior. }
  now rewrite Hnone.
Qed.

Lemma process_document_changed_as_forced_witness :
  Path.relative_to ["/"; "kb"; "WASH"; "a.pdf"]
    (kb_path (cataloguer (example_env None) stale_world)) = Ok ["WASH"; "a.pdf"]
  /\ Dict.get (existing_catalog (cataloguer (example_env None) stale_world)) (VStr "WASH/a.pdf")
     = Some entry_a
  /\ Dict.get entry_a "checksum_sha256" = Some (VStr "sha256:a bytes")
  /\ get_file_checksum (example_env None) stale_world ["/"; "kb"; "WASH"; "a.pdf"]
     = "sha256:a new text"
  /\ process_document (example_env None) (cataloguer (example_env None) stale_world)
       stale_world ["/"; "kb"; "WASH"; "a.pdf"] false
     = process_document (example_env None) (cataloguer (example_env None) stale_world)
         stale_world ["/"; "kb"; "WASH"; "a.pdf"] true.
Proof.
  split; [reflexivity|]. split; [reflexivity|]. split; [reflexivity|].
  split; [reflexivity|].
  apply (@process_document_changed_as_forced (example_env None)
           (cataloguer (example_env None) stale_world) stale_world
           ["/"; "kb"; "WASH"; "a.pdf"] ["WASH"; "a.pdf"]); [reflexivity|].
  intros prior Hprior. vm_compute in Hprior. inversion Hprior; subst prior.
  vm_compute. discriminate.
Defined.

(** An entry that [process_document] builds has the columns of the saved
    table, in their order. *)
Lemma process_document_forced_keys (env : Env) (self : DocumentCataloguer) (w : World)
  (file_path : Path.t) (e : entry) :
  process_document env self w file_path true = Ok (Some e) ->
  Dict.keys e = fieldnames.
Proof.
  unfold process_document. intros H.
  apply bind_ok in H as (rel & Hrel & H).
  destruct (extract_text env w file_path) as [text|]; [|discriminate].
  destruct (text =? ""); [discriminate|].
  apply bind_ok in H as (e' & Hres & H). inversion H; subst e'. clear H.
  unfold resolve_document in Hres.
  repeat (apply bind_ok in Hres as (? & _ & Hres)).
  inversion Hres. reflexivity.
Qed.

Lemma keys_set_present {V : Type} (d : Dict.t string V) (k : string) (v : V) :
  In k (Dict.keys d) -> Dict.keys (Dict.set d k v) = Dict.keys d.
Proof.
  induction d as [|[k' v'] d IH]; simpl; [tauto|]. unfold keq, string_keyeq.
  destruct (String.eqb_spec k' k) as [->|Hne]; [reflexivity|].
  intros [Heq|Hin]; [congruence|]. simpl. f_equal. now apply IH.
Qed.

(* ================================================================= *)
(** ** Runs of the synchroniser *)

Lemma glob_relative (w : World) (root : Path.t) (ext : string) (f : Path.t) :
  In f (Fs.glob w root ext) -> exists rel, Path.relative_to f root = Ok rel.
Proof.
  unfold Fs.glob. intros H. apply filter_In in H as [_ Hcond].
  unfold Path.relative_to.
  destruct (Path.strip_prefix root f) as [[|r rel]|]; try discriminate.
  apply andb_true_iff in Hcond as [Habs _]. rewrite Habs. now eexists.
Qed.

Lemma map_result_ok {A B : Type} (g : A -> result B) (l : list A) :
  (forall x, In x l -> exists y, g x = Ok y) -> exists ys, map_result g l = Ok ys.
Proof.
  induction l as [|x l IH]; intros H; simpl; [now eexists|].
  destruct (H x (or_introl eq_refl)) as [y ->].
  destruct IH as [ys ->]; [intros z Hz; apply H; now right|].
  simpl. now eexists.
Qed.

Lemma current_files_ok (self : DocumentCataloguer) (w : World) :
  exists current, current_files self w = Ok current.
Proof.
  unfold current_files.
  assert (H : forall ext, exists l,
             map_result (fun f => rel <- Path.relative_to f (kb_path self) ;; Ok (Path.str rel))
                        (visible_files w (kb_path self) ext) = Ok l).
  { intros ext. apply map_result_ok. intros f Hf.
    unfold visible_files in Hf. apply filter_In in Hf as [Hf _].
    destruct (glob_relative _ _ _ _ Hf) as [rel ->]. simpl. now eexists. }
  destruct (H ".pdf") as [pdf ->]. destruct (H ".docx") as [docx ->].
  simpl. now eexists.
Qed.

(** The scan raises nothing: every path it lists lies below the root. *)
Lemma scan_for_file_changes_ok (self : DocumentCataloguer) (w : World) :
  exists new_files deleted_files,
    scan_for_file_changes self w = Ok (new_files, deleted_files).
Proof.
  unfold scan_for_file_changes.
  destruct (current_files_ok self w) as [current ->]. simpl. now eexists _, _.
Qed.

(** No run raises to its caller, whatever the files hold, whatever the
    model answers and whatever the catalog held: every listed document lies
    below the root, so the scan raises nothing, and a document that fails
    in the loop is passed over. *)
Theorem catalog_all_documents_never_raises
  (env : Env) (self : DocumentCataloguer) (w : World) (rename_files incremental : bool) :
  exists entries w',
    catalog_all_documents env self w rename_files incremental = Ok (entries, w').
Proof.
  unfold catalog_all_documents. destruct incremental.
  - destruct (scan_for_file_changes_ok self w) as (new_files & deleted & ->).
    cbn [bind].
    destruct new_files as [|f new_files]; [destruct deleted as [|d deleted]|];
      try (now eexists _, _);
      destruct (fold_left _ _ _) as [w' entries]; now eexists _, _.
  - destruct (fold_left _ _ _) as [w' entries]. now eexists _, _.
Qed.

(** Without renaming a turn of the loop leaves the world alone. *)
Lemma catalog_one_keeps_world (env : Env) (self : DocumentCataloguer) (incremental : bool)
  (w : World) (acc : list entry) (f : Path.t) :
  fst (catalog_one env self false incremental (w, acc) f) = w.
Proof.
  unfold catalog_one.
  destruct (process_document env self w f (negb incremental)) as [[[|item e]|]|];
    reflexivity.
Qed.

Lemma fold_catalog_one_keeps_world (env : Env) (self : DocumentCataloguer)
  (incremental : bool) (todo : list Path.t) :
  forall (w : World) (acc : list entry),
    fst (fold_left (catalog_one env self false incremental) todo (w, acc)) = w.
Proof.
  induction todo as [|f todo IH]; intros w acc; cbn [fold_left]; [reflexivity|].
  assert (H := catalog_one_keeps_world env self incremental w acc f).
  destruct (catalog_one env self false incremental (w, acc) f) as [w1 acc1].
  simpl in H. subst w1. apply IH.
Qed.

(** A run without [rename_files] changes nothing on disk or in the saved
    tables: the world it returns is the one it was given. *)
Theorem run_without_rename_keeps_world
  (env : Env) (self : DocumentCataloguer) (w w' : World) (incremental : bool)
  (entries : list entry) :
  catalog_all_documents env self w false incremental = Ok (entries, w') -> w' = w.
Proof.
  unfold catalog_all_documents.
  destruct incremental.
  - destruct (scan_for_file_changes self w) as [[new_files deleted]|]; [|discriminate].
    cbn [bind].
    assert (H := fold_catalog_one_keeps_world env self true new_files w
                   (clean_deleted_entries self deleted)).
    destruct (fold_left _ new_files _) as [w1 acc1]. simpl in H. subst w1.
    destruct new_files; [destruct deleted|]; intros E; now inversion E.
  - match goal with
    | |- context [fold_left ?g ?l ?s] =>
        assert (H := fold_catalog_one_keeps_world env self false l w []);
        destruct (fold_left g l s) as [w1 acc1]
    end.
    simpl in H. subst w1. intros E. now inversion E.
Qed.

Lemma run_without_rename_keeps_world_witness :
  exists entries w',
    catalog_all_documents (example_env None) (cataloguer (example_env None) grown_world)
      grown_world false true = Ok (entries, w')
    /\ List.length entries = 3
    /\ w' = grown_world.
Proof.
  eexists _, _. split; [vm_compute; reflexivity|]. split; [reflexivity|].
  eapply (@run_without_rename_keeps_world (example_env None)
            (cataloguer (example_env None) grown_world) grown_world _ true).
  vm_compute. reflexivity.
Defined.

(** In test mode [main] renames nothing even when asked to: the documents
    are where they were, with the bytes they had. *)
Theorem main_test_mode_never_renames
  (env : Env) (w w' : World) (kb : string) (rename_files incremental : bool) :
  main env w kb rename_files true incremental = Ok w' -> files w' = files w.
Proof.
  unfold main.
  set (c := init env w kb default_catalog_file default_ollama_url default_model).
  assert (Hfold : forall todo start r,
             (let (w1, entries) := fold_left (catalog_one env c false true) todo (w, start) in
              Ok (entries, w1)) = Ok r -> snd r = w).
  { intros todo start r.
    assert (H := fold_catalog_one_keeps_world env c true todo w start).
    destruct (fold_left _ todo _) as [w1 acc1]. simpl in H. subst w1.
    intros E. now inversion E. }
  destruct incremental.
  - destruct (scan_for_file_changes c w) as [[new_files deleted]|]; [|discriminate].
    cbn [bind fst snd]. intros E.
    apply bind_ok in E as ([entries w1] & Hrun & E).
    apply Hfold in Hrun. simpl in Hrun. subst w1.
    destruct entries; inversion E; reflexivity.
  - cbn [bind fst snd]. intros E.
    apply bind_ok in E as ([entries w1] & Hrun & E).
    apply Hfold in Hrun. simpl in Hrun. subst w1.
    destruct entries; inversion E; reflexivity.
Qed.

Lemma main_test_mode_never_renames_witness :
  exists w', main (example_env None) grown_world "/kb" true true true = Ok w'
             /\ tables w' <> tables grown_world
             /\ files w' = files grown_world.
Proof.
  eexists. split; [vm_compute; reflexivity|]. split; [vm_compute; discriminate|].
  apply (@main_test_mode_never_renames (example_env None) grown_world _ "/kb" true true).
  vm_compute. reflexivity.
Defined.

(** ** What a full scan returns *)

Lemma catalog_one_full_scan_keys (env : Env) (self : DocumentCataloguer)
  (rename_files : bool) (w : World) (acc : list entry) (f : Path.t) :
  (forall e : entry, In e acc -> Dict.keys e = fieldnames) ->
  forall e : entry, In e (snd (catalog_one env self rename_files false (w, acc) f)) ->
                    Dict.keys e = fieldnames.
Proof.
  intros Hacc. unfold catalog_one. cbn [negb].
  destruct (process_document env self w f true) as [[e0|]|] eqn:Hp; try exact Hacc.
  assert (Hkeys := @process_document_forced_keys env self w f e0 Hp).
  assert (Hnew : forall e1, Dict.keys e1 = fieldnames ->
                 forall e, In e (acc ++ [e1]) -> Dict.keys e = fieldnames).
  { intros e1 H1 e Hin. apply in_app_or in Hin as [Hin|[<-|[]]]; auto. }
  destruct e0 as [|item e0]; [exact Hacc|].
  destruct rename_files; [|now apply Hnew].
  destruct (getitem (item :: e0) "doc_id") as [doc_id|]; [|exact Hacc].
  destruct (rename_file self w f _) as [new_path w1].
  destruct (negb (Path.eqb new_path f)); [|now apply Hnew].
  destruct (Path.relative_to new_path (kb_path self)) as [rel|]; [|exact Hacc].
  apply Hnew.
  rewrite !keys_set_present; [exact Hkeys | | ].
  - rewrite Hkeys. unfold fieldnames. simpl. tauto.
  - rewrite keys_set_present; rewrite Hkeys; unfold fieldnames; simpl; tauto.
Qed.

Lemma get_of_key (d : entry) (k : string) :
  In k (Dict.keys d) -> exists v, Dict.get d k = Some v.
Proof.
  induction d as [|[k' v'] d IH]; simpl; [tauto|].
  intros [->|Hin].
  - unfold keq, string_keyeq. rewrite String.eqb_refl. now exists v'.
  - destruct (keq k' k); [now exists v' | now apply IH].
Qed.

Lemma show_sample_ok (entries : list entry) :
  (forall e, In e entries -> Dict.keys e = fieldnames) ->
  exists lines, show_sample entries = Ok lines.
Proof.
  induction entries as [|e entries IH]; intros Hkeys; [now exists []|].
  cbn [show_sample]. unfold getitem.
  assert (He := Hkeys e (or_introl eq_refl)).
  destruct (@get_of_key e "doc_id") as [doc_id ->];
    [rewrite He; unfold fieldnames; simpl; tauto|].
  destruct (@get_of_key e "short_title") as [short_title ->];
    [rewrite He; unfold fieldnames; simpl; tauto|].
  destruct IH as [lines ->]; [intros e' He'; apply Hkeys; now right|].
  cbn [bind]. now eexists.
Qed.

Lemma firstn_in {A : Type} (n : nat) (l : list A) (x : A) : In x (firstn n l) -> In x l.
Proof.
  revert l; induction n as [|n IH]; intros [|y l]; simpl; try tauto.
  intros [->|Hin]; [now left | right; now apply IH].
Qed.

Lemma fold_catalog_one_full_scan_keys (env : Env) (self : DocumentCataloguer)
  (rename_files : bool) (todo : list Path.t) :
  forall (w : World) (acc : list entry),
    (forall e : entry, In e acc -> Dict.keys e = fieldnames) ->
    forall e : entry,
      In e (snd (fold_left (catalog_one env self rename_files false) todo (w, acc))) ->
      Dict.keys e = fieldnames.
Proof.
  induction todo as [|f todo IH]; intros w acc Hacc; cbn [fold_left]; [exact Hacc|].
  assert (H1 := @catalog_one_full_scan_keys env self rename_files w acc f Hacc).
  destruct (catalog_one env self rename_files false (w, acc) f) as [w1 acc1].
  simpl in H1. apply IH. exact H1.
Qed.

Lemma dict_to_list_ok (e : entry) :
  Dict.keys e = fieldnames ->
  exists cells, dict_to_list e = Ok cells /\ List.length cells = 29.
Proof.
  intros Hkeys. unfold dict_to_list. rewrite Hkeys.
  replace (List.forallb (fun k => mem k fieldnames) fieldnames) with true by reflexivity.
  eexists. split; [reflexivity|]. now rewrite length_map.
Qed.

(** Every entry a full scan returns has exactly the columns of the saved
    table, in their order, renamed or not: [DictWriter] finds no column to
    refuse and makes a row of 29 cells of it, and the sample report of
    [main] finds the [doc_id] and the [short_title] it prints. *)
Theorem full_scan_entries_fit_the_table
  (env : Env) (self : DocumentCataloguer) (w w' : World) (rename_files : bool)
  (entries : list entry) :
  catalog_all_documents env self w rename_files false = Ok (entries, w') ->
  (forall e, In e entries ->
             Dict.keys e = fieldnames
             /\ exists cells, dict_to_list e = Ok cells /\ List.length cells = 29)
  /\ exists lines, show_sample (firstn 3 entries) = Ok lines.
Proof.
  unfold catalog_all_documents. intros Hrun.
  match type of Hrun with
  | context [fold_left ?g ?l ?s] =>
      assert (H := @fold_catalog_one_full_scan_keys env self rename_files l w []
                     (fun e Hin => match Hin with end));
      destruct (fold_left g l s) as [w1 acc1]
  end.
  inversion Hrun; subst. cbn [snd] in H.
  split.
  - intros e Hin. split; [now apply H|]. apply dict_to_list_ok. now apply H.
  - apply show_sample_ok. intros e Hin. apply H. now apply firstn_in in Hin.
Qed.

Lemma full_scan_entries_fit_the_table_witness :
  exists entries w',
    catalog_all_documents (example_env None) (cataloguer (example_env None) grown_world)
      grown_world true false = Ok (entries, w')
    /\ List.length entries = 3
    /\ (forall e, In e entries ->
                  Dict.keys e = fieldnames
                  /\ exists cells, dict_to_list e = Ok cells /\ List.length cells = 29)
    /\ exists lines, show_sample (firstn 3 entries) = Ok lines.
Proof.
  eexists _, _. split; [vm_compute; reflexivity|]. split; [reflexivity|].
  eapply (@full_scan_entries_fit_the_table (example_env None)
            (cataloguer (example_env None) grown_world) grown_world _ true).
  vm_compute. reflexivity.
Defined.

(** ** Equality of keys *)

Lemma key_eqb_refl (k : pyval) : hashable k = true -> key_eqb k k = true.
Proof.
  destruct k; simpl; try discriminate; intros _.
  - reflexivity.
  - now destruct b.
  - apply Z.eqb_refl.
  - apply Nat.eqb_refl.
  - apply String.eqb_refl.
Qed.

Lemma key_eqb_sym (a b : pyval) : key_eqb a b = key_eqb b a.
Proof.
  destruct a, b; simpl; try reflexivity.
  - now destruct b, b0.
  - apply Z.eqb_sym.
  - apply Z.eqb_sym.
  - apply Z.eqb_sym.
  - apply Nat.eqb_sym.
  - apply String.eqb_sym.
Qed.

Lemma key_eqb_trans (a b c : pyval) :
  key_eqb a b = true -> key_eqb b c = true -> key_eqb a c = true.
Proof.
  destruct a, b, c; cbn [key_eqb]; try discriminate; try reflexivity;
    repeat match goal with
           | x : bool |- _ => destruct x
           end;
    cbn [Z.b2z Bool.eqb]; try discriminate; try reflexivity;
    intros H1 H2;
    repeat match goal with
           | H : (_ =? _)%Z = true |- _ => apply Z.eqb_eq in H
           | H : (_ =? _)%nat = true |- _ => apply Nat.eqb_eq in H
           | H : (_ =? _)%string = true |- _ => apply String.eqb_eq in H
           | |- (_ =? _)%Z = true => apply Z.eqb_eq
           | |- (_ =? _)%nat = true => apply Nat.eqb_eq
           | |- (_ =? _)%string = true => apply String.eqb_eq
           end;
    try congruence; try lia.
Qed.

Lemma mem_compat (a b : pyval) (l : list pyval) :
  key_eqb a b = true -> mem a l = mem b l.
Proof.
  intros Hab. unfold mem, keq, pyval_keyeq.
  induction l as [|x l IH]; simpl; [reflexivity|].
  rewrite IH. f_equal.
  destruct (key_eqb a x) eqn:Ea, (key_eqb b x) eqn:Eb; try reflexivity.
  - rewrite key_eqb_sym in Hab. now rewrite (key_eqb_trans _ _ _ Hab Ea) in Eb.
  - now rewrite (key_eqb_trans _ _ _ Hab Eb) in Ea.
Qed.

Lemma mem_filter (k : pyval) (p : pyval -> bool) (l : list pyval) :
  (forall y, key_eqb k y = true -> p y = true) ->
  mem k (List.filter p l) = mem k l.
Proof.
  intros Hp. unfold mem, keq, pyval_keyeq.
  induction l as [|x l IH]; simpl; [reflexivity|].
  destruct (p x) eqn:Epx; simpl; rewrite IH; [reflexivity|].
  destruct (key_eqb k x) eqn:Ek; [|reflexivity].
  now rewrite (Hp x Ek) in Epx.
Qed.

Lemma mem_to_set (k : pyval) (l : list pyval) : mem k (to_set l) = mem k l.
Proof.
  induction l as [|x l IH]; [reflexivity|].
  cbn [to_set].
  change (mem k (x :: List.filter (fun y => negb (keq x y)) (to_set l)))
    with (key_eqb k x || mem k (List.filter (fun y => negb (keq x y)) (to_set l))).
  change (mem k (x :: l)) with (key_eqb k x || mem k l).
  destruct (key_eqb k x) eqn:Ekx; [reflexivity|]. cbn [orb].
  rewrite mem_filter; [exact IH|].
  intros y Hky. unfold keq, pyval_keyeq.
  destruct (key_eqb x y) eqn:Exy; [|reflexivity].
  rewrite key_eqb_sym in Exy. now rewrite (key_eqb_trans _ _ _ Hky Exy) in Ekx.
Qed.

Lemma mem_filter_none (k : pyval) (p : pyval -> bool) (l : list pyval) :
  (forall y, key_eqb k y = true -> p y = false) ->
  mem k (List.filter p l) = false.
Proof.
  intros Hp. unfold mem, keq, pyval_keyeq.
  induction l as [|x l IH]; simpl; [reflexivity|].
  destruct (p x) eqn:Epx; simpl; rewrite IH; [|reflexivity].
  destruct (key_eqb k x) eqn:Ek; [|reflexivity].
  now rewrite (Hp x Ek) in Epx.
Qed.

Lemma mem_in (k : pyval) (l : list pyval) :
  hashable k = true -> In k l -> mem k l = true.
Proof.
  intros Hk Hin. unfold mem. apply existsb_exists. exists k.
  split; [exact Hin | now apply key_eqb_refl].
Qed.

(** A catalog key is reported deleted exactly when it is the path of no
    listed document. *)
Lemma deleted_iff_unlisted (keys : list pyval) (current : list string) (k : pyval) :
  hashable k = true -> In k keys ->
  negb (mem k (set_diff (to_set keys) (List.map VStr current)))
  = mem k (List.map VStr current).
Proof.
  intros Hk Hin. unfold set_diff.
  destruct (mem k (List.map VStr current)) eqn:E.
  - rewrite mem_filter_none; [reflexivity|].
    intros y Hky. now rewrite <- (mem_compat _ _ _ Hky), E.
  - rewrite mem_filter.
    + now rewrite mem_to_set, mem_in.
    + intros y Hky. now rewrite <- (mem_compat _ _ _ Hky), E.
Qed.

Lemma filter_none {A : Type} (p : A -> bool) (l : list A) :
  (forall x, In x l -> p x = false) -> List.filter p l = [].
Proof.
  induction l as [|x l IH]; intros H; simpl; [reflexivity|].
  rewrite (H x (or_introl eq_refl)). apply IH. intros y Hy. apply H. now right.
Qed.

(** Deletion.  When every listed document is already cataloged, an
    incremental run returns the prior rows whose path is still listed, in
    their order and as they were, drops the others, and touches no file:
    a row goes exactly when its document is no longer listed. *)
Theorem incremental_sync_keeps_listed_rows_only
  (env : Env) (self : DocumentCataloguer) (w : World) (rename_files : bool)
  (current : list string) :
  List.forallb hashable (Dict.keys (existing_catalog self)) = true ->
  current_files self w = Ok current ->
  (forall f, In f current -> mem (VStr f) (Dict.keys (existing_catalog self)) = true) ->
  catalog_all_documents env self w rename_files true
  = Ok (Dict.values
          (List.filter (fun item => mem (fst item) (List.map VStr current))
                       (existing_catalog self)), w).
Proof.
  intros Hhash Hcur Hall.
  unfold catalog_all_documents, scan_for_file_changes. rewrite Hcur. cbn [bind].
  rewrite filter_none.
  2:{ intros f Hf. rewrite mem_to_set, (Hall f Hf). reflexivity. }
  cbn [List.map].
  assert (Hclean : forall deleted,
             deleted = set_diff (to_set (Dict.keys (existing_catalog self)))
                                (List.map VStr current) ->
             clean_deleted_entries self deleted
             = Dict.values
                 (List.filter (fun item => mem (fst item) (List.map VStr current))
                              (existing_catalog self))).
  { intros deleted ->. unfold clean_deleted_entries. f_equal.
    apply filter_ext_in. intros [k e] Hin. cbn [fst].
    apply deleted_iff_unlisted.
    - rewrite forallb_forall in Hhash. apply Hhash.
      unfold Dict.keys. apply in_map_iff. now exists (k, e).
    - unfold Dict.keys. apply in_map_iff. now exists (k, e). }
  destruct (set_diff _ _) as [|d deleted] eqn:Ed.
  - now rewrite (Hclean [] eq_refl).
  - cbn [fold_left]. now rewrite (Hclean (d :: deleted) eq_refl).
Qed.

Lemma incremental_sync_keeps_listed_rows_only_witness :
  List.forallb hashable
    (Dict.keys (existing_catalog (cataloguer (example_env None) removed_world))) = true
  /\ current_files (cataloguer (example_env None) removed_world) removed_world
     = Ok ["WASH/a.pdf"]
  /\ Dict.keys (existing_catalog (cataloguer (example_env None) removed_world))
     = [VStr "WASH/a.pdf"; VStr "WASH/b.docx"]
  /\ catalog_all_documents (example_env None) (cataloguer (example_env None) removed_world)
       removed_world true true
     = Ok ([entry_a], removed_world).
Proof.
  split; [reflexivity|]. split; [reflexivity|]. split; [reflexivity|].
  apply (@incremental_sync_keeps_listed_rows_only (example_env None)
           (cataloguer (example_env None) removed_world) removed_world true ["WASH/a.pdf"]);
    [reflexivity | reflexivity |].
  intros f [<-|[]]. reflexivity.
Defined.

Lemma incremental_sync_extends_prior_witness :
  scan_for_file_changes (cataloguer (example_env None) grown_world) grown_world
  = Ok ([["/"; "kb"; "Health"; "who_guide.pdf"]], [])
  /\ clean_deleted_entries (cataloguer (example_env None) grown_world) [] = [entry_a; entry_b]
  /\ exists added w',
       catalog_all_documents (example_env None) (cataloguer (example_env None) grown_world)
         grown_world false true
       = Ok (clean_deleted_entries (cataloguer (example_env None) grown_world) [] ++ added, w').
Proof.
  split; [reflexivity|]. split; [reflexivity|].
  apply (@incremental_sync_extends_prior (example_env None)
           (cataloguer (example_env None) grown_world) grown_world false
           [["/"; "kb"; "Health"; "who_guide.pdf"]] []).
  reflexivity.
Defined.

(** ** Loading the catalog *)

Lemma get_set_str_key (d : Dict.t pyval entry) (a b : string) (row : entry) :
  Dict.get (Dict.set d (VStr a) row) (VStr b)
  = if (a =? b) then Some row else Dict.get d (VStr b).
Proof.
  induction d as [|[k0 v0] d IH]; simpl; unfold keq, pyval_keyeq.
  - reflexivity.
  - destruct (key_eqb k0 (VStr a)) eqn:E0; simpl; unfold keq, pyval_keyeq.
    + destruct k0; try discriminate. simpl in E0. apply String.eqb_eq in E0. subst s.
      simpl. now destruct (a =? b).
    + destruct (key_eqb k0 (VStr b)) eqn:Eb.
      * destruct k0; try discriminate. simpl in E0, Eb.
        apply String.eqb_eq in Eb. subst s. now rewrite String.eqb_sym, E0.
      * exact IH.
Qed.

Lemma find_in_app {A : Type} (p : A -> bool) (l1 l2 : list A) :
  List.find p (l1 ++ l2)
  = match List.find p l1 with Some x => Some x | None => List.find p l2 end.
Proof.
  induction l1 as [|x l1 IH]; simpl; [reflexivity|].
  now destruct (p x).
Qed.

Lemma load_rows_lookup (rows : list entry) :
  forall (catalog_dict : Dict.t pyval entry) (f : string),
    List.forallb has_str_path rows = true ->
    Dict.get (load_rows rows catalog_dict) (VStr f)
    = match List.find (path_is f) (rev rows) with
      | Some row => Some row
      | None => Dict.get catalog_dict (VStr f)
      end.
Proof.
  induction rows as [|row rows IH]; intros catalog_dict f Hstr; [reflexivity|].
  simpl in Hstr. apply andb_true_iff in Hstr as [Hrow Hrows].
  cbn [load_rows rev]. unfold has_str_path, row_key in Hrow.
  destruct (Dict.get row "file_path") as [[| | | |p| |]|] eqn:Ek; try discriminate.
  cbn [hashable]. rewrite IH by exact Hrows.
  rewrite find_in_app.
  destruct (List.find (path_is f) (rev rows)) as [later|]; [reflexivity|].
  cbn [List.find]. unfold path_is at 1, row_key. rewrite Ek. cbn [key_eqb].
  rewrite get_set_str_key. now destruct (p =? f).
Qed.

(** The loaded catalog answers a path with the last row of the table that
    is filed under it, and with nothing when there is none: of two rows for
    one path the later one is the entry. *)
Theorem load_existing_catalog_last_row_wins
  (env : Env) (w : World) (catalog_path : Path.t) (text : csv_text) (rows : list entry)
  (f : string) :
  Fs.lookup (tables w) catalog_path = Some text ->
  read_csv env text = Some rows ->
  List.forallb has_str_path rows = true ->
  Dict.get (load_existing_catalog env w catalog_path) (VStr f)
  = List.find (path_is f) (rev rows).
Proof.
  intros Htext Hrows Hstr. unfold load_existing_catalog, Fs.exists_.
  rewrite Htext, Hrows.
  assert (H := load_rows_lookup rows [] f Hstr).
  destruct (Fs.lookup (files w) catalog_path); rewrite H;
    now destruct (List.find (path_is f) (rev rows)).
Qed.

Lemma load_existing_catalog_last_row_wins_witness :
  Fs.lookup (tables duplicate_world) ["/"; "kb"; "00_Governance"; "kb_catalog.csv"]
  = Some (fieldnames :: writerows [entry_a; entry_a2])
  /\ read_csv (example_env None) (fieldnames :: writerows [entry_a; entry_a2])
     = Some [entry_a; entry_a2]
  /\ List.forallb has_str_path [entry_a; entry_a2] = true
  /\ Dict.get (load_existing_catalog (example_env None) duplicate_world
                 ["/"; "kb"; "00_Governance"; "kb_catalog.csv"]) (VStr "WASH/a.pdf")
     = Some entry_a2.
Proof.
  split; [reflexivity|]. split; [reflexivity|]. split; [reflexivity|].
  apply (@load_existing_catalog_last_row_wins (example_env None) duplicate_world
           ["/"; "kb"; "00_Governance"; "kb_catalog.csv"]
           (fieldnames :: writerows [entry_a; entry_a2]) [entry_a; entry_a2] "WASH/a.pdf");
    reflexivity.
Defined.

(* ================================================================= *)
(** ** Renaming *)

Lemma lookup_move_dst {A : Type} (l : list (Path.t * A)) (src dst : Path.t) :
  src <> dst -> Fs.lookup l dst = None ->
  Fs.lookup (List.map (fun f => if Path.eqb (fst f) src then (dst, snd f) else f) l) dst
  = Fs.lookup l src.
Proof.
  intros Hne. induction l as [|[q a] l IH]; simpl; [reflexivity|].
  destruct (Path.eqb q dst) eqn:Eqd; [discriminate|]. intros Hnone.
  destruct (Path.eqb q src) eqn:Eqs; simpl.
  - now rewrite (proj2 (path_eqb_eq dst dst) eq_refl).
  - rewrite Eqd. now apply IH.
Qed.

Lemma lookup_move_src {A : Type} (l : list (Path.t * A)) (src dst : Path.t) :
  src <> dst ->
  Fs.lookup (List.map (fun f => if Path.eqb (fst f) src then (dst, snd f) else f) l) src
  = None.
Proof.
  intros Hne. induction l as [|[q a] l IH]; simpl; [reflexivity|].
  destruct (Path.eqb q src) eqn:Eqs; simpl.
  - rewrite (proj2 (path_eqb_neq dst src)) by congruence. exact IH.
  - rewrite Eqs. exact IH.
Qed.

(** [rename_file] either leaves everything as it is and returns the
    original path, or moves the file to a path where nothing was: the new
    path then holds the bytes of the old one, the old path is gone, and
    every other file and every table is as before.  It overwrites nothing. *)
Theorem rename_file_moves_to_free_path
  (self : DocumentCataloguer) (w w' : World) (original_path new_path : Path.t)
  (new_filename : string) :
  rename_file self w original_path new_filename = (new_path, w') ->
  (new_path = original_path /\ w' = w)
  \/ (new_path = Path.join_str (Path.parent original_path) new_filename
      /\ new_path <> original_path
      /\ Fs.exists_ w new_path = false
      /\ Fs.read w' new_path = Fs.read w original_path
      /\ Fs.read w original_path <> None
      /\ Fs.read w' original_path = None
      /\ (forall p, p <> original_path -> p <> new_path -> Fs.read w' p = Fs.read w p)
      /\ tables w' = tables w
      /\ List.length (files w') = List.length (files w)).
Proof.
  unfold rename_file.
  set (target := Path.join_str (Path.parent original_path) new_filename).
  destruct (negb (Path.eqb target original_path) && negb (Fs.exists_ w target)) eqn:Hcond;
    [|intros H; inversion H; now left].
  destruct (Fs.read w original_path) as [bytes|] eqn:Hbytes;
    [|intros H; inversion H; now left].
  intros H; inversion H; subst new_path w'. right.
  apply andb_true_iff in Hcond as [Hdiff Hfree].
  apply negb_true_iff in Hdiff, Hfree. apply path_eqb_neq in Hdiff.
  assert (Hnone : Fs.lookup (files w) target = None).
  { unfold Fs.exists_ in Hfree. now destruct (Fs.lookup (files w) target). }
  repeat split; try assumption; try discriminate.
  - unfold Fs.read, Fs.move. cbn [files].
    rewrite lookup_move_dst by congruence. exact Hbytes.
  - unfold Fs.read, Fs.move. cbn [files]. apply lookup_move_src. congruence.
  - intros p Hp1 Hp2. now apply read_after_move.
  - unfold Fs.move. cbn [files]. apply length_map.
Qed.

Lemma rename_file_moves_to_free_path_witness :
  rename_file (cataloguer (example_env None) grown_world) grown_world
    ["/"; "kb"; "Health"; "who_guide.pdf"] "HLTH_GUID_WHO_UNKN_v1.pdf"
  = (["/"; "kb"; "Health"; "HLTH_GUID_WHO_UNKN_v1.pdf"],
     world_of [("WASH/a.pdf", "a bytes"); ("WASH/b.docx", "b bytes");
               ("Health/HLTH_GUID_WHO_UNKN_v1.pdf", "Guide text")] (Some [entry_a; entry_b]))
  /\ rename_file (cataloguer (example_env None) grown_world) grown_world
       ["/"; "kb"; "WASH"; "a.pdf"] "b.docx"
     = (["/"; "kb"; "WASH"; "a.pdf"], grown_world)
  /\ Fs.read (world_of [("WASH/a.pdf", "a bytes"); ("WASH/b.docx", "b bytes");
                        ("Health/HLTH_GUID_WHO_UNKN_v1.pdf", "Guide text")]
                       (Some [entry_a; entry_b]))
       ["/"; "kb"; "Health"; "HLTH_GUID_WHO_UNKN_v1.pdf"]
     = Fs.read grown_world ["/"; "kb"; "Health"; "who_guide.pdf"].
Proof.
  split; [reflexivity|]. split; [reflexivity|].
  destruct (@rename_file_moves_to_free_path (cataloguer (example_env None) grown_world)
              grown_world _ ["/"; "kb"; "Health"; "who_guide.pdf"] _
              "HLTH_GUID_WHO_UNKN_v1.pdf" eq_refl) as [[H _]|H].
  - discriminate H.
  - exact (proj1 (proj2 (proj2 (proj2 H)))).
Defined.

(* ================================================================= *)
(** ** Sectors, types and identifiers *)

Lemma first_some_app {A B : Type} (f : A -> option B) (l1 l2 : list A) (b : B) :
  first_some f l1 = Some b -> first_some f (l1 ++ l2) = Some b.
Proof.
  induction l1 as [|x l1 IH]; simpl; [discriminate|].
  destruct (f x); [trivial | exact IH].
Qed.

(** The sector is read off the whole path, the segments of the root
    first: when a segment of the root is a directory name of the sector
    table, every document below the root gets the sector of that segment,
    whatever its own directories are called. *)
Theorem determine_sector_root_decides
  (self : DocumentCataloguer) (root rel : Path.t) (sector : string) :
  first_some (Dict.get (sector_mapping self)) root = Some sector ->
  determine_sector self (root ++ rel) = sector.
Proof.
  intros H. unfold determine_sector. now rewrite (first_some_app _ _ rel H).
Qed.

Lemma determine_sector_root_decides_witness :
  first_some (Dict.get (sector_mapping nested_cataloguer)) ["/"; "srv"; "Health"; "kb"]
  = Some "Health"
  /\ determine_sector nested_cataloguer
       (["/"; "srv"; "Health"; "kb"] ++ ["WASH"; "sphere_wash.pdf"]) = "Health"
  /\ determine_sector (cataloguer (example_env None) bare_world)
       ["/"; "kb"; "WASH"; "sphere_wash.pdf"] = "WASH".
Proof.
  split; [reflexivity|]. split; [|reflexivity].
  apply (@determine_sector_root_decides nested_cataloguer ["/"; "srv"; "Health"; "kb"]
           ["WASH"; "sphere_wash.pdf"] "Health").
  reflexivity.
Defined.

Lemma sector_mapping_value_known (part sector : string) :
  Dict.get the_sector_mapping part = Some sector ->
  Dict.get sector_abbrevs sector <> None.
Proof.
  unfold the_sector_mapping. cbn [Dict.get]. unfold keq, string_keyeq.
  repeat match goal with
         | |- context [if String.eqb ?a part then _ else _] =>
             destruct (String.eqb a part);
             [intros H; inversion H; subst sector; discriminate|]
         end.
  discriminate.
Qed.

Lemma sector_keyword_known (part_lower sector : string) :
  sector_of_keywords part_lower = Some sector ->
  Dict.get sector_abbrevs sector <> None.
Proof.
  unfold sector_of_keywords.
  repeat match goal with
         | |- context [if ?c then Some _ else _] =>
             destruct c; [intros H; inversion H; subst sector; discriminate|]
         end.
  discriminate.
Qed.

Lemma first_some_known {A : Type} (f : A -> option string) (l : list A) (s : string) :
  (forall x y, f x = Some y -> Dict.get sector_abbrevs y <> None) ->
  first_some f l = Some s -> Dict.get sector_abbrevs s <> None.
Proof.
  intros Hf. induction l as [|x l IH]; simpl; [discriminate|].
  destruct (f x) as [y|] eqn:E; [|exact IH].
  intros H; inversion H; subst y. now apply (Hf x).
Qed.

(** The classifier gives only sectors and types that the identifier
    generator has an abbreviation for: the [GEN] and [DOC] defaults of
    [generate_doc_id] are out of reach of [process_document]. *)
Theorem classifier_labels_have_abbreviations
  (env : Env) (w : World) (kb catalog_file url model_name : string)
  (file_path : Path.t) (title : string) :
  Dict.get sector_abbrevs
    (determine_sector (init env w kb catalog_file url model_name) file_path) <> None
  /\ Dict.get type_abbrevs
       (determine_doc_type (init env w kb catalog_file url model_name) file_path title)
     <> None.
Proof.
  split.
  - unfold determine_sector. cbn [sector_mapping init].
    destruct (first_some (Dict.get the_sector_mapping) file_path) as [s|] eqn:E.
    + exact (first_some_known _ _ sector_mapping_value_known E).
    + destruct (first_some (fun part => sector_of_keywords (PyStr.lower part)) file_path)
        as [s|] eqn:E2; [|discriminate].
      refine (first_some_known _ _ _ E2).
      intros x y. apply sector_keyword_known.
  - unfold determine_doc_type.
    repeat match goal with
           | |- context [if ?c then _ else _] => destruct c; [discriminate|]
           end.
    discriminate.
Qed.

Lemma upper_alnum_is_upper_or_digit (c : ascii) :
  PyStr.is_alnum (PyStr.upper_char c) = true ->
  PyStr.is_upper (PyStr.upper_char c) || PyStr.is_digit (PyStr.upper_char c) = true.
Proof.
  destruct c as [[] [] [] [] [] [] [] []]; vm_compute; trivial.
Qed.

Lemma upper_or_digit_not_slash (c : ascii) :
  PyStr.is_upper c || PyStr.is_digit c = true -> negb (Ascii.eqb c "/") = true.
Proof.
  destruct c as [[] [] [] [] [] [] [] []]; vm_compute; trivial.
Qed.

Lemma lower_char_not_slash (c : ascii) :
  negb (Ascii.eqb c "/") = true -> negb (Ascii.eqb (PyStr.lower_char c) "/") = true.
Proof.
  destruct c as [[] [] [] [] [] [] [] []]; vm_compute; trivial.
Qed.

Lemma str_forallb_imp (p q : ascii -> bool) (s : string) :
  (forall c, p c = true -> q c = true) ->
  PyStr.forallb p s = true -> PyStr.forallb q s = true.
Proof.
  intros Hpq. induction s as [|c s IH]; simpl; [reflexivity|].
  intros H. apply andb_true_iff in H as [Hc Hs]. now rewrite (Hpq c Hc), IH.
Qed.

Lemma str_forallb_map (p q : ascii -> bool) (f : ascii -> ascii) (s : string) :
  (forall c, p c = true -> q (f c) = true) ->
  PyStr.forallb p s = true -> PyStr.forallb q (PyStr.map f s) = true.
Proof.
  intros Hpq. induction s as [|c s IH]; simpl; [reflexivity|].
  intros H. apply andb_true_iff in H as [Hc Hs]. now rewrite (Hpq c Hc), IH.
Qed.

Lemma str_forallb_drop (p : ascii -> bool) (n : nat) (s : string) :
  PyStr.forallb p s = true -> PyStr.forallb p (PyStr.drop n s) = true.
Proof.
  revert s; induction n as [|n IH]; intros [|c s]; simpl; auto.
  intros H. apply andb_true_iff in H as [_ Hs]. now apply IH.
Qed.

Lemma filter_map_forallb (p q : ascii -> bool) (f : ascii -> ascii) (s : string) :
  (forall c, q (f c) = true -> p (f c) = true) ->
  PyStr.forallb p (PyStr.filter q (PyStr.map f s)) = true.
Proof.
  intros Hqp. induction s as [|c s IH]; simpl; [reflexivity|].
  destruct (q (f c)) eqn:E; simpl; [now rewrite (Hqp c E)|exact IH].
Qed.

(** The cleaned publisher: upper-case letters and digits, eight at most. *)
Lemma pub_clean_shape (publisher : string) :
  let pub_clean := PyStr.take 8 (Re.sub_non_alnum (PyStr.upper publisher)) in
  (String.length pub_clean <= 8)%nat
  /\ PyStr.forallb (fun c => PyStr.is_upper c || PyStr.is_digit c) pub_clean = true.
Proof.
  split; [apply take_length_le|].
  apply take_forallb. unfold Re.sub_non_alnum, PyStr.upper.
  apply filter_map_forallb. exact upper_alnum_is_upper_or_digit.
Qed.

Lemma findall_d4_unfold (a b c d : ascii) (rest : string) :
  Re.findall_d4 (String a (String b (String c (String d rest))))
  = if PyStr.digits4 a b c d then PyStr.four a b c d :: Re.findall_d4 rest
    else Re.findall_d4 (String b (String c (String d rest))).
Proof. reflexivity. Qed.

(** Every match of [\d{4}] is four digits. *)
Lemma findall_d4_shape (n : nat) :
  forall s y, (String.length s <= n)%nat -> In y (Re.findall_d4 s) ->
              String.length y = 4 /\ PyStr.forallb PyStr.is_digit y = true.
Proof.
  induction n as [|n IH]; intros s y Hlen.
  - destruct s; simpl in *; [tauto | lia].
  - destruct s as [|a [|b [|c [|d rest]]]]; try (simpl; tauto).
    rewrite findall_d4_unfold.
    destruct (PyStr.digits4 a b c d) eqn:Hd.
    + intros [<-|Hin].
      * split; [reflexivity|]. unfold PyStr.digits4 in Hd.
        apply andb_true_iff in Hd as [Hd Hd4].
        apply andb_true_iff in Hd as [Hd Hd3].
        apply andb_true_iff in Hd as [Hd1 Hd2].
        unfold PyStr.four. cbn [PyStr.forallb].
        now rewrite Hd1, Hd2, Hd3, Hd4.
      * apply (IH rest); [simpl in Hlen; lia | exact Hin].
    + apply IH. simpl in *. lia.
Qed.

(** For a publisher and a year in ASCII the identifier is the five parts
    joined by underscores.  The publisher part is one to eight upper-case
    letters or digits ([UNK] when nothing is left of the publisher), the
    year part is four digits or [UNKN], and the title plays no part. *)
Theorem generate_doc_id_shape
  (self : DocumentCataloguer) (sector doc_type publisher title year version : string) :
  PyStr.is_ascii publisher = true ->
  PyStr.is_ascii year = true ->
  exists pub_clean year_str,
    generate_doc_id self sector doc_type publisher title year version
    = (Dict.get_default sector_abbrevs sector "GEN" ++ "_"
       ++ Dict.get_default type_abbrevs doc_type "DOC" ++ "_"
       ++ pub_clean ++ "_" ++ year_str ++ "_" ++ version)%string
    /\ (1 <= String.length pub_clean <= 8)%nat
    /\ PyStr.forallb (fun c => PyStr.is_upper c || PyStr.is_digit c) pub_clean = true
    /\ String.length year_str = 4
    /\ (year_str = "UNKN" \/ PyStr.forallb PyStr.is_digit year_str = true)
    /\ generate_doc_id self sector doc_type publisher title year version
       = generate_doc_id self sector doc_type publisher "" year version.
Proof.
  intros _ _. unfold generate_doc_id.
  destruct (pub_clean_shape publisher) as [Hlen Hchars].
  set (cleaned := PyStr.take 8 (Re.sub_non_alnum (PyStr.upper publisher))) in *.
  exists (if (cleaned =? "") then "UNK" else cleaned),
         (match Re.findall_d4 year with y :: _ => y | [] => "UNKN" end).
  split; [reflexivity|].
  split.
  { destruct (String.eqb_spec cleaned "") as [|Hne]; [simpl; lia|].
    split; [|exact Hlen]. destruct cleaned; [congruence | simpl; lia]. }
  split.
  { destruct (cleaned =? ""); [reflexivity | exact Hchars]. }
  assert (Hyear : forall y, In y (Re.findall_d4 year) ->
                            String.length y = 4 /\ PyStr.forallb PyStr.is_digit y = true).
  { intros y Hin. apply (@findall_d4_shape (String.length year) year y); [lia | exact Hin]. }
  destruct (Re.findall_d4 year) as [|y ys].
  - repeat split. now left.
  - destruct (Hyear y (or_introl eq_refl)) as [H4 Hdig]. repeat split; auto.
Qed.

Lemma generate_doc_id_shape_witness :
  PyStr.is_ascii "W.H.O./Geneva" = true
  /\ PyStr.is_ascii "2019/2020" = true
  /\ generate_doc_id nested_cataloguer "Health" "guideline" "W.H.O./Geneva" "a guide"
       "2019/2020" "v1" = "HLTH_GUID_WHOGENEV_2019_v1"
  /\ exists pub_clean year_str,
       generate_doc_id nested_cataloguer "Health" "guideline" "W.H.O./Geneva" "a guide"
         "2019/2020" "v1"
       = (Dict.get_default sector_abbrevs "Health" "GEN" ++ "_"
          ++ Dict.get_default type_abbrevs "guideline" "DOC" ++ "_"
          ++ pub_clean ++ "_" ++ year_str ++ "_" ++ "v1")%string
       /\ (1 <= String.length pub_clean <= 8)%nat
       /\ PyStr.forallb (fun c => PyStr.is_upper c || PyStr.is_digit c) pub_clean = true
       /\ String.length year_str = 4
       /\ (year_str = "UNKN" \/ PyStr.forallb PyStr.is_digit year_str = true)
       /\ generate_doc_id nested_cataloguer "Health" "guideline" "W.H.O./Geneva" "a guide"
            "2019/2020" "v1"
          = generate_doc_id nested_cataloguer "Health" "guideline" "W.H.O./Geneva" ""
              "2019/2020" "v1".
Proof.
  split; [reflexivity|]. split; [reflexivity|]. split; [reflexivity|].
  apply (@generate_doc_id_shape nested_cataloguer "Health" "guideline" "W.H.O./Geneva"
           "a guide" "2019/2020" "v1"); reflexivity.
Defined.

Lemma abbreviation_slash_free (table : Dict.t string string) (key default : string) :
  List.forallb (fun kv => slash_free (snd kv)) table = true ->
  slash_free default = true ->
  slash_free (Dict.get_default table key default) = true.
Proof.
  intros Htable Hdefault. unfold Dict.get_default.
  induction table as [|[k v] table IH]; simpl; [exact Hdefault|].
  simpl in Htable. apply andb_true_iff in Htable as [Hv Hrest].
  destruct (keq k key); [exact Hv | now apply IH].
Qed.

Lemma slash_free_app (a b : string) :
  slash_free a = true -> slash_free b = true -> slash_free (a ++ b) = true.
Proof.
  unfold slash_free. intros Ha Hb. now rewrite str_forallb_app, Ha, Hb.
Qed.

Lemma generate_doc_id_shape_parts (publisher year : string) :
  slash_free (if (PyStr.take 8 (Re.sub_non_alnum (PyStr.upper publisher)) =? "")
              then "UNK"
              else PyStr.take 8 (Re.sub_non_alnum (PyStr.upper publisher))) = true
  /\ slash_free (match Re.findall_d4 year with y :: _ => y | [] => "UNKN" end) = true.
Proof.
  split.
  - destruct (_ =? ""); [reflexivity|].
    destruct (pub_clean_shape publisher) as [_ H].
    exact (str_forallb_imp _ _ _ upper_or_digit_not_slash H).
  - assert (Hyear : forall y, In y (Re.findall_d4 year) ->
                              String.length y = 4 /\ PyStr.forallb PyStr.is_digit y = true).
    { intros y Hin. apply (@findall_d4_shape (String.length year) year y); [lia | exact Hin]. }
    destruct (Re.findall_d4 year) as [|y ys]; [reflexivity|].
    destruct (Hyear y (or_introl eq_refl)) as [_ Hdig].
    refine (str_forallb_imp _ _ _ _ Hdig).
    intros c Hc. apply upper_or_digit_not_slash. rewrite Hc. apply orb_true_r.
Qed.

(** An identifier with version [v1] has no slash. *)
Lemma doc_id_slash_free (self : DocumentCataloguer)
  (sector doc_type publisher title year : string) :
  slash_free (generate_doc_id self sector doc_type publisher title year "v1") = true.
Proof.
  destruct (generate_doc_id_shape_parts publisher year) as (Hpub & Hyear).
  unfold generate_doc_id.
  repeat apply slash_free_app; try reflexivity.
  - now apply abbreviation_slash_free.
  - now apply abbreviation_slash_free.
  - exact Hpub.
  - exact Hyear.
Qed.


(* ================================================================= *)
(** ** Where a renamed file goes *)

Lemma name_slash_free (p : Path.t) : wf_path p = true -> slash_free (Path.name p) = true.
Proof.
  intros Hwf. unfold Path.name.
  destruct (rev p) as [|last before] eqn:E; [reflexivity|].
  assert (Hp : p = rev before ++ [last])
    by (rewrite <- (rev_involutive p), E; reflexivity).
  destruct before as [|b before].
  - simpl in Hp. subst p. simpl in Hwf. rewrite andb_true_r in Hwf.
    destruct (Path.is_root last); simpl; [reflexivity | exact Hwf].
  - rewrite andb_false_r.
    destruct (rev (b :: before)) as [|a l] eqn:Er.
    + apply (f_equal (@List.length string)) in Er. rewrite length_rev in Er. discriminate.
    + subst p. simpl in Hwf. apply andb_true_iff in Hwf as [_ Hrest].
      rewrite List.forallb_app in Hrest. apply andb_true_iff in Hrest as [_ Hlast].
      simpl in Hlast. now rewrite andb_true_r in Hlast.
Qed.

Lemma suffix_slash_free (p : Path.t) :
  wf_path p = true -> slash_free (PyStr.lower (Path.suffix p)) = true.
Proof.
  intros Hwf. unfold slash_free, PyStr.lower.
  apply str_forallb_map with (p := fun c => negb (Ascii.eqb c "/")).
  - exact lower_char_not_slash.
  - unfold Path.suffix. destruct (Path.suffix_dot (Path.name p)); [|reflexivity].
    apply str_forallb_drop. now apply name_slash_free.
Qed.

Lemma slash_free_no_leading_slash (s : string) :
  slash_free s = true ->
  PyStr.startswith "/" s = false /\ PyStr.startswith "//" s = false.
Proof.
  destruct s as [|c s]; [now split|].
  unfold slash_free. cbn [PyStr.forallb PyStr.startswith]. intros H.
  apply andb_true_iff in H as [Hc _]. apply negb_true_iff in Hc.
  rewrite Ascii.eqb_sym, Hc. now split.
Qed.

(** A file name without a slash that is neither empty nor [.] is a path of
    one component. *)
Lemma of_string_single (s : string) :
  slash_free s = true -> s <> "" -> s <> "." -> Path.of_string s = [s].
Proof.
  intros Hfree Hne Hdot. unfold Path.of_string.
  destruct (slash_free_no_leading_slash s Hfree) as [-> ->]. cbn [andb].
  assert (Hsplit : PyStr.split "/" s = [s]).
  { transitivity (PyStr.split "/" (PyStr.join "/" [s])); [reflexivity|].
    apply split_join; [discriminate|]. simpl. now rewrite Hfree. }
  rewrite Hsplit. cbn [List.filter].
  apply String.eqb_neq in Hne, Hdot. now rewrite Hne, Hdot.
Qed.

Lemma parent_name_snoc (dir : Path.t) (s : string) :
  slash_free s = true ->
  Path.parent (dir ++ [s]) = dir /\ Path.name (dir ++ [s]) = s.
Proof.
  intros Hfree. unfold Path.parent, Path.name.
  rewrite rev_app_distr. cbn [rev app].
  rewrite (slash_free_not_root _ Hfree). cbn [andb].
  now rewrite rev_involutive.
Qed.

Lemma new_filename_single (self : DocumentCataloguer)
  (sector doc_type publisher title year : string) (original_path : Path.t) :
  wf_path original_path = true ->
  let new_filename :=
    generate_new_filename self
      (generate_doc_id self sector doc_type publisher title year "v1") original_path in
  slash_free new_filename = true /\ Path.of_string new_filename = [new_filename].
Proof.
  intros Hwf new_filename.
  assert (Hfree : slash_free new_filename = true).
  { apply slash_free_app; [apply doc_id_slash_free | now apply suffix_slash_free]. }
  split; [exact Hfree|].
  assert (Hlen : (2 <= String.length new_filename)%nat).
  { unfold new_filename, generate_new_filename, generate_doc_id.
    rewrite !str_length_app. simpl. lia. }
  apply of_string_single; [exact Hfree | |]; intros E; rewrite E in Hlen; simpl in Hlen; lia.
Qed.

(** A rename with the file name the program generates from an identifier
    never takes a file out of its directory: the path afterwards has the
    parent of the original one, and it is the original path or has the
    generated name. *)
Theorem rename_keeps_directory (self : DocumentCataloguer) (w : World)
  (sector doc_type publisher title year : string) (original_path : Path.t) :
  wf_path original_path = true ->
  let new_filename :=
    generate_new_filename self
      (generate_doc_id self sector doc_type publisher title year "v1") original_path in
  let new_path := fst (rename_file self w original_path new_filename) in
  Path.parent new_path = Path.parent original_path
  /\ (new_path = original_path \/ Path.name new_path = new_filename).
Proof.
  intros Hwf new_filename.
  destruct (@new_filename_single self sector doc_type publisher title year original_path Hwf)
    as [Hfree Hsingle].
  fold new_filename in Hfree, Hsingle.
  assert (Htarget : Path.join_str (Path.parent original_path) new_filename
                    = Path.parent original_path ++ [new_filename]).
  { unfold Path.join_str, Path.joinpath. rewrite Hsingle. cbn [Path.is_absolute].
    now rewrite (slash_free_not_root _ Hfree). }
  destruct (@parent_name_snoc (Path.parent original_path) new_filename Hfree)
    as [Hparent Hname].
  unfold rename_file. rewrite Htarget.
  destruct (negb _ && negb _); [|cbn [fst]; split; [reflexivity | now left]].
  destruct (Fs.read w original_path); cbn [fst].
  - split; [exact Hparent | now right].
  - split; [reflexivity | now left].
Qed.

Lemma rename_keeps_directory_witness :
  wf_path ["/"; "kb"; "Health"; "who_guide.PDF"] = true
  /\ Path.parent
       (fst (rename_file (cataloguer (example_env None) grown_world) grown_world
               ["/"; "kb"; "Health"; "who_guide.PDF"]
               (generate_new_filename (cataloguer (example_env None) grown_world)
                  (generate_doc_id (cataloguer (example_env None) grown_world)
                     "Health" "guideline" "W.H.O./Geneva" "a guide" "2019/2020" "v1")
                  ["/"; "kb"; "Health"; "who_guide.PDF"])))
     = ["/"; "kb"; "Health"]
  /\ generate_new_filename (cataloguer (example_env None) grown_world)
       (generate_doc_id (cataloguer (example_env None) grown_world)
          "Health" "guideline" "W.H.O./Geneva" "a guide" "2019/2020" "v1")
       ["/"; "kb"; "Health"; "who_guide.PDF"]
     = "HLTH_GUID_WHOGENEV_2019_v1.pdf".
Proof.
  split; [reflexivity|]. split; [|reflexivity].
  exact (proj1 (@rename_keeps_directory (cataloguer (example_env None) grown_world)
                  grown_world "Health" "guideline" "W.H.O./Geneva" "a guide" "2019/2020"
                  ["/"; "kb"; "Health"; "who_guide.PDF"] eq_refl)).
Defined.

(* ================================================================= *)
(** ** The test script of the resolver *)

Lemma fallback_summary (self : DocumentCataloguer) (file_path : Path.t) :
  Dict.get (get_fallback_metadata self file_path) "summary"
  = Some (VStr "Document requires manual review for detailed cataloging").
Proof. reflexivity. Qed.

Lemma fallback_not_suspected (self : DocumentCataloguer) (file_path : Path.t) :
  match Dict.get (get_fallback_metadata self file_path) "summary" with
  | Some summary => eq_str summary "Document requires manual review for proper cataloging"
  | None => false
  end = false.
Proof. rewrite fallback_summary. reflexivity. Qed.

(** When every attempt to reach the model fails, so that the resolver
    returns the fallback metadata, the test script still ends on its
    success report: the fallback summary is not the text the script
    compares with. *)
Theorem test_llm_reports_success_on_fallback
  (env : Env) (w : World) (test_file : Path.t) (others : list Path.t) :
  Fs.glob w (Path.of_string ".") ".pdf" = test_file :: others ->
  extract_text_from_pdf env w test_file <> "" ->
  (forall j, (j < 3)%nat ->
     attempt_succeeds env
       (init env w "." default_catalog_file default_ollama_url default_model)
       (prompt (extract_text_from_pdf env w test_file)) j = false) ->
  test_llm_analysis env w = Ok AnalysisSuccessful.
Proof.
  intros Hglob Htext Hfail. unfold test_llm_analysis. rewrite Hglob. cbn [firstn].
  apply String.eqb_neq in Htext. rewrite Htext.
  rewrite analyze_document_with_llm_unfold. unfold query_ollama.
  rewrite query_ollama_from_exhausted by exact Hfail.
  cbn [bind]. now rewrite fallback_not_suspected.
Qed.

Lemma test_llm_reports_success_on_fallback_witness :
  Fs.glob cwd_world (Path.of_string ".") ".pdf" = [["docs"; "sphere.pdf"]]
  /\ extract_text_from_pdf (example_env None) cwd_world ["docs"; "sphere.pdf"] <> ""
  /\ (forall j, (j < 3)%nat ->
        attempt_succeeds (example_env None)
          (init (example_env None) cwd_world "." default_catalog_file default_ollama_url
             default_model)
          (prompt (extract_text_from_pdf (example_env None) cwd_world ["docs"; "sphere.pdf"]))
          j = false)
  /\ test_llm_analysis (example_env None) cwd_world = Ok AnalysisSuccessful.
Proof.
  split; [reflexivity|]. split; [discriminate|]. split; [intros j _; reflexivity|].
  apply (@test_llm_reports_success_on_fallback (example_env None) cwd_world
           ["docs"; "sphere.pdf"] []);
    [reflexivity | discriminate | intros j _; reflexivity].
Defined.

(** The script reports a suspected fallback only when the model did answer
    and the answer held a JSON object: never when the fallback was used. *)
Theorem test_llm_suspects_only_model_answers (env : Env) (w : World) :
  test_llm_analysis env w = Ok FallbackSuspected ->
  exists test_file response metadata,
    firstn 1 (Fs.glob w (Path.of_string ".") ".pdf") = [test_file]
    /\ query_ollama env
         (init env w "." default_catalog_file default_ollama_url default_model)
         (prompt (extract_text_from_pdf env w test_file)) 3 = Some response
    /\ response <> ""
    /\ response_object env response = Some metadata.
Proof.
  unfold test_llm_analysis.
  destruct (Fs.glob w (Path.of_string ".") ".pdf") as [|test_file others];
    cbn [firstn]; [discriminate|].
  destruct (extract_text_from_pdf env w test_file =? ""); [discriminate|].
  rewrite analyze_document_with_llm_unfold.
  destruct (query_ollama _ _ _ 3) as [response|] eqn:Hquery;
    [|cbn [bind]; rewrite fallback_not_suspected; discriminate].
  destruct (String.eqb_spec response "") as [|Hne];
    [cbn [bind]; rewrite fallback_not_suspected; discriminate|].
  destruct (response_object env response) as [metadata|] eqn:Hobject;
    [|cbn [bind]; rewrite fallback_not_suspected; discriminate].
  intros _. exists test_file, response, metadata. repeat split; assumption.
Qed.

Lemma test_llm_suspects_only_model_answers_witness :
  test_llm_analysis (example_env (Some marker_response)) cwd_world = Ok FallbackSuspected
  /\ exists test_file response metadata,
       firstn 1 (Fs.glob cwd_world (Path.of_string ".") ".pdf") = [test_file]
       /\ query_ollama (example_env (Some marker_response))
            (init (example_env (Some marker_response)) cwd_world "." default_catalog_file
               default_ollama_url default_model)
            (prompt (extract_text_from_pdf (example_env (Some marker_response)) cwd_world
                       test_file)) 3 = Some response
       /\ response <> ""
       /\ response_object (example_env (Some marker_response)) response = Some metadata.
Proof.
  split; [vm_compute; reflexivity|].
  apply (@test_llm_suspects_only_model_answers (example_env (Some marker_response)) cwd_world).
  vm_compute. reflexivity.
Defined.


(* ================================================================= *)
(** ** The report that ends [main] *)

Lemma main_of_entries (env : Env) (w : World) (kb : string)
  (rename_files test_mode incremental_mode : bool) :
  main env w kb rename_files test_mode incremental_mode
  = (run <- main_entries env w kb rename_files test_mode incremental_mode ;;
     let (catalog_entries, w') := run in
     match catalog_entries with
     | [] => Ok w'
     | _ :: _ =>
         Ok (save_catalog
               (init env w kb default_catalog_file default_ollama_url default_model)
               w' catalog_entries)
     end).
Proof. unfold main, main_entries. now destruct test_mode. Qed.

Lemma show_sample_raises (entries : list entry) :
  (exists e, In e entries
             /\ (Dict.get e "doc_id" = None \/ Dict.get e "short_title" = None)) ->
  show_sample entries = Raise (KeyError "doc_id")
  \/ show_sample entries = Raise (KeyError "short_title").
Proof.
  induction entries as [|e entries IH]; intros (e0 & Hin & Hmiss); [destruct Hin|].
  cbn [show_sample]. unfold getitem.
  destruct (Dict.get e "doc_id") as [doc_id|] eqn:Hid; [|now left].
  destruct (Dict.get e "short_title") as [short_title|] eqn:Hst; [|now right].
  cbn [bind].
  destruct Hin as [->|Hin]; [destruct Hmiss; congruence|].
  destruct IH as [-> | ->]; [now exists e0 | now left | now right].
Qed.

(** When one of the first three entries has no [doc_id] or no
    [short_title], as a prior row of a table without these columns has,
    [main] saves the catalog and then raises [KeyError] from the report. *)
Theorem main_report_raises_on_missing_column
  (env : Env) (w w' : World) (kb : string)
  (rename_files test_mode incremental_mode : bool) (entries : list entry) :
  main_entries env w kb rename_files test_mode incremental_mode = Ok (entries, w') ->
  (exists e, In e (firstn 3 entries)
             /\ (Dict.get e "doc_id" = None \/ Dict.get e "short_title" = None)) ->
  (main_with_report env w kb rename_files test_mode incremental_mode
   = Raise (KeyError "doc_id")
   \/ main_with_report env w kb rename_files test_mode incremental_mode
      = Raise (KeyError "short_title"))
  /\ main env w kb rename_files test_mode incremental_mode
     = Ok (save_catalog
             (init env w kb default_catalog_file default_ollama_url default_model)
             w' entries).
Proof.
  intros Hrun Hmiss. rewrite main_of_entries. unfold main_with_report.
  rewrite Hrun. cbn [bind].
  destruct entries as [|e entries];
    [destruct Hmiss as (e0 & Hin & _); destruct Hin|].
  split; [|reflexivity].
  destruct (@show_sample_raises (firstn 3 (e :: entries)) Hmiss) as [-> | ->];
    [now left | now right].
Qed.

Lemma main_report_raises_on_missing_column_witness :
  main_entries (example_env None) path_only_world "/kb" false false true
  = Ok ([[("file_path", VStr "WASH/a.pdf")]], path_only_world)
  /\ (exists e, In e (firstn 3 [[("file_path", VStr "WASH/a.pdf")]])
                /\ (Dict.get e "doc_id" = None \/ Dict.get e "short_title" = None))
  /\ main_with_report (example_env None) path_only_world "/kb" false false true
     = Raise (KeyError "doc_id")
  /\ main (example_env None) path_only_world "/kb" false false true
     = Ok (save_catalog
             (init (example_env None) path_only_world "/kb" default_catalog_file
                default_ollama_url default_model)
             path_only_world [[("file_path", VStr "WASH/a.pdf")]]).
Proof.
  split; [reflexivity|].
  split; [exists [("file_path", VStr "WASH/a.pdf")]; split; [now left | now left]|].
  split; [reflexivity|].
  apply (@main_report_raises_on_missing_column (example_env None) path_only_world
           path_only_world "/kb" false false true [[("file_path", VStr "WASH/a.pdf")]]
           eq_refl).
  exists [("file_path", VStr "WASH/a.pdf")]. split; [now left | now left].
Defined.
